(** * Cabana main window (tools/cabana/mainwin.cc)

    A shallow embedding of the slots of [MainWindow] and of what they do to
    the window's own fields, to the undo stack, to the open DBC files and to
    the collaborators the window calls (dialogs, file system, stream).

    The window is a record; every slot is a function from window to window,
    or to an [outcome] where the slot has an assertion. What the slot shows
    or asks outside (message boxes, status messages, calls to the DBC
    manager) is appended to the window's [log]. What the outside answers
    comes from an abstract [World] through the operations of the class
    [Collaborators].

    Qt's signals are direct connections on one thread: a signal emitted by
    the undo stack or by the DBC manager runs the connected slot of the
    window before the emitting call returns. [QUndoStack] is embedded as Qt
    documents it (commands, index, clean index).

    [toggleFullScreen] and [dockCharts] work on state that no other slot
    reads (the state flags of the window and its bars, the place of the
    charts) and are embedded on records of their own.

    Left out: the layout built by the constructor (docks, menus other than
    the ones the slots update, shortcuts, status label), the settings and
    the similar-bits dialogs, the help overlay with its painting and its
    deferred deletion, and the geometry that [closeEvent] stores. *)

From Stdlib Require Import ZArith NArith String Ascii List Lia Bool.
From stdpp Require Import base option gmap strings list sorting pretty.
From Equations Require Import Equations.

Open Scope Z_scope.

(** Keeps the equation of a test for the branches that depend on it. *)
Definition inspect {A} (a : A) : {b | a = b} := exist _ a eq_refl.

(** ** QString: [tr] and [arg] *)

(** No translator is installed by this file: [tr] gives back its source text. *)
Definition tr (s : string) : string := s.

Definition isEmpty (s : string) : bool := bool_decide (s = "").

Module QString.

(** A format string cut at its place markers: [%n] or [%Ln], with one or
    two digits. For a string argument the two forms are replaced alike. *)
Inductive piece :=
| Lit (c : ascii)
| Esc (n : nat) (raw : string).

Definition digitValue (c : ascii) : option nat :=
  let n := nat_of_ascii c in
  if ((48 <=? n) && (n <=? 57))%nat then Some (n - 48)%nat else None.

Fixpoint parse (t : string) : list piece :=
  match t with
  | EmptyString => []
  | String c t1 =>
    if Ascii.eqb c "%" then
      match t1 with
      | EmptyString => [Lit c]
      | String d1 t2 =>
        if Ascii.eqb d1 "L" then
          match t2 with
          | EmptyString => [Lit c; Lit d1]
          | String e1 t3 =>
            match digitValue e1 with
            | None => Lit c :: Lit d1 :: parse t2
            | Some n1 =>
              match t3 with
              | EmptyString =>
                [Esc n1 (String c (String d1 (String e1 EmptyString)))]
              | String e2 t4 =>
                match digitValue e2 with
                | None =>
                  Esc n1 (String c (String d1 (String e1 EmptyString)))
                    :: parse t3
                | Some n2 =>
                  Esc (10 * n1 + n2)
                      (String c (String d1 (String e1 (String e2 EmptyString))))
                    :: parse t4
                end
              end
            end
          end
        else
          match digitValue d1 with
          | None => Lit c :: parse t1
          | Some n1 =>
            match t2 with
            | EmptyString => [Esc n1 (String c (String d1 EmptyString))]
            | String d2 t3 =>
              match digitValue d2 with
              | None => Esc n1 (String c (String d1 EmptyString)) :: parse t2
              | Some n2 =>
                Esc (10 * n1 + n2) (String c (String d1 (String d2 EmptyString)))
                  :: parse t3
              end
            end
          end
      end
    else Lit c :: parse t1
  end.

Fixpoint lowest (ps : list piece) : option nat :=
  match ps with
  | [] => None
  | Lit _ :: ps' => lowest ps'
  | Esc n _ :: ps' =>
    match lowest ps' with
    | None => Some n
    | Some m => Some (Nat.min n m)
    end
  end.

Fixpoint render (m : nat) (a : string) (ps : list piece) : string :=
  match ps with
  | [] => ""
  | Lit c :: ps' => String c (render m a ps')
  | Esc n raw :: ps' =>
    (if (n =? m)%nat then a else raw) +:+ render m a ps'
  end.

(** [fmt.arg(a)]: every occurrence of the lowest numbered place marker is
    replaced by [a]; a format without marker is returned as it is. *)
Definition arg (fmt a : string) : string :=
  let ps := parse fmt in
  match lowest ps with
  | None => fmt
  | Some m => render m a ps
  end.

(** The lowest marker above [m]. *)
Fixpoint lowest_above (m : nat) (ps : list piece) : option nat :=
  match ps with
  | [] => None
  | Lit _ :: ps' => lowest_above m ps'
  | Esc n _ :: ps' =>
    if (m <? n)%nat then
      match lowest_above m ps' with
      | None => Some n
      | Some k => Some (Nat.min n k)
      end
    else lowest_above m ps'
  end.

Fixpoint render2 (m1 : nat) (a1 : string) (m2 : option nat) (a2 : string)
    (ps : list piece) : string :=
  match ps with
  | [] => ""
  | Lit c :: ps' => String c (render2 m1 a1 m2 a2 ps')
  | Esc n raw :: ps' =>
    (if (n =? m1)%nat then a1
     else if bool_decide (m2 = Some n) then a2
     else raw) +:+ render2 m1 a1 m2 a2 ps'
  end.

(** [fmt.arg(a1, a2)]: the lowest marker becomes [a1] and the next one
    [a2], in one pass. *)
Definition arg2 (fmt a1 a2 : string) : string :=
  let ps := parse fmt in
  match lowest ps with
  | None => fmt
  | Some m1 => render2 m1 a1 (lowest_above m1 ps) a2 ps
  end.

End QString.

(** ** QJsonDocument, as far as [fingerprint_to_dbc] is used *)

Inductive QJsonData :=
| JsonNull
| JsonBool (b : bool)
| JsonDouble
| JsonString (s : string)
| JsonArray
| JsonObject.

(** A [QJsonValue] is [None] when it is [QJsonValue::Undefined]. *)
Definition QJsonValue := option QJsonData.

Definition toString (v : QJsonValue) : string :=
  match v with
  | Some (JsonString s) => s
  | _ => ""
  end.

Inductive QJsonDocument :=
| JsonDocNull
| JsonDocArray
| JsonDocObject (members : gmap string QJsonData).

(** [doc[key]]: undefined when the key is absent or the document is not an
    object. *)
Definition json_at (doc : QJsonDocument) (key : string) : QJsonValue :=
  match doc with
  | JsonDocObject members => members !! key
  | _ => None
  end.

(** ** QUndoStack *)

Module QUndoStack.

(** The commands are kept by their texts. [clean_index] is -1 after
    [resetClean]. Macros are not used by this window and are left out. *)
Record t := mk {
  command_list : list string;
  index : Z;
  clean_index : Z
}.

Definition count (u : t) : Z := Z.of_nat (length (command_list u)).

Definition text (u : t) (idx : Z) : string :=
  if (idx <? 0) || (count u <=? idx) then ""
  else nth (Z.to_nat idx) (command_list u) "".

Definition isClean (u : t) : bool := clean_index u =? index u.

Definition wf (u : t) : Prop := 0 <= index u <= count u.

End QUndoStack.

(** ** Widgets owned by the window *)

Module QMessageBox.
Inductive StandardButton := Ok | Cancel | Yes | No | NoButton.

Definition eqb (a b : StandardButton) : bool :=
  match a, b with
  | Ok, Ok | Cancel, Cancel | Yes, Yes | No, No | NoButton, NoButton => true
  | _, _ => false
  end.
End QMessageBox.

(** A [uint8_t] bus number is an [N] below 256; [uint8] is the cast. *)
Definition uint8 (n : N) : N := (n mod 256)%N.

Abbreviation SourceSet := (gset N).

(** An action of the menu "Open DBC File for Bus": its data is the bus. *)
Record BusAction := {
  bus_text : string;
  bus_data : N
}.

(** [action->data().value<uint8_t>()] *)
Definition value_uint8 (a : BusAction) : N := uint8 (bus_data a).

Record QMenu := {
  menu_enabled : bool;
  menu_actions : list BusAction
}.

(** One of the [recent_files_acts]. *)
Record RecentAction := {
  recent_text : string;
  recent_data : string;
  recent_visible : bool
}.

Record QProgressBar := {
  bar_value : Z;
  bar_format : string;
  bar_visible : bool
}.

Record Settings := {
  recent_files : list string;
  last_dir : string
}.

(** ** Collaborators

    Everything the window calls that is not in mainwin.cc: the constants of
    its headers, [DBCFile] and [DBCManager], the stream [can], and the Qt
    dialogs and file queries. [World] is whatever these depend on and change
    (file system, clipboard, the user, the stream). Nothing is assumed of
    them: the properties below hold for every instance. *)

(** What a call to the DBC manager leaves behind: its result and the text
    it wrote to [error], the open files, the world, and how often it
    emitted [DBCFileChanged]. *)
Record ManagerResult (World DBCFile : Type) := {
  mr_ok : bool;
  mr_error : string;
  mr_files : list (SourceSet * DBCFile);
  mr_world : World;
  mr_changed : nat
}.
Arguments mr_ok {World DBCFile} _.
Arguments mr_error {World DBCFile} _.
Arguments mr_files {World DBCFile} _.
Arguments mr_world {World DBCFile} _.
Arguments mr_changed {World DBCFile} _.

Class Collaborators := {
  World : Type;
  DBCFile : Type;
  (* constants of the headers *)
  MAX_RECENT_FILES : nat;
  AUTO_SAVE_EXTENSION : string;
  OPENDBC_FILE_PATH : string;
  SOURCE_ALL : SourceSet;
  (* default arguments of loadFile(fn, s, close_all) in mainwin.h *)
  loadFile_default_s : SourceSet;
  loadFile_default_close_all : bool;
  (* DBCFile: the field filename, name(), and the methods that write files;
     saveAs gives the file under its new name *)
  filename : DBCFile → string;
  name : DBCFile → string;
  DBCFile_autoSave : DBCFile → World → World;
  DBCFile_cleanupAutoSaveFile : DBCFile → World → World;
  DBCFile_save : DBCFile → World → World;
  DBCFile_saveAs : string → DBCFile → World → DBCFile * World;
  DBCFile_generateDBC : DBCFile → World → string;
  (* DBCManager: closeAll(), open(s, file name, &error),
     open(s, name, content, &error), and its queries on dbc_files *)
  DBCManager_closeAll :
    list (SourceSet * DBCFile) → World → ManagerResult World DBCFile;
  DBCManager_open_file :
    SourceSet → string →
    list (SourceSet * DBCFile) → World → ManagerResult World DBCFile;
  DBCManager_open_text :
    SourceSet → string → string →
    list (SourceSet * DBCFile) → World → ManagerResult World DBCFile;
  msgCount : list (SourceSet * DBCFile) → Z;
  dbcCount : list (SourceSet * DBCFile) → Z;
  findDBCFile : N → list (SourceSet * DBCFile) → option (SourceSet * DBCFile);
  (* Qt: file queries, and the dialogs with the answer of the user *)
  QFile_exists : string → World → bool;
  (* QFile::open(ReadOnly) and QJsonDocument::fromJson(readAll()) on a path:
     None when the file cannot be opened *)
  QFile_readJson : string → World → option QJsonDocument;
  QFileInfo_absolutePath : string → World → string;
  QFileInfo_fileName : string → string;
  QDir_cleanPath : string → string;
  QMessageBox_question :
    string → string → list QMessageBox.StandardButton → World →
    QMessageBox.StandardButton * World;
  QFileDialog_getOpenFileName : string → string → string → World → string * World;
  QFileDialog_getSaveFileName : string → string → string → World → string * World;
  (* OpenRouteDialog: the result of exec() and of failedToLoad() *)
  OpenRouteDialog_exec : World → (bool * bool) * World;
  clipboard_text : World → string;
  clipboard_setText : string → World → World;
  (* the stream *)
  can_carFingerprint : World → string;
  can_liveStreaming : World → bool;
  can_routeName : World → string;
  (* download progress: the size as text, and (cur / (double)total) * 100 as
     the int given to setValue, a floating point computation *)
  formattedDataSize : N → string;
  percent : N → N → Z
}.

Section MainWindow.

Context `{Collaborators}.

(** ** What the window does outside itself *)

Inductive event :=
| StatusMessage (text : string) (timeout : Z)
| QuestionBox (title text : string)
| InformationBox (title text : string)
| WarningBox (title text detailed : string)
| FileExistsQuery (path : string)
| OpenFileDialog (caption dir filter : string)
| SaveFileDialog (caption path filter : string)
| RouteDialog
| DbcCloseAll
| DbcOpenFile (s : SourceSet) (fn : string)
| DbcOpenText (s : SourceSet) (dbc_name content : string)
| DbcFileAutoSave (f : DBCFile)
| DbcFileCleanup (f : DBCFile)
| DbcFileSave (f : DBCFile)
| DbcFileSaveAs (f : DBCFile) (fn : string)
| ClipboardSet (text : string)
| CenterClear
| ChartsRemoveAll
| SettingsSave
| WindowClose.

(** ** The window

    Its own fields, the two singletons it works on ([UndoStack::instance()]
    as [undo_stack], [dbc()->dbc_files] as [dbc_files]), the world and the
    log. An action is kept by what the slots set on it: [save_dbc] by its
    text, [save_dbc_as], [copy_dbc_to_clipboard] and [open_recent_menu] by
    their enabled flag, [video_dock] by its title. *)

Record MainWindow := mkMainWindow {
  settings : Settings;
  prev_undostack_index : Z;
  prev_undostack_count : Z;
  windowModified : bool;
  sources : SourceSet;
  fingerprint_to_dbc : QJsonDocument;
  progress_bar : QProgressBar;
  save_dbc : string;
  save_dbc_as : bool;
  copy_dbc_to_clipboard : bool;
  open_dbc_for_source : QMenu;
  recent_files_acts : list RecentAction;
  open_recent_menu : bool;
  video_dock : string;
  undo_stack : QUndoStack.t;
  dbc_files : list (SourceSet * DBCFile);
  world : World;
  log : list event
}.

Definition set_settings (v : Settings) (w : MainWindow) : MainWindow :=
  mkMainWindow v (prev_undostack_index w) (prev_undostack_count w)
    (windowModified w) (sources w) (fingerprint_to_dbc w) (progress_bar w)
    (save_dbc w) (save_dbc_as w) (copy_dbc_to_clipboard w)
    (open_dbc_for_source w) (recent_files_acts w) (open_recent_menu w)
    (video_dock w) (undo_stack w) (dbc_files w) (world w) (log w).

Definition set_prev_undostack_index (v : Z) (w : MainWindow) : MainWindow :=
  mkMainWindow (settings w) v (prev_undostack_count w) (windowModified w)
    (sources w) (fingerprint_to_dbc w) (progress_bar w) (save_dbc w)
    (save_dbc_as w) (copy_dbc_to_clipboard w) (open_dbc_for_source w)
    (recent_files_acts w) (open_recent_menu w) (video_dock w) (undo_stack w)
    (dbc_files w) (world w) (log w).

Definition set_prev_undostack_count (v : Z) (w : MainWindow) : MainWindow :=
  mkMainWindow (settings w) (prev_undostack_index w) v (windowModified w)
    (sources w) (fingerprint_to_dbc w) (progress_bar w) (save_dbc w)
    (save_dbc_as w) (copy_dbc_to_clipboard w) (open_dbc_for_source w)
    (recent_files_acts w) (open_recent_menu w) (video_dock w) (undo_stack w)
    (dbc_files w) (world w) (log w).

Definition set_windowModified (v : bool) (w : MainWindow) : MainWindow :=
  mkMainWindow (settings w) (prev_undostack_index w) (prev_undostack_count w)
    v (sources w) (fingerprint_to_dbc w) (progress_bar w) (save_dbc w)
    (save_dbc_as w) (copy_dbc_to_clipboard w) (open_dbc_for_source w)
    (recent_files_acts w) (open_recent_menu w) (video_dock w) (undo_stack w)
    (dbc_files w) (world w) (log w).

Definition set_sources (v : SourceSet) (w : MainWindow) : MainWindow :=
  mkMainWindow (settings w) (prev_undostack_index w) (prev_undostack_count w)
    (windowModified w) v (fingerprint_to_dbc w) (progress_bar w) (save_dbc w)
    (save_dbc_as w) (copy_dbc_to_clipboard w) (open_dbc_for_source w)
    (recent_files_acts w) (open_recent_menu w) (video_dock w) (undo_stack w)
    (dbc_files w) (world w) (log w).

Definition set_fingerprint_to_dbc (v : QJsonDocument) (w : MainWindow) : MainWindow :=
  mkMainWindow (settings w) (prev_undostack_index w) (prev_undostack_count w)
    (windowModified w) (sources w) v (progress_bar w) (save_dbc w)
    (save_dbc_as w) (copy_dbc_to_clipboard w) (open_dbc_for_source w)
    (recent_files_acts w) (open_recent_menu w) (video_dock w) (undo_stack w)
    (dbc_files w) (world w) (log w).

Definition set_progress_bar (v : QProgressBar) (w : MainWindow) : MainWindow :=
  mkMainWindow (settings w) (prev_undostack_index w) (prev_undostack_count w)
    (windowModified w) (sources w) (fingerprint_to_dbc w) v (save_dbc w)
    (save_dbc_as w) (copy_dbc_to_clipboard w) (open_dbc_for_source w)
    (recent_files_acts w) (open_recent_menu w) (video_dock w) (undo_stack w)
    (dbc_files w) (world w) (log w).

Definition set_save_dbc (v : string) (w : MainWindow) : MainWindow :=
  mkMainWindow (settings w) (prev_undostack_index w) (prev_undostack_count w)
    (windowModified w) (sources w) (fingerprint_to_dbc w) (progress_bar w) v
    (save_dbc_as w) (copy_dbc_to_clipboard w) (open_dbc_for_source w)
    (recent_files_acts w) (open_recent_menu w) (video_dock w) (undo_stack w)
    (dbc_files w) (world w) (log w).

Definition set_save_dbc_as (v : bool) (w : MainWindow) : MainWindow :=
  mkMainWindow (settings w) (prev_undostack_index w) (prev_undostack_count w)
    (windowModified w) (sources w) (fingerprint_to_dbc w) (progress_bar w)
    (save_dbc w) v (copy_dbc_to_clipboard w) (open_dbc_for_source w)
    (recent_files_acts w) (open_recent_menu w) (video_dock w) (undo_stack w)
    (dbc_files w) (world w) (log w).

Definition set_copy_dbc_to_clipboard (v : bool) (w : MainWindow) : MainWindow :=
  mkMainWindow (settings w) (prev_undostack_index w) (prev_undostack_count w)
    (windowModified w) (sources w) (fingerprint_to_dbc w) (progress_bar w)
    (save_dbc w) (save_dbc_as w) v (open_dbc_for_source w)
    (recent_files_acts w) (open_recent_menu w) (video_dock w) (undo_stack w)
    (dbc_files w) (world w) (log w).

Definition set_open_dbc_for_source (v : QMenu) (w : MainWindow) : MainWindow :=
  mkMainWindow (settings w) (prev_undostack_index w) (prev_undostack_count w)
    (windowModified w) (sources w) (fingerprint_to_dbc w) (progress_bar w)
    (save_dbc w) (save_dbc_as w) (copy_dbc_to_clipboard w) v
    (recent_files_acts w) (open_recent_menu w) (video_dock w) (undo_stack w)
    (dbc_files w) (world w) (log w).

Definition set_recent_files_acts (v : list RecentAction) (w : MainWindow) : MainWindow :=
  mkMainWindow (settings w) (prev_undostack_index w) (prev_undostack_count w)
    (windowModified w) (sources w) (fingerprint_to_dbc w) (progress_bar w)
    (save_dbc w) (save_dbc_as w) (copy_dbc_to_clipboard w)
    (open_dbc_for_source w) v (open_recent_menu w) (video_dock w)
    (undo_stack w) (dbc_files w) (world w) (log w).

Definition set_open_recent_menu (v : bool) (w : MainWindow) : MainWindow :=
  mkMainWindow (settings w) (prev_undostack_index w) (prev_undostack_count w)
    (windowModified w) (sources w) (fingerprint_to_dbc w) (progress_bar w)
    (save_dbc w) (save_dbc_as w) (copy_dbc_to_clipboard w)
    (open_dbc_for_source w) (recent_files_acts w) v (video_dock w)
    (undo_stack w) (dbc_files w) (world w) (log w).

Definition set_video_dock (v : string) (w : MainWindow) : MainWindow :=
  mkMainWindow (settings w) (prev_undostack_index w) (prev_undostack_count w)
    (windowModified w) (sources w) (fingerprint_to_dbc w) (progress_bar w)
    (save_dbc w) (save_dbc_as w) (copy_dbc_to_clipboard w)
    (open_dbc_for_source w) (recent_files_acts w) (open_recent_menu w) v
    (undo_stack w) (dbc_files w) (world w) (log w).

Definition set_undo_stack (v : QUndoStack.t) (w : MainWindow) : MainWindow :=
  mkMainWindow (settings w) (prev_undostack_index w) (prev_undostack_count w)
    (windowModified w) (sources w) (fingerprint_to_dbc w) (progress_bar w)
    (save_dbc w) (save_dbc_as w) (copy_dbc_to_clipboard w)
    (open_dbc_for_source w) (recent_files_acts w) (open_recent_menu w)
    (video_dock w) v (dbc_files w) (world w) (log w).

Definition set_dbc_files (v : list (SourceSet * DBCFile)) (w : MainWindow) : MainWindow :=
  mkMainWindow (settings w) (prev_undostack_index w) (prev_undostack_count w)
    (windowModified w) (sources w) (fingerprint_to_dbc w) (progress_bar w)
    (save_dbc w) (save_dbc_as w) (copy_dbc_to_clipboard w)
    (open_dbc_for_source w) (recent_files_acts w) (open_recent_menu w)
    (video_dock w) (undo_stack w) v (world w) (log w).

Definition set_world (v : World) (w : MainWindow) : MainWindow :=
  mkMainWindow (settings w) (prev_undostack_index w) (prev_undostack_count w)
    (windowModified w) (sources w) (fingerprint_to_dbc w) (progress_bar w)
    (save_dbc w) (save_dbc_as w) (copy_dbc_to_clipboard w)
    (open_dbc_for_source w) (recent_files_acts w) (open_recent_menu w)
    (video_dock w) (undo_stack w) (dbc_files w) v (log w).

Definition set_log (v : list event) (w : MainWindow) : MainWindow :=
  mkMainWindow (settings w) (prev_undostack_index w) (prev_undostack_count w)
    (windowModified w) (sources w) (fingerprint_to_dbc w) (progress_bar w)
    (save_dbc w) (save_dbc_as w) (copy_dbc_to_clipboard w)
    (open_dbc_for_source w) (recent_files_acts w) (open_recent_menu w)
    (video_dock w) (undo_stack w) (dbc_files w) (world w) v.

Definition emit (e : event) (w : MainWindow) : MainWindow :=
  set_log (log w ++ [e]) w.

(** [statusBar()->showMessage(text, timeout)] *)
Definition showMessage (text : string) (timeout : Z) : MainWindow → MainWindow :=
  emit (StatusMessage text timeout).

(** ** Recent files *)

Definition hide (a : RecentAction) : RecentAction :=
  {| recent_text := recent_text a; recent_data := recent_data a;
     recent_visible := false |}.

Definition updateRecentFileActions (w : MainWindow) : MainWindow :=
  let files := recent_files (settings w) in
  let num_recent_files := Nat.min (length files) MAX_RECENT_FILES in
  let shown :=
    foldl (λ acts i,
             <[i := {| recent_text :=
                         QString.arg (QString.arg (tr "&%1 %2") (pretty (i + 1)%nat))
                                     (QFileInfo_fileName (nth i files ""));
                       recent_data := nth i files "";
                       recent_visible := true |}]> acts)
          (recent_files_acts w) (seq 0 num_recent_files) in
  let acts :=
    foldl (λ acts i, alter hide i acts)
          shown (seq num_recent_files (MAX_RECENT_FILES - num_recent_files)) in
  set_open_recent_menu (bool_decide (0 < num_recent_files)%nat)
    (set_recent_files_acts acts w).

(** [while (recent_files.size() > MAX_RECENT_FILES) recent_files.removeLast();] *)
Equations? trim_recent (l : list string) : list string by wf (length l) lt :=
  trim_recent l with inspect (MAX_RECENT_FILES <? length l)%nat := {
    | exist _ true _ => trim_recent (removelast l)
    | exist _ false _ => l }.
Proof.
  apply Nat.ltb_lt in e. rewrite removelast_firstn_len, length_firstn. lia.
Qed.

Definition updateRecentFiles (fn : string) (w : MainWindow) : MainWindow :=
  let removed := filter (λ x, x ≠ fn) (recent_files (settings w)) in
  let prepended := fn :: removed in
  let trimmed := trim_recent prepended in
  let w1 :=
    set_settings {| recent_files := trimmed;
                    last_dir := QFileInfo_absolutePath fn (world w) |} w in
  updateRecentFileActions w1.

(** ** The menus for loading and saving *)

Definition bus_action (source : N) (w : MainWindow) : BusAction :=
  let d := findDBCFile source (dbc_files w) in
  let current :=
    match d with
    | Some (_, f) =>
      if negb (isEmpty (name f)) then QString.arg (tr "%1") (name f)
      else "untitled"
    | None => tr "no DBC"
    end in
  {| bus_text :=
       QString.arg (QString.arg (tr "Bus %1 (current: %2)") (pretty source)) current;
     bus_data := source |}.

(** The loop over [sources_sorted]; [menu] is what the menu holds so far. *)
Fixpoint add_bus_actions (sources_sorted : list N) (w : MainWindow)
    (menu : list BusAction) : list BusAction :=
  match sources_sorted with
  | [] => menu
  | source :: rest =>
    if (64 <=? source)%N then add_bus_actions rest w menu
    else add_bus_actions rest w (menu ++ [bus_action source w])
  end.

Definition updateLoadSaveMenus (w : MainWindow) : MainWindow :=
  let n := dbcCount (dbc_files w) in
  let w1 :=
    set_save_dbc (if 1 <? n then QString.arg (tr "Save %1 DBCs...") (pretty n)
                  else tr "Save DBC...") w in
  let w2 := set_save_dbc_as (n =? 1) w1 in
  let w3 := set_copy_dbc_to_clipboard (n =? 1) w2 in
  let sources_sorted := merge_sort N.le (elements (sources w3)) in
  set_open_dbc_for_source
    {| menu_enabled := bool_decide (0 < size (sources w3))%nat;
       menu_actions := add_bus_actions sources_sorted w3 [] |} w3.

Definition updateSources (s : SourceSet) (w : MainWindow) : MainWindow :=
  updateLoadSaveMenus (set_sources s w).

(** ** Autosave and the undo stack *)

Fixpoint autoSave_files (files : list (SourceSet * DBCFile)) (w : MainWindow)
    : MainWindow :=
  match files with
  | [] => w
  | (_, dbc_file) :: rest =>
    if negb (isEmpty (filename dbc_file)) then
      autoSave_files rest
        (emit (DbcFileAutoSave dbc_file)
              (set_world (DBCFile_autoSave dbc_file (world w)) w))
    else autoSave_files rest w
  end.

Definition autoSave (w : MainWindow) : MainWindow :=
  if negb (QUndoStack.isClean (undo_stack w)) then autoSave_files (dbc_files w) w
  else w.

(** The open files that have a file name. *)
Definition named_files (w : MainWindow) : list DBCFile :=
  filter (λ f, filename f ≠ "") (dbc_files w).*2.

Definition undoStackIndexChanged (index : Z) (w : MainWindow) : MainWindow :=
  let count := QUndoStack.count (undo_stack w) in
  let w1 :=
    if 0 <=? count then
      let command_text :=
        if index =? count then
          (if count =? prev_undostack_count w then "Redo " else "")
            +:+ QUndoStack.text (undo_stack w) (index - 1)
        else if index <? prev_undostack_index w then
          QString.arg (tr "Undo %1") (QUndoStack.text (undo_stack w) index)
        else if prev_undostack_index w <? index then
          QString.arg (tr "Redo %1") (QUndoStack.text (undo_stack w) (index - 1))
        else "" in
      showMessage command_text 2000 w
    else w in
  let w2 := set_prev_undostack_index index w1 in
  let w3 := set_prev_undostack_count count w2 in
  autoSave w3.

Definition undoStackCleanChanged (clean : bool) (w : MainWindow) : MainWindow :=
  let w1 :=
    if clean then set_prev_undostack_count 0 (set_prev_undostack_index 0 w)
    else w in
  set_windowModified (negb clean) w1.

(** The three operations of [QUndoStack] the window calls, each with the
    signals it emits delivered to the slots connected in the constructor
    ([cleanChanged] to [undoStackCleanChanged], [indexChanged] to
    [undoStackIndexChanged]). *)

Definition UndoStack_setClean (w : MainWindow) : MainWindow :=
  let u := undo_stack w in
  let was_clean := QUndoStack.isClean u in
  let w1 :=
    set_undo_stack
      (QUndoStack.mk (QUndoStack.command_list u) (QUndoStack.index u)
                     (QUndoStack.index u)) w in
  if was_clean then w1 else undoStackCleanChanged true w1.

Definition UndoStack_resetClean (w : MainWindow) : MainWindow :=
  let u := undo_stack w in
  let was_clean := QUndoStack.isClean u in
  let w1 :=
    set_undo_stack
      (QUndoStack.mk (QUndoStack.command_list u) (QUndoStack.index u) (-1)) w in
  if was_clean then undoStackCleanChanged false w1 else w1.

Definition UndoStack_clear (w : MainWindow) : MainWindow :=
  let u := undo_stack w in
  match QUndoStack.command_list u with
  | [] => w
  | _ :: _ =>
    let was_clean := QUndoStack.isClean u in
    let w1 := set_undo_stack (QUndoStack.mk [] 0 0) w in
    let w2 := undoStackIndexChanged 0 w1 in
    if was_clean then w2 else undoStackCleanChanged true w2
  end.

Definition DBCFileChanged (w : MainWindow) : MainWindow :=
  updateLoadSaveMenus (UndoStack_clear w).

(** ** Calls to the DBC manager

    The call is logged, the manager's answer replaces the open files and
    the world, and [DBCFileChanged] runs once for every emission. *)

Definition after_manager (r : ManagerResult World DBCFile) (w : MainWindow)
    : MainWindow :=
  Nat.iter (mr_changed r) DBCFileChanged
           (set_world (mr_world r) (set_dbc_files (mr_files r) w)).

Definition dbc_closeAll (w : MainWindow) : MainWindow :=
  after_manager (DBCManager_closeAll (dbc_files w) (world w)) (emit DbcCloseAll w).

(** [dbc()->open(s, dbc_file_name, &error)]: the result and the error text. *)
Definition dbc_open_file (s : SourceSet) (fn : string) (w : MainWindow)
    : (bool * string) * MainWindow :=
  let r := DBCManager_open_file s fn (dbc_files w) (world w) in
  ((mr_ok r, mr_error r), after_manager r (emit (DbcOpenFile s fn) w)).

(** [dbc()->open(s, name, content, &error)] *)
Definition dbc_open_text (s : SourceSet) (dbc_name content : string)
    (w : MainWindow) : (bool * string) * MainWindow :=
  let r := DBCManager_open_text s dbc_name content (dbc_files w) (world w) in
  ((mr_ok r, mr_error r), after_manager r (emit (DbcOpenText s dbc_name content) w)).

(** ** Dialogs *)

Definition question (title text : string)
    (buttons : list QMessageBox.StandardButton) (w : MainWindow)
    : QMessageBox.StandardButton * MainWindow :=
  let r := QMessageBox_question title text buttons (world w) in
  (r.1, set_world r.2 (emit (QuestionBox title text) w)).

Definition getOpenFileName (caption dir filter : string) (w : MainWindow)
    : string * MainWindow :=
  let r := QFileDialog_getOpenFileName caption dir filter (world w) in
  (r.1, set_world r.2 (emit (OpenFileDialog caption dir filter) w)).

Definition getSaveFileName (caption path filter : string) (w : MainWindow)
    : string * MainWindow :=
  let r := QFileDialog_getSaveFileName caption path filter (world w) in
  (r.1, set_world r.2 (emit (SaveFileDialog caption path filter) w)).

(** ** Saving *)

(** The loop of [saveFile] over the open files; it gives back the files,
    of which [saveAs] may have changed some. *)
Fixpoint saveFile_files (files : list (SourceSet * DBCFile)) (w : MainWindow)
    : list (SourceSet * DBCFile) * MainWindow :=
  match files with
  | [] => ([], w)
  | (s, dbc_file) :: rest =>
    let step :=
      if negb (isEmpty (filename dbc_file)) then
        (dbc_file,
         updateRecentFiles (filename dbc_file)
           (emit (DbcFileSave dbc_file)
                 (set_world (DBCFile_save dbc_file (world w)) w)))
      else
        let asked :=
          getSaveFileName (tr "Save File")
            (QDir_cleanPath (last_dir (settings w) +:+ "/untitled.dbc"))
            (tr "DBC (*.dbc)") w in
        if negb (isEmpty asked.1) then
          let saved := DBCFile_saveAs asked.1 dbc_file (world asked.2) in
          (saved.1,
           updateRecentFiles asked.1
             (emit (DbcFileSaveAs dbc_file asked.1) (set_world saved.2 asked.2)))
        else (dbc_file, asked.2) in
    let done := saveFile_files rest step.2 in
    ((s, step.1) :: done.1, done.2)
  end.

Definition saveFile (w : MainWindow) : MainWindow :=
  let done := saveFile_files (dbc_files w) w in
  let w1 := set_dbc_files done.1 done.2 in
  showMessage (tr "File saved") 2000 (UndoStack_setClean w1).

Definition save (w : MainWindow) : MainWindow := saveFile w.

Inductive outcome :=
| Done (w : MainWindow)
| AssertionFailed (what : string).

Definition saveAs (w : MainWindow) : outcome :=
  if 0 <? dbcCount (dbc_files w) then
    match dbc_files w with
    | [] => AssertionFailed "!isEmpty()"
    | (s, dbc_file) :: rest =>
      let asked :=
        getSaveFileName (tr "Save File")
          (QDir_cleanPath (last_dir (settings w) +:+ "/untitled.dbc"))
          (tr "DBC (*.dbc)") w in
      if negb (isEmpty asked.1) then
        let saved := DBCFile_saveAs asked.1 dbc_file (world asked.2) in
        Done (set_dbc_files ((s, saved.1) :: rest)
                (emit (DbcFileSaveAs dbc_file asked.1)
                      (set_world saved.2 asked.2)))
      else Done asked.2
    end
  else AssertionFailed "dbc()->dbcCount() > 0".

Definition saveDBCToClipboard (w : MainWindow) : outcome :=
  if 0 <? dbcCount (dbc_files w) then
    match dbc_files w with
    | [] => AssertionFailed "!isEmpty()"
    | (_, dbc_file) :: _ =>
      let generated := DBCFile_generateDBC dbc_file (world w) in
      Done (emit (InformationBox (tr "Copy To Clipboard")
                                 (tr "DBC Successfully copied!"))
              (emit (ClipboardSet generated)
                    (set_world (clipboard_setText generated (world w)) w)))
    end
  else AssertionFailed "dbc()->dbcCount() > 0".

(** ** Asking to save unsaved changes *)

(** The question box of [remindSaveChanges]. *)
Definition unsaved_changes_prompt (w : MainWindow)
    : QMessageBox.StandardButton * MainWindow :=
  question (tr "Unsaved Changes")
    (tr "You have unsaved changes. Press ok to save them, cancel to discard.")
    [QMessageBox.Ok; QMessageBox.Cancel] w.

(** How often the loop of [remindSaveChanges] can still run: it runs only
    while the stack is not clean and the changes are not discarded. *)
Definition remind_measure (w : MainWindow) (discard_changes : bool) : nat :=
  ((if QUndoStack.isClean (undo_stack w) then 0 else 1)
   + (if discard_changes then 0 else 1))%nat.

Equations? remindSaveChanges_loop (w : MainWindow) (discard_changes : bool)
    : MainWindow by wf (remind_measure w discard_changes) lt :=
  remindSaveChanges_loop w discard_changes
    with inspect (negb (QUndoStack.isClean (undo_stack w))
                  && negb discard_changes) := {
    | exist _ false _ => w
    | exist _ true _
        with inspect (unsaved_changes_prompt w) := {
        | exist _ (ret, w1) _ with inspect (QMessageBox.eqb ret QMessageBox.Ok) := {
            | exist _ true _ => remindSaveChanges_loop (save w1) discard_changes
            | exist _ false _ => remindSaveChanges_loop w1 true } } }.
Proof.
  - assert (Hsaved : ∀ w1, QUndoStack.isClean (undo_stack (save w1)) = true).
    { intros w1. unfold save, saveFile, showMessage, emit.
      set (w2 := set_dbc_files _ _).
      change (QUndoStack.isClean (undo_stack (UndoStack_setClean w2)) = true).
      unfold UndoStack_setClean.
      destruct (QUndoStack.isClean (undo_stack w2)); apply Z.eqb_refl. }
    unfold remind_measure. rewrite Hsaved.
    apply andb_prop in e as [Hc Hd].
    destruct (QUndoStack.isClean (undo_stack w)), discard_changes;
      cbn in *; try discriminate; lia.
  - unfold remind_measure.
    replace (undo_stack (set_world _ _)) with (undo_stack w) by reflexivity.
    apply andb_prop in e as [Hc Hd].
    destruct (QUndoStack.isClean (undo_stack w)), discard_changes;
      cbn in *; try discriminate; lia.
Qed.

Definition remindSaveChanges (w : MainWindow) : MainWindow :=
  UndoStack_clear (remindSaveChanges_loop w false).

(** ** Opening and loading *)

Definition newFile (w : MainWindow) : MainWindow :=
  let w1 := remindSaveChanges w in
  let w2 := dbc_closeAll w1 in
  let opened := dbc_open_text SOURCE_ALL "" "" w2 in
  updateLoadSaveMenus opened.2.

(** The first part of [loadFile]: the prompt for the auto saved file. It
    gives the name of the file to open. *)
Definition loadFile_choose (fn : string) (w : MainWindow) : string * MainWindow :=
  let w0 := emit (FileExistsQuery (fn +:+ AUTO_SAVE_EXTENSION)) w in
  if QFile_exists (fn +:+ AUTO_SAVE_EXTENSION) (world w0) then
    let asked :=
      question (tr "Auto saved DBC found")
        (tr "Auto saved DBC file from previous session found. Do you want to load it instead?")
        [QMessageBox.Yes; QMessageBox.No] w0 in
    if QMessageBox.eqb asked.1 QMessageBox.Yes then
      (fn +:+ AUTO_SAVE_EXTENSION, UndoStack_resetClean asked.2)
    else (fn, asked.2)
  else (fn, w0).

(** The second part of [loadFile]: open [dbc_fn] and report. *)
Definition loadFile_open (fn dbc_fn : string) (s : SourceSet) (close_all : bool)
    (w : MainWindow) : MainWindow :=
  let w1 := if close_all then dbc_closeAll w else w in
  let opened := dbc_open_file s dbc_fn w1 in
  let ret := opened.1.1 in
  let error := opened.1.2 in
  let w2 :=
    if ret then
      showMessage (QString.arg (tr "DBC File %1 loaded") fn) 2000
                  (updateRecentFiles fn opened.2)
    else
      emit (WarningBox (tr "Failed to load DBC file")
                       (QString.arg (tr "Failed to parse DBC file %1") fn)
                       error)
           opened.2 in
  updateLoadSaveMenus w2.

Definition loadFile (fn : string) (s : SourceSet) (close_all : bool)
    (w : MainWindow) : MainWindow :=
  if negb (isEmpty fn) then
    let chosen := loadFile_choose fn w in
    loadFile_open fn chosen.1 s close_all chosen.2
  else w.

Definition openFile (w : MainWindow) : MainWindow :=
  let w1 := remindSaveChanges w in
  let asked :=
    getOpenFileName (tr "Open File") (last_dir (settings w1)) "DBC (*.dbc)" w1 in
  if negb (isEmpty asked.1) then
    loadFile asked.1 loadFile_default_s loadFile_default_close_all asked.2
  else asked.2.

(** [sender] is the action that triggered the slot, if it is one. *)
Definition openFileForSource (sender : option BusAction) (w : MainWindow)
    : outcome :=
  match sender with
  | Some action =>
    let source := value_uint8 action in
    if (source <? 64)%N then
      let asked :=
        getOpenFileName (tr "Open File") (last_dir (settings w)) "DBC (*.dbc)" w in
      if negb (isEmpty asked.1) then
        Done (loadFile asked.1
                ({[ source; uint8 (source + 128); uint8 (source + 192) ]} : gset N)
                false asked.2)
      else Done asked.2
    else AssertionFailed "source < 64"
  | None => Done w
  end.

Definition loadDBCFromOpendbc (dbc_name : string) (w : MainWindow) : MainWindow :=
  let w1 := remindSaveChanges w in
  let opendbc_file_path := QString.arg2 "%1/%2.dbc" OPENDBC_FILE_PATH dbc_name in
  let w2 := dbc_closeAll w1 in
  let opened := dbc_open_file SOURCE_ALL opendbc_file_path w2 in
  updateLoadSaveMenus opened.2.

(** [sender] is the text of the action that triggered the slot. *)
Definition openOpendbcFile (sender : option string) (w : MainWindow) : MainWindow :=
  match sender with
  | Some text => loadDBCFromOpendbc text (remindSaveChanges w)
  | None => w
  end.

Definition openRecentFile (sender : option RecentAction) (w : MainWindow)
    : MainWindow :=
  match sender with
  | Some action =>
    loadFile (recent_data action) loadFile_default_s loadFile_default_close_all
             (remindSaveChanges w)
  | None => w
  end.

Definition loadDBCFromClipboard (w : MainWindow) : MainWindow :=
  let w1 := remindSaveChanges w in
  let dbc_str := clipboard_text (world w1) in
  let w2 := dbc_closeAll w1 in
  let opened := dbc_open_text SOURCE_ALL "" dbc_str w2 in
  let ret := opened.1.1 in
  let error := opened.1.2 in
  if ret && (0 <? msgCount (dbc_files opened.2)) then
    emit (InformationBox (tr "Load From Clipboard") (tr "DBC Successfully Loaded!"))
         opened.2
  else
    emit (WarningBox (tr "Failed to load DBC from clipboard")
                     (tr "Make sure that you paste the text with correct format.")
                     (if negb (isEmpty error) then error else ""))
         opened.2.

(** The loop of the constructor that reads [fingerprint_to_dbc]: the first
    of the paths that can be opened is parsed, the others are not tried. *)
Fixpoint read_fingerprint_to_dbc (paths : list string) (w : MainWindow)
    : MainWindow :=
  match paths with
  | [] => w
  | fn :: rest =>
    match QFile_readJson fn (world w) with
    | Some doc => set_fingerprint_to_dbc doc w
    | None => read_fingerprint_to_dbc rest w
    end
  end.

Definition fingerprint_paths : list string :=
  ["./dbc/car_fingerprint_to_dbc.json";
   "./tools/cabana/dbc/car_fingerprint_to_dbc.json"].

Definition loadDBCFromFingerprint (w : MainWindow) : MainWindow :=
  if negb (msgCount (dbc_files w) =? 0) then w
  else
    let w1 := remindSaveChanges w in
    let fingerprint := can_carFingerprint (world w1) in
    let w2 :=
      if can_liveStreaming (world w1) then
        set_video_dock (can_routeName (world w1)) w1
      else
        set_video_dock
          (QString.arg
             (QString.arg (tr "ROUTE: %1  FINGERPRINT: %2") (can_routeName (world w1)))
             (if isEmpty fingerprint then tr "Unknown Car" else fingerprint))
          w1 in
    if negb (isEmpty fingerprint) then
      let dbc_name := json_at (fingerprint_to_dbc w2) fingerprint in
      match dbc_name with
      | Some _ => loadDBCFromOpendbc (toString dbc_name) w2
      | None => newFile w2
      end
    else newFile w2.

(** ** Closing, routes, download progress *)

Fixpoint cleanupAutoSaveFile_files (files : list (SourceSet * DBCFile))
    (w : MainWindow) : MainWindow :=
  match files with
  | [] => w
  | (_, dbc_file) :: rest =>
    cleanupAutoSaveFile_files rest
      (emit (DbcFileCleanup dbc_file)
            (set_world (DBCFile_cleanupAutoSaveFile dbc_file (world w)) w))
  end.

Definition cleanupAutoSaveFile (w : MainWindow) : MainWindow :=
  cleanupAutoSaveFile_files (dbc_files w) w.

(** The geometry and the splitter states that [closeEvent] stores are not
    part of this model; [settings.save()] is logged. *)
Definition closeEvent (w : MainWindow) : MainWindow :=
  let w1 := cleanupAutoSaveFile w in
  let w2 := remindSaveChanges w1 in
  emit SettingsSave w2.

(** [close()] delivers the close event, which [closeEvent] accepts. *)
Definition close (w : MainWindow) : MainWindow :=
  emit WindowClose (closeEvent w).

Definition openRoute (w : MainWindow) : MainWindow :=
  let dlg := OpenRouteDialog_exec (world w) in
  let accepted := dlg.1.1 in
  let failedToLoad := dlg.1.2 in
  let w1 := set_world dlg.2 (emit RouteDialog w) in
  if accepted then
    showMessage (QString.arg (tr "Route %1 loaded") (can_routeName (world w1))) 2000
                (emit ChartsRemoveAll (emit CenterClear w1))
  else if failedToLoad then close w1
  else w1.

Definition updateDownloadProgress (cur total : N) (success : bool)
    (w : MainWindow) : MainWindow :=
  if success && (cur <? total)%N then
    set_progress_bar
      {| bar_value := percent cur total;
         bar_format :=
           QString.arg (tr "Downloading %p% (%1)") (formattedDataSize total);
         bar_visible := true |} w
  else
    set_progress_bar
      {| bar_value := bar_value (progress_bar w);
         bar_format := bar_format (progress_bar w);
         bar_visible := false |} w.

(** The auto saved file is there and the user takes it. *)
Definition autosave_accepted (fn : string) (w : MainWindow) : bool :=
  QFile_exists (fn +:+ AUTO_SAVE_EXTENSION) (world w)
  && QMessageBox.eqb
       (QMessageBox_question (tr "Auto saved DBC found")
          (tr "Auto saved DBC file from previous session found. Do you want to load it instead?")
          [QMessageBox.Yes; QMessageBox.No] (world w)).1
       QMessageBox.Yes.

(** The state in which [loadFile] calls [open]. *)
Definition before_open (close_all : bool) (w : MainWindow) : MainWindow :=
  if close_all then dbc_closeAll w else w.

(** ** The window as a state machine

    The slots and public methods of the window that the menus, the other
    widgets, the stream and the undo stack can trigger. *)

Inductive slot :=
| OpenRoute
| NewFile
| OpenFile
| OpenFileForSource (sender : option BusAction)
| LoadFile (fn : string) (s : SourceSet) (close_all : bool)
| OpenOpendbcFile (sender : option string)
| OpenRecentFile (sender : option RecentAction)
| LoadDBCFromClipboard
| LoadDBCFromFingerprint
| Save
| SaveAs
| SaveDBCToClipboard
| UpdateSources (s : SourceSet)
| UpdateDownloadProgress (cur total : N) (success : bool)
| DBCFileChangedSignal
| UndoStackIndexChanged (index : Z)
| UndoStackCleanChanged (clean : bool)
| Close.

Definition trigger (sl : slot) (w : MainWindow) : outcome :=
  match sl with
  | OpenRoute => Done (openRoute w)
  | NewFile => Done (newFile w)
  | OpenFile => Done (openFile w)
  | OpenFileForSource sender => openFileForSource sender w
  | LoadFile fn s close_all => Done (loadFile fn s close_all w)
  | OpenOpendbcFile sender => Done (openOpendbcFile sender w)
  | OpenRecentFile sender => Done (openRecentFile sender w)
  | LoadDBCFromClipboard => Done (loadDBCFromClipboard w)
  | LoadDBCFromFingerprint => Done (loadDBCFromFingerprint w)
  | Save => Done (save w)
  | SaveAs => saveAs w
  | SaveDBCToClipboard => saveDBCToClipboard w
  | UpdateSources s => Done (updateSources s w)
  | UpdateDownloadProgress cur total success =>
    Done (updateDownloadProgress cur total success w)
  | DBCFileChangedSignal => Done (DBCFileChanged w)
  | UndoStackIndexChanged index => Done (undoStackIndexChanged index w)
  | UndoStackCleanChanged clean => Done (undoStackCleanChanged clean w)
  | Close => Done (close w)
  end.

(** [openFileForSource] is connected to the actions of the menu "Open DBC
    File for Bus" and to nothing else: it runs for an action of that menu. *)
Definition enabled (sl : slot) (w : MainWindow) : Prop :=
  match sl with
  | OpenFileForSource sender =>
    ∃ action, sender = Some action
              ∧ action ∈ menu_actions (open_dbc_for_source w)
  | _ => True
  end.

(** The states of the window: the constructor leaves the menu of buses
    empty; a slot runs; or the undo stack, the open files and the world are
    changed from elsewhere (other widgets, the stream, the user). *)
Inductive reachable : MainWindow → Prop :=
| reachable_constructed (w : MainWindow) :
    menu_actions (open_dbc_for_source w) = [] → reachable w
| reachable_trigger (w w' : MainWindow) (sl : slot) :
    reachable w → enabled sl w → trigger sl w = Done w' → reachable w'
| reachable_elsewhere (w : MainWindow) (u : QUndoStack.t)
    (files : list (SourceSet * DBCFile)) (wd : World) :
    reachable w →
    reachable (set_world wd (set_dbc_files files (set_undo_stack u w))).

(** Every action of the menu of buses carries a bus below 64. *)
Definition menu_ok (w : MainWindow) : Prop :=
  Forall (λ action, (bus_data action < 64)%N)
         (menu_actions (open_dbc_for_source w)).

(** ** The modified flag and the undo stack

    The window is shown as modified exactly when the undo stack is not
    clean. *)
Definition modified_tracks (w : MainWindow) : Prop :=
  windowModified w = negb (QUndoStack.isClean (undo_stack w)).

(** The files on which the log shows a call of [save()], and the dialogs
    for a file name to save to, each in the order of the log. *)
Definition saved_files (l : list event) : list DBCFile :=
  omap (λ e, match e with DbcFileSave f => Some f | _ => None end) l.

Definition is_save_dialog (e : event) : bool :=
  match e with
  | SaveFileDialog _ _ _ => true
  | _ => false
  end.

Definition save_dialogs (l : list event) : list event :=
  List.filter is_save_dialog l.

(** The open files without a file name. *)
Definition untitled_files (w : MainWindow) : list DBCFile :=
  filter (λ f, filename f = "") (dbc_files w).*2.

(** The action of a recent file at place [i] of the menu "Open Recent". *)
Definition recent_action (i : nat) (file : string) : RecentAction :=
  {| recent_text :=
       QString.arg (QString.arg (tr "&%1 %2") (pretty (i + 1)%nat))
                   (QFileInfo_fileName file);
     recent_data := file;
     recent_visible := true |}.

(** The undo stack holds no command; the flag is not looked at. *)
Definition no_commands (u : QUndoStack.t) (modified : bool) : Prop :=
  QUndoStack.command_list u = [].

(** The slots that ask for unsaved changes before they do anything else. *)
Definition reminds_first (sl : slot) (w : MainWindow) : bool :=
  match sl with
  | NewFile | OpenFile | LoadDBCFromClipboard | Close
  | OpenOpendbcFile (Some _) | OpenRecentFile (Some _) => true
  | LoadDBCFromFingerprint => msgCount (dbc_files w) =? 0
  | _ => false
  end.

(** ** Reading the log *)

Definition is_box (e : event) : bool :=
  match e with
  | QuestionBox _ _ | InformationBox _ _ | WarningBox _ _ _ => true
  | _ => false
  end.

Definition is_manager_call (e : event) : bool :=
  match e with
  | DbcCloseAll | DbcOpenFile _ _ | DbcOpenText _ _ _ => true
  | _ => false
  end.

Definition is_query (e : event) : bool :=
  match e with
  | FileExistsQuery _ => true
  | _ => false
  end.

(** The message boxes shown, the calls to the DBC manager and the file
    queries of a log, each in the order of the log. *)
Definition boxes (l : list event) : list event := List.filter is_box l.
Definition manager_calls (l : list event) : list event :=
  List.filter is_manager_call l.
Definition queries (l : list event) : list event := List.filter is_query l.

(** What the slots of the undo stack and [saveFile] do outside: status
    messages, saving of files, and the dialog for a file name to save to. *)
Definition background (e : event) : bool :=
  match e with
  | StatusMessage _ _ | DbcFileAutoSave _ | DbcFileCleanup _ | DbcFileSave _
  | DbcFileSaveAs _ _ | SaveFileDialog _ _ _ => true
  | _ => false
  end.

(** [w'] comes from [w] by events of the background only. *)
Definition background_step (w w' : MainWindow) : Prop :=
  ∃ evs, log w' = log w ++ evs ∧ Forall (λ e, background e = true) evs.

(** The fingerprint table, the sources, the progress bar and the title of
    the video dock. *)
Definition untouched (w : MainWindow)
    : QJsonDocument * SourceSet * QProgressBar * string :=
  (fingerprint_to_dbc w, sources w, progress_bar w, video_dock w).

(** ** Failure handling as the specification words it

    After a failed load nothing happens but message boxes: the log grows by
    message boxes only. *)
Definition message_and_abort (before after : list event) : Prop :=
  ∃ shown, after = before ++ shown ∧ Forall (λ e, is_box e = true) shown.

(** ** The fingerprint lookup as the specification words it *)

Inductive fingerprint_action :=
| DoNothing
| LoadOpendbc (dbc_name : string)
| CreateNewFile.

Definition claimed_fingerprint_action (msg_count : Z) (fingerprint : string)
    (table : QJsonDocument) : fingerprint_action :=
  if bool_decide (msg_count ≠ 0) then DoNothing
  else
    match table with
    | JsonDocObject members =>
      if bool_decide (fingerprint ≠ "" ∧ fingerprint ∈ dom members) then
        LoadOpendbc (toString (members !! fingerprint))
      else CreateNewFile
    | _ => CreateNewFile
    end.

(** ** The status message as the specification words it

    The message after an index change, case by case as the specification
    lists them; [None] where it lists no case. To be compared with
    [undoStackIndexChanged]. *)
Definition claimed_command_text (index count prev_index prev_count : Z)
    (text : Z → string) : option string :=
  if bool_decide (index = count) then
    Some ((if bool_decide (count = prev_count) then "Redo " else "")
            +:+ text (index - 1))
  else if bool_decide (index < count ∧ index < prev_index) then
    Some ("Undo " +:+ text index)
  else if bool_decide (index < count ∧ prev_index < index) then
    Some ("Redo " +:+ text (index - 1))
  else None.

End MainWindow.

(** * The frame of the window and the place of the charts

    [toggleFullScreen] reads and writes the state of the top-level window
    and the visibility of its two bars, [dockCharts] the place of the
    charts. No slot above reads either, so each has a record of its own. *)

(** [Qt::WindowState]: the flags of a window, kept in an [int]. *)
Module Qt.
Definition WindowMinimized : Z := 1.
Definition WindowMaximized : Z := 2.
Definition WindowFullScreen : Z := 4.
Definition WindowActive : Z := 8.
(** [Qt::WindowType] *)
Definition Window : Z := 1.
End Qt.

(** What [QWidget] keeps of a window: its state flags and whether it is
    shown. The three [show...] functions clear the flags of the other
    states, set their own and make the window visible. *)
Module QWidget.
Record t := mk {
  windowState : Z;
  isVisible : bool
}.

Definition isMinimized (q : t) : bool :=
  negb (Z.land (windowState q) Qt.WindowMinimized =? 0).

Definition isMaximized (q : t) : bool :=
  negb (Z.land (windowState q) Qt.WindowMaximized =? 0).

Definition isFullScreen (q : t) : bool :=
  negb (Z.land (windowState q) Qt.WindowFullScreen =? 0).

Definition showNormal (q : t) : t :=
  mk (Z.land (windowState q)
        (Z.lnot (Z.lor (Z.lor Qt.WindowMinimized Qt.WindowMaximized)
                       Qt.WindowFullScreen)))
     true.

Definition showMaximized (q : t) : t :=
  mk (Z.lor (Z.land (windowState q)
               (Z.lnot (Z.lor Qt.WindowMinimized Qt.WindowFullScreen)))
            Qt.WindowMaximized)
     true.

Definition showFullScreen (q : t) : t :=
  mk (Z.lor (Z.land (windowState q)
               (Z.lnot (Z.lor Qt.WindowMinimized Qt.WindowMaximized)))
            Qt.WindowFullScreen)
     true.
End QWidget.

Record Frame := mkFrame {
  window : QWidget.t;
  menuBar : bool;
  statusBar : bool
}.

Definition toggleFullScreen (f : Frame) : Frame :=
  if QWidget.isFullScreen (window f) then
    let f1 := mkFrame (window f) true (statusBar f) in
    let f2 := mkFrame (window f1) (menuBar f1) true in
    let f3 := mkFrame (QWidget.showNormal (window f2)) (menuBar f2) (statusBar f2) in
    mkFrame (QWidget.showMaximized (window f3)) (menuBar f3) (statusBar f3)
  else
    let f1 := mkFrame (window f) false (statusBar f) in
    let f2 := mkFrame (window f1) (menuBar f1) false in
    mkFrame (QWidget.showFullScreen (window f2)) (menuBar f2) (statusBar f2).

(** ** The charts

    The charts are laid out either in [charts_layout], with the stretch
    given there, or in the layout of the floating window. A widget is in
    one layout at a time: the layout it is added to takes it from the one
    it was in. *)

Inductive Widget :=
| charts_widget
| other_widget (objectName : string).

#[global] Instance Widget_eq_dec : EqDecision Widget.
Proof. solve_decision. Defined.

Record FloatingWindow := mkFloatingWindow {
  fw_widget : QWidget.t;
  fw_windowFlags : Z;
  fw_windowTitle : string;
  fw_layout : list Widget;
  fw_eventFilters : list Widget
}.

Record Charts := mkCharts {
  floating_window : option FloatingWindow;
  charts_layout : list (Widget * Z);
  deleteLater : list FloatingWindow
}.

(** [new QWidget(this)] with [setLayout(new QVBoxLayout())] *)
Definition new_QWidget : FloatingWindow :=
  mkFloatingWindow (QWidget.mk 0 false) 0 "" [] [].

Definition removeEventFilter (obj : Widget) (fw : FloatingWindow)
    : FloatingWindow :=
  mkFloatingWindow (fw_widget fw) (fw_windowFlags fw) (fw_windowTitle fw)
    (fw_layout fw) (filter (λ o, o ≠ obj) (fw_eventFilters fw)).

(** [installEventFilter]: a filter installed again moves to the front. *)
Definition installEventFilter (obj : Widget) (fw : FloatingWindow)
    : FloatingWindow :=
  mkFloatingWindow (fw_widget fw) (fw_windowFlags fw) (fw_windowTitle fw)
    (fw_layout fw) (obj :: filter (λ o, o ≠ obj) (fw_eventFilters fw)).

(** The widget leaves the layout of the floating window. *)
Definition fw_take (obj : Widget) (fw : FloatingWindow) : FloatingWindow :=
  mkFloatingWindow (fw_widget fw) (fw_windowFlags fw) (fw_windowTitle fw)
    (filter (λ o, o ≠ obj) (fw_layout fw)) (fw_eventFilters fw).

(** The widget leaves [charts_layout]. *)
Definition layout_take (obj : Widget) (l : list (Widget * Z))
    : list (Widget * Z) :=
  filter (λ item, item.1 ≠ obj) l.

Definition dockCharts (dock : bool) (c : Charts) : Charts :=
  match dock, floating_window c with
  | true, Some fw =>
    let fw1 := removeEventFilter charts_widget fw in
    (* charts_layout->insertWidget(0, charts_widget, 1) *)
    let layout1 := (charts_widget, 1) :: layout_take charts_widget (charts_layout c) in
    let fw2 := fw_take charts_widget fw1 in
    mkCharts None layout1 (deleteLater c ++ [fw2])
  | false, None =>
    let fw1 :=
      mkFloatingWindow (fw_widget new_QWidget) Qt.Window "Charts"
        (fw_layout new_QWidget) (fw_eventFilters new_QWidget) in
    (* floating_window->layout()->addWidget(charts_widget) *)
    let fw2 :=
      mkFloatingWindow (fw_widget fw1) (fw_windowFlags fw1) (fw_windowTitle fw1)
        (fw_layout (fw_take charts_widget fw1) ++ [charts_widget])
        (fw_eventFilters fw1) in
    let layout1 := layout_take charts_widget (charts_layout c) in
    let fw3 := installEventFilter charts_widget fw2 in
    let fw4 :=
      mkFloatingWindow (QWidget.showMaximized (fw_widget fw3)) (fw_windowFlags fw3)
        (fw_windowTitle fw3) (fw_layout fw3) (fw_eventFilters fw3) in
    mkCharts (Some fw4) layout1 (deleteLater c)
  | _, _ => c
  end.

(** Where the charts are: once in [charts_layout] and in no floating
    window, or once in the layout of the floating window, which they
    filter, and not in [charts_layout]. *)
Definition charts_placed (c : Charts) : Prop :=
  match floating_window c with
  | None => length (filter (λ item, item.1 = charts_widget) (charts_layout c)) = 1%nat
  | Some fw =>
    filter (λ item, item.1 = charts_widget) (charts_layout c) = []
    ∧ filter (λ o, o = charts_widget) (fw_layout fw) = [charts_widget]
    ∧ charts_widget ∈ fw_eventFilters fw
  end.

(** The charts are placed, and no window that is to be deleted lays them
    out (deleting it would delete them with it). *)
Definition charts_kept (c : Charts) : Prop :=
  charts_placed c
  ∧ Forall (λ fw, charts_widget ∉ fw_layout fw) (deleteLater c).

(** The state that [createDockWindows] builds: the charts alone in
    [charts_layout], added without a stretch. *)
Definition docked : Charts := mkCharts None [(charts_widget, 0)] [].

(** ** A concrete world to run the window in

    The DBC files are kept by their file names; a file can be opened when
    its name is among [files]. The user answers the question boxes from
    [answers], in order, and picks [picked] in every file dialog. The route
    dialog gives [route]. The value of the progress bar is taken as the
    integer quotient [cur * 100 / total]; the code computes it in double
    precision and cuts it to an [int], which can differ from it by one. No
    statement below reads it. *)

Module Demo.

Record world := {
  files : list string;
  answers : list QMessageBox.StandardButton;
  picked : string;
  route : bool * bool;
  clip : string;
  fingerprint : string
}.

Definition next_answer (w : world) : QMessageBox.StandardButton * world :=
  match answers w with
  | [] => (QMessageBox.NoButton, w)
  | a :: rest =>
    (a, {| files := files w; answers := rest; picked := picked w;
           route := route w; clip := clip w; fingerprint := fingerprint w |})
  end.

Definition open_file (s : SourceSet) (fn : string)
    (open : list (SourceSet * string)) (w : world) : ManagerResult world string :=
  if bool_decide (fn ∈ files w) then
    {| mr_ok := true; mr_error := ""; mr_files := open ++ [(s, fn)];
       mr_world := w; mr_changed := 1 |}
  else
    {| mr_ok := false; mr_error := "cannot open " +:+ fn; mr_files := open;
       mr_world := w; mr_changed := 0 |}.

(** A text parses when it is empty or starts with the letter B. *)
Definition open_text (s : SourceSet) (dbc_name content : string)
    (open : list (SourceSet * string)) (w : world) : ManagerResult world string :=
  match content with
  | EmptyString | String "B" _ =>
    {| mr_ok := true; mr_error := ""; mr_files := open ++ [(s, dbc_name)];
       mr_world := w; mr_changed := 1 |}
  | _ =>
    {| mr_ok := false; mr_error := "syntax error"; mr_files := open;
       mr_world := w; mr_changed := 0 |}
  end.

Definition collaborators : Collaborators := {|
  World := world;
  DBCFile := string;
  MAX_RECENT_FILES := 15;
  AUTO_SAVE_EXTENSION := ".tmp";
  OPENDBC_FILE_PATH := "opendbc";
  SOURCE_ALL := {[ 255%N ]};
  loadFile_default_s := {[ 255%N ]};
  loadFile_default_close_all := true;
  filename := λ f, f;
  name := λ f, f;
  DBCFile_autoSave := λ f w, w;
  DBCFile_cleanupAutoSaveFile := λ f w, w;
  DBCFile_save := λ f w, w;
  DBCFile_saveAs := λ fn f w, (fn, w);
  DBCFile_generateDBC := λ f w, "";
  DBCManager_closeAll := λ open w,
    {| mr_ok := true; mr_error := ""; mr_files := []; mr_world := w;
       mr_changed := 1 |};
  DBCManager_open_file := open_file;
  DBCManager_open_text := open_text;
  msgCount := λ open, Z.of_nat (length (filter (λ e, e.2 ≠ "") open));
  dbcCount := λ open, Z.of_nat (length open);
  findDBCFile := λ source open, head (filter (λ e, source ∈ e.1) open);
  QFile_exists := λ path w, bool_decide (path ∈ files w);
  QFile_readJson := λ path w, None;
  QFileInfo_absolutePath := λ fn w, "/data";
  QFileInfo_fileName := λ fn, fn;
  QDir_cleanPath := λ path, path;
  QMessageBox_question := λ title text buttons w, next_answer w;
  QFileDialog_getOpenFileName := λ caption dir filter w, (picked w, w);
  QFileDialog_getSaveFileName := λ caption path filter w, (picked w, w);
  OpenRouteDialog_exec := λ w, (route w, w);
  clipboard_text := clip;
  clipboard_setText := λ text w,
    {| files := files w; answers := answers w; picked := picked w;
       route := route w; clip := text; fingerprint := fingerprint w |};
  can_carFingerprint := fingerprint;
  can_liveStreaming := λ w, false;
  can_routeName := λ w, "route";
  formattedDataSize := λ n, pretty n;
  percent := λ cur total, Z.of_N (cur * 100 / total)
|}.

(** The window as the constructor leaves it, in the world [wd]: nothing
    open, an empty undo stack, [MAX_RECENT_FILES] hidden actions, the menu
    of buses disabled. "Save DBC As" and "Copy DBC To Clipboard" are
    enabled, as new actions are, until [updateLoadSaveMenus] first runs. *)
Definition window (wd : world) : @MainWindow collaborators :=
  @mkMainWindow collaborators
    {| recent_files := []; last_dir := "" |} 0 0 false ∅ JsonDocNull
    {| bar_value := 0; bar_format := ""; bar_visible := false |}
    "Save DBC..." true true
    {| menu_enabled := false; menu_actions := [] |}
    (replicate 15 {| recent_text := ""; recent_data := ""; recent_visible := false |})
    false "route" (QUndoStack.mk [] 0 0) [] wd [].

Definition quiet : world :=
  {| files := []; answers := []; picked := ""; route := (false, false);
     clip := ""; fingerprint := "" |}.

(** A world with an auto saved copy of a.dbc, whose user says Yes, and
    whose route dialog fails to load. *)
Definition autosaved : world :=
  {| files := ["a.dbc"; "a.dbc.tmp"]; answers := [QMessageBox.Yes];
     picked := "a.dbc"; route := (false, true); clip := "BO_ 1";
     fingerprint := "" |}.

(** A window in the middle of an editing session: two commands on the
    undo stack, the second undone, three recent files, four sources. *)
Definition edited (wd : world) : @MainWindow collaborators :=
  @mkMainWindow collaborators
    {| recent_files := ["b.dbc"; "a.dbc"; "c.dbc"]; last_dir := "/data" |}
    2 2 true {[ 0%N; 1%N; 66%N; 130%N ]} JsonDocNull
    {| bar_value := 0; bar_format := ""; bar_visible := false |}
    "Save DBC..." false false
    {| menu_enabled := false; menu_actions := [] |}
    (replicate 15 {| recent_text := ""; recent_data := ""; recent_visible := false |})
    true "route" (QUndoStack.mk ["x"; "y"] 1 0) [] wd [].

(** A window with one untitled DBC file and unsaved changes, in a world
    whose user cancels the file dialogs. *)
Definition untitled : @MainWindow collaborators :=
  @mkMainWindow collaborators
    {| recent_files := []; last_dir := "" |} 1 1 true ∅ JsonDocNull
    {| bar_value := 0; bar_format := ""; bar_visible := false |}
    "Save DBC..." true true
    {| menu_enabled := false; menu_actions := [] |}
    (replicate 15 {| recent_text := ""; recent_data := ""; recent_visible := false |})
    false "route" (QUndoStack.mk ["x"] 1 0) [({[ 255%N ]}, "")] quiet [].

End Demo.

(** * Properties *)

Section Properties.

Context `{Collaborators}.

(** ** The undo stack *)

Lemma UndoStack_setClean_isClean (w : MainWindow) :
  QUndoStack.isClean (undo_stack (UndoStack_setClean w)) = true.
Proof.
  unfold UndoStack_setClean.
  destruct (QUndoStack.isClean (undo_stack w)); apply Z.eqb_refl.
Qed.

Lemma saveFile_isClean (w : MainWindow) :
  QUndoStack.isClean (undo_stack (saveFile w)) = true.
Proof. unfold saveFile. cbn. apply UndoStack_setClean_isClean. Qed.

(** ** Recent files *)

Lemma trim_recent_take (l : list string) :
  trim_recent l = take MAX_RECENT_FILES l.
Proof.
  funelim (trim_recent l).
  - match goal with IH : trim_recent _ = take _ _ |- _ => rewrite IH end.
    pose proof (proj1 (Nat.ltb_lt _ _) e) as Hlt.
    rewrite removelast_firstn_len, take_take. f_equal. lia.
  - pose proof (proj1 (Nat.ltb_ge _ _) e) as Hge.
    symmetry. apply take_ge. lia.
Qed.

Lemma settings_updateRecentFileActions (w : MainWindow) :
  settings (updateRecentFileActions w) = settings w.
Proof. reflexivity. Qed.

Lemma recent_files_updateRecentFiles (fn : string) (w : MainWindow) :
  recent_files (settings (updateRecentFiles fn w))
  = take MAX_RECENT_FILES (fn :: filter (λ x, x ≠ fn) (recent_files (settings w))).
Proof.
  unfold updateRecentFiles. rewrite settings_updateRecentFileActions. cbn.
  apply trim_recent_take.
Qed.

(** C2. After [updateRecentFiles fn], for a positive [MAX_RECENT_FILES]: the
    list of recent files starts with [fn], holds [fn] nowhere else, has at
    most [MAX_RECENT_FILES] entries, [last_dir] is the absolute path of
    [fn], and the entries after [fn] are the first ones of the old list
    without [fn], in the old order. *)
Theorem updateRecentFiles_invariant (fn : string) (w : MainWindow) :
  (1 ≤ MAX_RECENT_FILES)%nat →
  let w' := updateRecentFiles fn w in
  let recent := recent_files (settings w') in
  head recent = Some fn
  ∧ (fn ∉ tail recent)
  ∧ (length recent ≤ MAX_RECENT_FILES)%nat
  ∧ last_dir (settings w') = QFileInfo_absolutePath fn (world w)
  ∧ tail recent `prefix_of` filter (λ x, x ≠ fn) (recent_files (settings w))
  ∧ tail recent `sublist_of` recent_files (settings w).
Proof.
  intros Hmax w' recent.
  assert (Hrecent : recent =
    fn :: take (MAX_RECENT_FILES - 1) (filter (λ x, x ≠ fn) (recent_files (settings w)))).
  { subst recent w'. rewrite recent_files_updateRecentFiles.
    destruct MAX_RECENT_FILES as [|n]; [lia|]. cbn. do 2 f_equal. lia. }
  rewrite Hrecent. cbn [head tail].
  assert (Hpre : take (MAX_RECENT_FILES - 1)
                   (filter (λ x, x ≠ fn) (recent_files (settings w)))
                 `prefix_of` filter (λ x, x ≠ fn) (recent_files (settings w)))
    by apply prefix_take.
  repeat split.
  - intros Hin. apply (elem_of_prefix _ _ _ Hin), list_elem_of_filter in Hpre.
    destruct Hpre as [Hne _]. by apply Hne.
  - cbn. rewrite length_take. lia.
  - exact Hpre.
  - etrans; [apply sublist_take | apply sublist_filter].
Qed.

(** ** Download progress *)

(** C7. After [updateDownloadProgress cur total success] the progress bar
    is visible exactly when [success] holds and [cur] is below [total]; in
    every other case it is hidden. *)
Theorem updateDownloadProgress_visible (cur total : N) (success : bool)
    (w : MainWindow) :
  bar_visible (progress_bar (updateDownloadProgress cur total success w))
  = success && bool_decide (cur < total)%N.
Proof.
  unfold updateDownloadProgress.
  destruct success; cbn; [|reflexivity].
  case_bool_decide as Hlt.
  - apply N.ltb_lt in Hlt. by rewrite Hlt.
  - apply N.ltb_nlt in Hlt. by rewrite Hlt.
Qed.

(** ** Autosave *)

Lemma autoSave_files_spec (files : list (SourceSet * DBCFile)) (w : MainWindow) :
  autoSave_files files w
  = set_log (log w ++ (DbcFileAutoSave <$> filter (λ f, filename f ≠ "") files.*2))
      (set_world
         (foldl (λ wd f, DBCFile_autoSave f wd) (world w)
                (filter (λ f, filename f ≠ "") files.*2)) w).
Proof.
  revert w. induction files as [|[s f] files IH]; intros w.
  - cbn. rewrite app_nil_r. by destruct w.
  - cbn [autoSave_files fmap list_fmap snd]. rewrite filter_cons. unfold isEmpty.
    case_bool_decide as Hname; cbn [negb].
    + rewrite decide_False by congruence. apply IH.
    + rewrite decide_True by done. rewrite IH. cbn.
      rewrite <- app_assoc. by destruct w.
Qed.

(** C5. [autoSave] leaves the window as it is when the undo stack is clean;
    otherwise it calls [autoSave] on the open files with a non-empty file
    name, on each once and on no other. [undoStackCleanChanged clean] sets
    the modified flag to [negb clean], resets the recorded index and count
    to zero when [clean] holds and keeps them otherwise. *)
Theorem autoSave_bookkeeping (clean : bool) (w : MainWindow) :
  autoSave w
  = (if QUndoStack.isClean (undo_stack w) then w
     else set_log (log w ++ (DbcFileAutoSave <$> named_files w))
            (set_world (foldl (λ wd f, DBCFile_autoSave f wd) (world w)
                              (named_files w)) w))
  ∧ windowModified (undoStackCleanChanged clean w) = negb clean
  ∧ prev_undostack_index (undoStackCleanChanged clean w)
    = (if clean then 0 else prev_undostack_index w)
  ∧ prev_undostack_count (undoStackCleanChanged clean w)
    = (if clean then 0 else prev_undostack_count w).
Proof.
  split.
  - unfold autoSave.
    destruct (QUndoStack.isClean (undo_stack w)); [reflexivity|].
    apply autoSave_files_spec.
  - by destruct clean.
Qed.

(** ** Undo and redo texts *)

Lemma append_empty_r (s : string) : s +:+ "" = s.
Proof.
  induction s as [|c s IH]; [reflexivity|].
  change (String c (s +:+ "") = String c s). by rewrite IH.
Qed.

Lemma arg_Undo (t : string) : QString.arg (tr "Undo %1") t = "Undo " +:+ t.
Proof.
  change ("Undo " +:+ (t +:+ "") = "Undo " +:+ t). by rewrite append_empty_r.
Qed.

Lemma arg_Redo (t : string) : QString.arg (tr "Redo %1") t = "Redo " +:+ t.
Proof.
  change ("Redo " +:+ (t +:+ "") = "Redo " +:+ t). by rewrite append_empty_r.
Qed.

(** Decides the integer tests of the goal. *)
Ltac zbool :=
  repeat match goal with
  | |- context [?a =? ?b] => destruct (Z.eqb_spec a b)
  | |- context [?a <? ?b] => destruct (Z.ltb_spec a b)
  | |- context [?a <=? ?b] => destruct (Z.leb_spec a b)
  end.

Lemma count_nonneg (u : QUndoStack.t) : 0 ≤ QUndoStack.count u.
Proof. unfold QUndoStack.count. lia. Qed.


(** ** What the slots add to the log *)

Lemma background_refl (w w' : MainWindow) :
  log w' = log w → background_step w w'.
Proof. intros Hlog. exists []. by rewrite app_nil_r. Qed.

Lemma background_trans (w1 w2 w3 : MainWindow) :
  background_step w1 w2 → background_step w2 w3 → background_step w1 w3.
Proof.
  intros (evs1 & Hlog1 & Hbg1) (evs2 & Hlog2 & Hbg2).
  exists (evs1 ++ evs2). split.
  - by rewrite Hlog2, Hlog1, app_assoc.
  - by apply Forall_app.
Qed.

Lemma background_emit (e : event) (w : MainWindow) :
  background e = true → background_step w (emit e w).
Proof. intros He. exists [e]. split; [reflexivity | by constructor]. Qed.

Lemma background_projection (P : event → bool) (evs : list event) :
  (∀ e, background e = true → P e = false) →
  Forall (λ e, background e = true) evs →
  List.filter P evs = [].
Proof.
  intros HP. induction 1 as [|e evs He _ IH]; [reflexivity|].
  cbn. by rewrite (HP e He).
Qed.

Lemma background_boxes (w w' : MainWindow) :
  background_step w w' → boxes (log w') = boxes (log w).
Proof.
  intros (evs & -> & Hbg). unfold boxes.
  rewrite List.filter_app, (background_projection is_box evs), app_nil_r; try done.
  by intros [].
Qed.

Lemma background_manager_calls (w w' : MainWindow) :
  background_step w w' → manager_calls (log w') = manager_calls (log w).
Proof.
  intros (evs & -> & Hbg). unfold manager_calls.
  rewrite List.filter_app, (background_projection is_manager_call evs), app_nil_r;
    try done.
  by intros [].
Qed.

Lemma background_queries (w w' : MainWindow) :
  background_step w w' → queries (log w') = queries (log w).
Proof.
  intros (evs & -> & Hbg). unfold queries.
  rewrite List.filter_app, (background_projection is_query evs), app_nil_r;
    try done.
  by intros [].
Qed.

Lemma background_autoSave (w : MainWindow) : background_step w (autoSave w).
Proof.
  unfold autoSave. destruct (negb _); [|by apply background_refl].
  rewrite autoSave_files_spec. eexists. split; [reflexivity|].
  apply Forall_fmap, Forall_true. done.
Qed.

Lemma background_undoStackIndexChanged (index : Z) (w : MainWindow) :
  background_step w (undoStackIndexChanged index w).
Proof.
  unfold undoStackIndexChanged.
  eapply background_trans; [|apply background_autoSave].
  destruct (0 <=? _); [|by apply background_refl].
  by apply (background_emit (StatusMessage _ _)).
Qed.

Lemma background_undoStackCleanChanged (clean : bool) (w : MainWindow) :
  background_step w (undoStackCleanChanged clean w).
Proof. apply background_refl. by destruct clean. Qed.

Lemma background_UndoStack_setClean (w : MainWindow) :
  background_step w (UndoStack_setClean w).
Proof.
  unfold UndoStack_setClean. destruct (QUndoStack.isClean _).
  - by apply background_refl.
  - eapply background_trans; [|apply background_undoStackCleanChanged].
    by apply background_refl.
Qed.

Lemma background_UndoStack_resetClean (w : MainWindow) :
  background_step w (UndoStack_resetClean w).
Proof.
  unfold UndoStack_resetClean. destruct (QUndoStack.isClean _).
  - eapply background_trans; [|apply background_undoStackCleanChanged].
    by apply background_refl.
  - by apply background_refl.
Qed.

Lemma background_UndoStack_clear (w : MainWindow) :
  background_step w (UndoStack_clear w).
Proof.
  unfold UndoStack_clear.
  destruct (QUndoStack.command_list _); [by apply background_refl|].
  assert (background_step w (undoStackIndexChanged 0
            (set_undo_stack (QUndoStack.mk [] 0 0) w))) as Hstep.
  { eapply background_trans; [|apply background_undoStackIndexChanged].
    by apply background_refl. }
  destruct (QUndoStack.isClean _); [done|].
  eapply background_trans; [exact Hstep|apply background_undoStackCleanChanged].
Qed.

Lemma background_DBCFileChanged (w : MainWindow) :
  background_step w (DBCFileChanged w).
Proof.
  unfold DBCFileChanged.
  eapply background_trans; [apply background_UndoStack_clear|].
  by apply background_refl.
Qed.

Lemma background_iter_DBCFileChanged (n : nat) (w : MainWindow) :
  background_step w (Nat.iter n DBCFileChanged w).
Proof.
  induction n as [|n IH]; [by apply background_refl|].
  cbn. eapply background_trans; [exact IH|apply background_DBCFileChanged].
Qed.

Lemma background_after_manager (r : ManagerResult World DBCFile) (w : MainWindow) :
  background_step w (after_manager r w).
Proof.
  unfold after_manager.
  eapply background_trans; [|apply background_iter_DBCFileChanged].
  by apply background_refl.
Qed.

Lemma background_updateRecentFiles (fn : string) (w : MainWindow) :
  background_step w (updateRecentFiles fn w).
Proof. by apply background_refl. Qed.

(** Peels the outermost call off the state reached. *)
Ltac bg_peel lem := eapply background_trans; [|apply lem].
Ltac bg_emit := eapply background_trans; [|apply background_emit; reflexivity].
Ltac bg_same := eapply background_trans; [|apply background_refl; reflexivity].

Lemma background_getSaveFileName (caption path filter : string) (w : MainWindow) :
  background_step w (getSaveFileName caption path filter w).2.
Proof.
  unfold getSaveFileName. cbn [snd]. bg_same. bg_emit. by apply background_refl.
Qed.

Lemma background_saveFile_files (files : list (SourceSet * DBCFile))
    (w : MainWindow) :
  background_step w (saveFile_files files w).2.
Proof.
  revert w. induction files as [|[s f] files IH]; intros w;
    [by apply background_refl|].
  cbn [saveFile_files snd]. bg_peel IH.
  destruct (negb (isEmpty (filename f))); cbn [snd].
  - bg_peel background_updateRecentFiles. bg_emit. by apply background_refl.
  - destruct (negb (isEmpty _)); cbn [snd].
    + bg_peel background_updateRecentFiles. bg_emit. bg_same.
      apply background_getSaveFileName.
    + apply background_getSaveFileName.
Qed.

Lemma background_saveFile (w : MainWindow) : background_step w (saveFile w).
Proof.
  unfold saveFile, showMessage. bg_emit.
  bg_peel background_UndoStack_setClean. bg_same.
  apply background_saveFile_files.
Qed.

(** ** Asking to save unsaved changes *)

Lemma remindSaveChanges_loop_clean (w : MainWindow) (discard_changes : bool) :
  QUndoStack.isClean (undo_stack w) = true →
  remindSaveChanges_loop w discard_changes = w.
Proof.
  intros Hclean. funelim (remindSaveChanges_loop w discard_changes);
    try reflexivity; exfalso;
    match goal with
    | Hc : negb _ && negb _ = true |- _ =>
      clear -Hc Hclean; rewrite Hclean in Hc; discriminate
    end.
Qed.

Lemma remindSaveChanges_loop_discard (w : MainWindow) :
  remindSaveChanges_loop w true = w.
Proof.
  funelim (remindSaveChanges_loop w true); try reflexivity; exfalso;
    match goal with
    | Hc : negb _ && negb _ = true |- _ =>
      clear -Hc; rewrite andb_false_r in Hc; discriminate
    end.
Qed.

Lemma still_running (clean discard_changes : bool) :
  negb clean && negb discard_changes = true → clean = false.
Proof. by destruct clean. Qed.

(** The loop asks at most once: it stops when the stack is clean, after
    one [save], or when the answer is not Ok. *)
Lemma remindSaveChanges_loop_once (w : MainWindow) :
  remindSaveChanges_loop w false
  = if QUndoStack.isClean (undo_stack w) then w
    else if QMessageBox.eqb (unsaved_changes_prompt w).1 QMessageBox.Ok
         then save (unsaved_changes_prompt w).2
         else (unsaved_changes_prompt w).2.
Proof.
  funelim (remindSaveChanges_loop w false).
  - match goal with
    | Hc : negb ?c && negb false = false |- _ =>
      destruct c; [reflexivity | discriminate Hc]
    end.
  - match goal with
    | Hc : negb _ && negb false = true, Hok : QMessageBox.eqb _ _ = true |- _ =>
      rewrite (still_running _ _ Hc);
      unfold unsaved_changes_prompt, question; cbn [fst snd]; rewrite Hok
    end.
    apply remindSaveChanges_loop_clean, saveFile_isClean.
  - match goal with
    | Hc : negb _ && negb false = true, Hok : QMessageBox.eqb _ _ = false |- _ =>
      rewrite (still_running _ _ Hc);
      unfold unsaved_changes_prompt, question; cbn [fst snd]; rewrite Hok
    end.
    apply remindSaveChanges_loop_discard.
Qed.

(** The slots of the undo stack leave the stack as it is. *)
Lemma undo_stack_autoSave (w : MainWindow) :
  undo_stack (autoSave w) = undo_stack w.
Proof.
  unfold autoSave. destruct (negb _); [|reflexivity].
  by rewrite autoSave_files_spec.
Qed.

Lemma undo_stack_undoStackIndexChanged (index : Z) (w : MainWindow) :
  undo_stack (undoStackIndexChanged index w) = undo_stack w.
Proof.
  unfold undoStackIndexChanged. rewrite undo_stack_autoSave. cbn.
  by destruct (0 <=? _).
Qed.

Lemma undo_stack_undoStackCleanChanged (clean : bool) (w : MainWindow) :
  undo_stack (undoStackCleanChanged clean w) = undo_stack w.
Proof. by destruct clean. Qed.

Lemma UndoStack_clear_empty (w : MainWindow) :
  QUndoStack.command_list (undo_stack (UndoStack_clear w)) = [].
Proof.
  unfold UndoStack_clear.
  destruct (QUndoStack.command_list (undo_stack w)) eqn:Hlist; [exact Hlist|].
  destruct (QUndoStack.isClean _);
    rewrite ?undo_stack_undoStackCleanChanged, undo_stack_undoStackIndexChanged;
    reflexivity.
Qed.

Lemma log_unsaved_changes_prompt (w : MainWindow) :
  log (unsaved_changes_prompt w).2
  = log w ++ [QuestionBox (tr "Unsaved Changes")
                (tr "You have unsaved changes. Press ok to save them, cancel to discard.")].
Proof. reflexivity. Qed.

(** What [remindSaveChanges] adds to the log: the question box, once, when
    the stack is not clean, and events of the background. *)
Lemma remindSaveChanges_log (w : MainWindow) :
  ∃ w1, background_step w1 (remindSaveChanges w)
        ∧ log w1
          = log w ++ (if QUndoStack.isClean (undo_stack w) then []
                      else [QuestionBox (tr "Unsaved Changes")
                              (tr "You have unsaved changes. Press ok to save them, cancel to discard.")]).
Proof.
  unfold remindSaveChanges. rewrite remindSaveChanges_loop_once.
  destruct (QUndoStack.isClean (undo_stack w)).
  - exists w. split; [apply background_UndoStack_clear | by rewrite app_nil_r].
  - exists (unsaved_changes_prompt w).2. split; [|apply log_unsaved_changes_prompt].
    bg_peel background_UndoStack_clear.
    destruct (QMessageBox.eqb _ _); [apply background_saveFile|].
    by apply background_refl.
Qed.

Lemma boxes_remindSaveChanges (w : MainWindow) :
  boxes (log (remindSaveChanges w))
  = boxes (log w) ++ (if QUndoStack.isClean (undo_stack w) then []
                      else [QuestionBox (tr "Unsaved Changes")
                              (tr "You have unsaved changes. Press ok to save them, cancel to discard.")]).
Proof.
  destruct (remindSaveChanges_log w) as (w1 & Hbg & Hlog).
  rewrite (background_boxes _ _ Hbg), Hlog. unfold boxes.
  rewrite List.filter_app. by destruct (QUndoStack.isClean _).
Qed.

Lemma manager_calls_remindSaveChanges (w : MainWindow) :
  manager_calls (log (remindSaveChanges w)) = manager_calls (log w).
Proof.
  destruct (remindSaveChanges_log w) as (w1 & Hbg & Hlog).
  rewrite (background_manager_calls _ _ Hbg), Hlog. unfold manager_calls.
  rewrite List.filter_app. destruct (QUndoStack.isClean _); cbn; by rewrite app_nil_r.
Qed.

Lemma queries_remindSaveChanges (w : MainWindow) :
  queries (log (remindSaveChanges w)) = queries (log w).
Proof.
  destruct (remindSaveChanges_log w) as (w1 & Hbg & Hlog).
  rewrite (background_queries _ _ Hbg), Hlog. unfold queries.
  rewrite List.filter_app. destruct (QUndoStack.isClean _); cbn; by rewrite app_nil_r.
Qed.

(** C8. [remindSaveChanges] is a total function: its loop ends. It asks
    at most once: when the stack is clean it asks nothing, otherwise it
    asks once and, on Ok, saves once, after which the stack is clean. On
    return the undo stack holds no command, whatever the answer. *)
Theorem remindSaveChanges_terminates (w : MainWindow) :
  remindSaveChanges w
  = UndoStack_clear
      (if QUndoStack.isClean (undo_stack w) then w
       else if QMessageBox.eqb (unsaved_changes_prompt w).1 QMessageBox.Ok
            then save (unsaved_changes_prompt w).2
            else (unsaved_changes_prompt w).2)
  ∧ QUndoStack.isClean (undo_stack (save w)) = true
  ∧ (length (boxes (log (remindSaveChanges w))) ≤ S (length (boxes (log w))))%nat
  ∧ QUndoStack.command_list (undo_stack (remindSaveChanges w)) = [].
Proof.
  repeat split.
  - unfold remindSaveChanges. by rewrite remindSaveChanges_loop_once.
  - apply saveFile_isClean.
  - rewrite boxes_remindSaveChanges, length_app.
    destruct (QUndoStack.isClean _); cbn; lia.
  - apply UndoStack_clear_empty.
Qed.

(** ** Projections of the log past the calls to the manager *)

Lemma projection_after_emit (P : event → bool) (e : event) (w w' : MainWindow) :
  (∀ e', background e' = true → P e' = false) →
  background_step (emit e w) w' →
  List.filter P (log w') = List.filter P (log w) ++ (if P e then [e] else []).
Proof.
  intros HP (evs & -> & Hbg). cbn.
  rewrite !List.filter_app, (background_projection P evs HP Hbg), app_nil_r.
  cbn. by destruct (P e).
Qed.

Lemma quiet_is_box (e : event) : background e = true → is_box e = false.
Proof. by destruct e. Qed.

Lemma quiet_is_manager_call (e : event) :
  background e = true → is_manager_call e = false.
Proof. by destruct e. Qed.

Lemma quiet_is_query (e : event) : background e = true → is_query e = false.
Proof. by destruct e. Qed.

Lemma background_dbc_closeAll (w : MainWindow) :
  background_step (emit DbcCloseAll w) (dbc_closeAll w).
Proof. apply background_after_manager. Qed.

Lemma background_dbc_open_file (s : SourceSet) (fn : string) (w : MainWindow) :
  background_step (emit (DbcOpenFile s fn) w) (dbc_open_file s fn w).2.
Proof. apply background_after_manager. Qed.

Lemma background_dbc_open_text (s : SourceSet) (dbc_name content : string)
    (w : MainWindow) :
  background_step (emit (DbcOpenText s dbc_name content) w)
                  (dbc_open_text s dbc_name content w).2.
Proof. apply background_after_manager. Qed.

Lemma manager_calls_before_open (close_all : bool) (w : MainWindow) :
  manager_calls (log (before_open close_all w))
  = manager_calls (log w) ++ (if close_all then [DbcCloseAll] else []).
Proof.
  unfold before_open. destruct close_all; [|by rewrite app_nil_r].
  apply (projection_after_emit is_manager_call DbcCloseAll);
    [apply quiet_is_manager_call | apply background_dbc_closeAll].
Qed.

Lemma boxes_before_open (close_all : bool) (w : MainWindow) :
  boxes (log (before_open close_all w)) = boxes (log w).
Proof.
  unfold before_open. destruct close_all; [|reflexivity].
  unfold boxes.
  rewrite (projection_after_emit is_box DbcCloseAll w);
    [apply app_nil_r | apply quiet_is_box | apply background_dbc_closeAll].
Qed.

Lemma queries_before_open (close_all : bool) (w : MainWindow) :
  queries (log (before_open close_all w)) = queries (log w).
Proof.
  unfold before_open. destruct close_all; [|reflexivity].
  unfold queries.
  rewrite (projection_after_emit is_query DbcCloseAll w);
    [apply app_nil_r | apply quiet_is_query | apply background_dbc_closeAll].
Qed.

Lemma manager_calls_dbc_open_file (s : SourceSet) (fn : string) (w : MainWindow) :
  manager_calls (log (dbc_open_file s fn w).2)
  = manager_calls (log w) ++ [DbcOpenFile s fn].
Proof.
  apply (projection_after_emit is_manager_call (DbcOpenFile s fn));
    [apply quiet_is_manager_call | apply background_dbc_open_file].
Qed.

Lemma boxes_dbc_open_file (s : SourceSet) (fn : string) (w : MainWindow) :
  boxes (log (dbc_open_file s fn w).2) = boxes (log w).
Proof.
  unfold boxes.
  rewrite (projection_after_emit is_box (DbcOpenFile s fn) w);
    [apply app_nil_r | apply quiet_is_box | apply background_dbc_open_file].
Qed.

Lemma queries_dbc_open_file (s : SourceSet) (fn : string) (w : MainWindow) :
  queries (log (dbc_open_file s fn w).2) = queries (log w).
Proof.
  unfold queries.
  rewrite (projection_after_emit is_query (DbcOpenFile s fn) w);
    [apply app_nil_r | apply quiet_is_query | apply background_dbc_open_file].
Qed.

Lemma manager_calls_dbc_open_text (s : SourceSet) (dbc_name content : string)
    (w : MainWindow) :
  manager_calls (log (dbc_open_text s dbc_name content w).2)
  = manager_calls (log w) ++ [DbcOpenText s dbc_name content].
Proof.
  apply (projection_after_emit is_manager_call (DbcOpenText s dbc_name content));
    [apply quiet_is_manager_call | apply background_dbc_open_text].
Qed.

Lemma boxes_dbc_open_text (s : SourceSet) (dbc_name content : string)
    (w : MainWindow) :
  boxes (log (dbc_open_text s dbc_name content w).2) = boxes (log w).
Proof.
  unfold boxes.
  rewrite (projection_after_emit is_box (DbcOpenText s dbc_name content) w);
    [apply app_nil_r | apply quiet_is_box | apply background_dbc_open_text].
Qed.

(** ** Loading a file *)

Lemma loadFile_choose_name (fn : string) (w : MainWindow) :
  (loadFile_choose fn w).1
  = if autosave_accepted fn w then fn +:+ AUTO_SAVE_EXTENSION else fn.
Proof.
  unfold loadFile_choose, autosave_accepted. cbn.
  destruct (QFile_exists _ _); [|reflexivity]. cbn.
  by destruct (QMessageBox.eqb _ _).
Qed.

Lemma loadFile_choose_log (fn : string) (w : MainWindow) :
  log (loadFile_choose fn w).2
  = log w ++ FileExistsQuery (fn +:+ AUTO_SAVE_EXTENSION)
             :: (if QFile_exists (fn +:+ AUTO_SAVE_EXTENSION) (world w)
                 then [QuestionBox (tr "Auto saved DBC found")
                         (tr "Auto saved DBC file from previous session found. Do you want to load it instead?")]
                 else []).
Proof.
  unfold loadFile_choose. cbn.
  destruct (QFile_exists _ _); [|reflexivity]. cbn.
  destruct (QMessageBox.eqb _ _); cbn; [|by rewrite <- app_assoc].
  unfold UndoStack_resetClean. cbn.
  destruct (QUndoStack.isClean _); cbn; by rewrite <- app_assoc.
Qed.

Lemma loadFile_choose_undo_stack (fn : string) (w : MainWindow) :
  undo_stack (loadFile_choose fn w).2
  = if autosave_accepted fn w then
      QUndoStack.mk (QUndoStack.command_list (undo_stack w))
                    (QUndoStack.index (undo_stack w)) (-1)
    else undo_stack w.
Proof.
  unfold loadFile_choose, autosave_accepted. cbn.
  destruct (QFile_exists _ _); [|reflexivity]. cbn.
  destruct (QMessageBox.eqb _ _); cbn; [|reflexivity].
  unfold UndoStack_resetClean. cbn.
  by destruct (QUndoStack.isClean _).
Qed.

Lemma arg_failed_to_parse (fn : string) :
  QString.arg (tr "Failed to parse DBC file %1") fn
  = "Failed to parse DBC file " +:+ fn.
Proof.
  change ("Failed to parse DBC file " +:+ (fn +:+ "")
          = "Failed to parse DBC file " +:+ fn).
  by rewrite append_empty_r.
Qed.

(** [loadFile_open] ends with one report: the status message or the
    warning box with the error of [open]. *)
Lemma loadFile_open_log (fn dbc_fn : string) (s : SourceSet)
    (close_all : bool) (w : MainWindow) :
  let opened := dbc_open_file s dbc_fn (before_open close_all w) in
  log (loadFile_open fn dbc_fn s close_all w)
  = log opened.2
    ++ [if opened.1.1 then
          StatusMessage (QString.arg (tr "DBC File %1 loaded") fn) 2000
        else
          WarningBox (tr "Failed to load DBC file")
                     ("Failed to parse DBC file " +:+ fn) opened.1.2].
Proof.
  intros opened. unfold loadFile_open. fold (before_open close_all w).
  fold opened. rewrite arg_failed_to_parse. by destruct opened.1.1.
Qed.

Lemma loadFile_open_manager_calls (fn dbc_fn : string) (s : SourceSet)
    (close_all : bool) (w : MainWindow) :
  manager_calls (log (loadFile_open fn dbc_fn s close_all w))
  = manager_calls (log w) ++ (if close_all then [DbcCloseAll] else [])
      ++ [DbcOpenFile s dbc_fn].
Proof.
  rewrite loadFile_open_log, app_assoc, <- manager_calls_before_open,
    <- manager_calls_dbc_open_file.
  unfold manager_calls at 1. rewrite List.filter_app.
  destruct (dbc_open_file s dbc_fn (before_open close_all w)).1.1;
    apply app_nil_r.
Qed.

Lemma loadFile_open_queries (fn dbc_fn : string) (s : SourceSet)
    (close_all : bool) (w : MainWindow) :
  queries (log (loadFile_open fn dbc_fn s close_all w)) = queries (log w).
Proof.
  rewrite loadFile_open_log, <- (queries_before_open close_all w),
    <- (queries_dbc_open_file s dbc_fn).
  unfold queries at 1. rewrite List.filter_app.
  destruct (dbc_open_file s dbc_fn (before_open close_all w)).1.1;
    apply app_nil_r.
Qed.

(** What [loadFile] asks and opens. For a file name [fn] it asks the file
    system for [fn + AUTO_SAVE_EXTENSION] and for no other path. When that
    file is there and the user takes it, the name passed to [open] is
    [fn + AUTO_SAVE_EXTENSION] and the undo stack is not clean when [open]
    is called; otherwise the name passed to [open] is [fn] and the undo
    stack is as before. This is the state in which [open] is called, not
    the one [loadFile] returns with. *)
Lemma loadFile_autosave (fn : string) (s : SourceSet) (close_all : bool)
    (w : MainWindow) :
  fn ≠ "" →
  QUndoStack.wf (undo_stack w) →
  let accepted := autosave_accepted fn w in
  let chosen := loadFile_choose fn w in
  let dbc_fn := if accepted then fn +:+ AUTO_SAVE_EXTENSION else fn in
  queries (log (loadFile fn s close_all w))
  = queries (log w) ++ [FileExistsQuery (fn +:+ AUTO_SAVE_EXTENSION)]
  ∧ loadFile fn s close_all w = loadFile_open fn dbc_fn s close_all chosen.2
  ∧ manager_calls (log (loadFile fn s close_all w))
    = manager_calls (log w) ++ (if close_all then [DbcCloseAll] else [])
        ++ [DbcOpenFile s dbc_fn]
  ∧ QUndoStack.isClean (undo_stack chosen.2)
    = (if accepted then false else QUndoStack.isClean (undo_stack w)).
Proof.
  intros Hfn Hwf accepted chosen dbc_fn.
  assert (Hload : loadFile fn s close_all w
                  = loadFile_open fn dbc_fn s close_all chosen.2).
  { unfold loadFile, isEmpty. rewrite bool_decide_false by done. cbn [negb].
    by rewrite loadFile_choose_name. }
  rewrite Hload. repeat split.
  - rewrite loadFile_open_queries. subst chosen. rewrite loadFile_choose_log.
    unfold queries. rewrite List.filter_app. cbn.
    by destruct (QFile_exists _ _).
  - rewrite loadFile_open_manager_calls. f_equal.
    subst chosen. rewrite loadFile_choose_log.
    unfold manager_calls. rewrite List.filter_app. cbn.
    destruct (QFile_exists _ _); apply app_nil_r.
  - subst chosen. rewrite loadFile_choose_undo_stack. fold accepted.
    destruct accepted; [|reflexivity].
    unfold QUndoStack.isClean. cbn [QUndoStack.clean_index QUndoStack.index].
    apply Z.eqb_neq. destruct Hwf as [Hidx _]. lia.
Qed.

(** ** What leaves the settings alone *)

Lemma settings_autoSave (w : MainWindow) : settings (autoSave w) = settings w.
Proof.
  unfold autoSave. destruct (negb _); [|reflexivity].
  by rewrite autoSave_files_spec.
Qed.

Lemma settings_undoStackIndexChanged (index : Z) (w : MainWindow) :
  settings (undoStackIndexChanged index w) = settings w.
Proof.
  unfold undoStackIndexChanged. rewrite settings_autoSave. cbn.
  by destruct (0 <=? _).
Qed.

Lemma settings_undoStackCleanChanged (clean : bool) (w : MainWindow) :
  settings (undoStackCleanChanged clean w) = settings w.
Proof. by destruct clean. Qed.

Lemma settings_UndoStack_clear (w : MainWindow) :
  settings (UndoStack_clear w) = settings w.
Proof.
  unfold UndoStack_clear.
  destruct (QUndoStack.command_list _); [reflexivity|].
  destruct (QUndoStack.isClean _);
    by rewrite ?settings_undoStackCleanChanged, settings_undoStackIndexChanged.
Qed.

Lemma settings_UndoStack_resetClean (w : MainWindow) :
  settings (UndoStack_resetClean w) = settings w.
Proof.
  unfold UndoStack_resetClean.
  destruct (QUndoStack.isClean _);
    by rewrite ?settings_undoStackCleanChanged.
Qed.

Lemma settings_DBCFileChanged (w : MainWindow) :
  settings (DBCFileChanged w) = settings w.
Proof. unfold DBCFileChanged. cbn. apply settings_UndoStack_clear. Qed.

Lemma settings_after_manager (r : ManagerResult World DBCFile) (w : MainWindow) :
  settings (after_manager r w) = settings w.
Proof.
  unfold after_manager. induction (mr_changed r) as [|n IH]; [reflexivity|].
  by rewrite Nat.iter_succ, settings_DBCFileChanged.
Qed.

Lemma settings_before_open (close_all : bool) (w : MainWindow) :
  settings (before_open close_all w) = settings w.
Proof.
  unfold before_open, dbc_closeAll. destruct close_all; [|reflexivity].
  by rewrite settings_after_manager.
Qed.

Lemma settings_dbc_open_file (s : SourceSet) (fn : string) (w : MainWindow) :
  settings (dbc_open_file s fn w).2 = settings w.
Proof. unfold dbc_open_file. cbn [snd]. by rewrite settings_after_manager. Qed.

Lemma settings_loadFile_choose (fn : string) (w : MainWindow) :
  settings (loadFile_choose fn w).2 = settings w.
Proof.
  unfold loadFile_choose. cbn.
  destruct (QFile_exists _ _); [|reflexivity]. cbn.
  destruct (QMessageBox.eqb _ _); cbn; [|reflexivity].
  by rewrite settings_UndoStack_resetClean.
Qed.

(** ** Closing *)

Lemma cleanupAutoSaveFile_files_spec (files : list (SourceSet * DBCFile))
    (w : MainWindow) :
  cleanupAutoSaveFile_files files w
  = set_log (log w ++ (DbcFileCleanup <$> files.*2))
      (set_world
         (foldl (λ wd f, DBCFile_cleanupAutoSaveFile f wd) (world w) files.*2) w).
Proof.
  revert w. induction files as [|[s f] files IH]; intros w.
  - cbn. rewrite app_nil_r. by destruct w.
  - cbn [cleanupAutoSaveFile_files]. rewrite IH. cbn.
    rewrite <- app_assoc. by destruct w.
Qed.

Lemma background_cleanupAutoSaveFile (w : MainWindow) :
  background_step w (cleanupAutoSaveFile w).
Proof.
  unfold cleanupAutoSaveFile. rewrite cleanupAutoSaveFile_files_spec.
  eexists. split; [reflexivity|]. apply Forall_fmap, Forall_true. done.
Qed.

Lemma undo_stack_cleanupAutoSaveFile (w : MainWindow) :
  undo_stack (cleanupAutoSaveFile w) = undo_stack w.
Proof. unfold cleanupAutoSaveFile. by rewrite cleanupAutoSaveFile_files_spec. Qed.

(** [close] shows the question for unsaved changes when the stack is not
    clean, and no other box; its last step is to close the window. *)
Lemma boxes_close (w : MainWindow) :
  boxes (log (close w))
  = boxes (log w) ++ (if QUndoStack.isClean (undo_stack w) then []
                      else [QuestionBox (tr "Unsaved Changes")
                              (tr "You have unsaved changes. Press ok to save them, cancel to discard.")]).
Proof.
  unfold close, closeEvent. cbn. unfold boxes at 1.
  rewrite <- app_assoc, List.filter_app. cbn. rewrite app_nil_r.
  fold (boxes (log (remindSaveChanges (cleanupAutoSaveFile w)))).
  rewrite boxes_remindSaveChanges, undo_stack_cleanupAutoSaveFile.
  by rewrite (background_boxes _ _ (background_cleanupAutoSaveFile w)).
Qed.

Lemma last_close (w : MainWindow) : last (log (close w)) = Some WindowClose.
Proof. unfold close. cbn. apply last_snoc. Qed.

(** ** Failures *)

(** C1, as amended. When [open] fails in [loadFile], the warning box with
    the error of [open] is shown, it is the only box after the prompt for
    the auto saved file, the manager is called no further, the settings
    (recent files, last directory) stay as they were, and the menus are
    refreshed. When the route dialog is rejected after a failed load,
    [openRoute] closes the window: it shows no box of its own, it runs
    [close], whose only box is the question for unsaved changes. *)
Theorem load_failure_handling (fn : string) (s : SourceSet) (close_all : bool)
    (w wr : MainWindow) :
  fn ≠ "" →
  let chosen := loadFile_choose fn w in
  let opened := dbc_open_file s chosen.1 (before_open close_all chosen.2) in
  opened.1.1 = false →
  (OpenRouteDialog_exec (world wr)).1 = (false, true) →
  (loadFile fn s close_all w
   = updateLoadSaveMenus
       (emit (WarningBox (tr "Failed to load DBC file")
                         ("Failed to parse DBC file " +:+ fn) opened.1.2)
             opened.2)
   ∧ boxes (log (loadFile fn s close_all w))
     = boxes (log chosen.2)
         ++ [WarningBox (tr "Failed to load DBC file")
                        ("Failed to parse DBC file " +:+ fn) opened.1.2]
   ∧ manager_calls (log (loadFile fn s close_all w))
     = manager_calls (log w) ++ (if close_all then [DbcCloseAll] else [])
         ++ [DbcOpenFile s chosen.1]
   ∧ settings (loadFile fn s close_all w) = settings w)
  ∧ (openRoute wr
     = close (set_world (OpenRouteDialog_exec (world wr)).2 (emit RouteDialog wr))
     ∧ boxes (log (openRoute wr))
       = boxes (log wr)
           ++ (if QUndoStack.isClean (undo_stack wr) then []
               else [QuestionBox (tr "Unsaved Changes")
                       (tr "You have unsaved changes. Press ok to save them, cancel to discard.")])
     ∧ last (log (openRoute wr)) = Some WindowClose).
Proof.
  intros Hfn chosen opened Hfail Hroute.
  assert (Hload : loadFile fn s close_all w
                  = loadFile_open fn chosen.1 s close_all chosen.2).
  { unfold loadFile, isEmpty. by rewrite bool_decide_false by done. }
  assert (Hopen : loadFile_open fn chosen.1 s close_all chosen.2
                  = updateLoadSaveMenus
                      (emit (WarningBox (tr "Failed to load DBC file")
                               ("Failed to parse DBC file " +:+ fn) opened.1.2)
                            opened.2)).
  { unfold loadFile_open. fold (before_open close_all chosen.2). fold opened.
    by rewrite Hfail, arg_failed_to_parse. }
  assert (Hclose : openRoute wr
                   = close (set_world (OpenRouteDialog_exec (world wr)).2
                                      (emit RouteDialog wr))).
  { unfold openRoute. destruct (OpenRouteDialog_exec (world wr)) as [[a f] wd].
    cbn in Hroute. injection Hroute as -> ->. reflexivity. }
  split; [repeat split|repeat split].
  - by rewrite Hload.
  - rewrite Hload, Hopen. set (e := WarningBox _ _ _).
    change (boxes (log opened.2 ++ [e]) = boxes (log chosen.2) ++ [e]).
    unfold boxes at 1. rewrite List.filter_app. fold (boxes (log opened.2)).
    subst opened. by rewrite boxes_dbc_open_file, boxes_before_open.
  - rewrite Hload, loadFile_open_manager_calls. f_equal.
    subst chosen. rewrite loadFile_choose_log.
    unfold manager_calls. rewrite List.filter_app. cbn.
    destruct (QFile_exists _ _); apply app_nil_r.
  - rewrite Hload, Hopen. change (settings opened.2 = settings w).
    subst opened chosen.
    by rewrite settings_dbc_open_file, settings_before_open,
      settings_loadFile_choose.
  - exact Hclose.
  - rewrite Hclose, boxes_close.
    f_equal. change (boxes (log wr ++ [RouteDialog]) = boxes (log wr)).
    unfold boxes at 1. rewrite List.filter_app. apply app_nil_r.
  - rewrite Hclose. apply last_close.
Qed.

(** ** Fields the undo stack and saving never write *)

Lemma untouched_autoSave (w : MainWindow) : untouched (autoSave w) = untouched w.
Proof.
  unfold autoSave. destruct (negb _); [|reflexivity].
  by rewrite autoSave_files_spec.
Qed.

Lemma untouched_undoStackIndexChanged (index : Z) (w : MainWindow) :
  untouched (undoStackIndexChanged index w) = untouched w.
Proof.
  unfold undoStackIndexChanged. rewrite untouched_autoSave.
  by destruct (0 <=? _).
Qed.

Lemma untouched_undoStackCleanChanged (clean : bool) (w : MainWindow) :
  untouched (undoStackCleanChanged clean w) = untouched w.
Proof. by destruct clean. Qed.

Lemma untouched_UndoStack_clear (w : MainWindow) :
  untouched (UndoStack_clear w) = untouched w.
Proof.
  unfold UndoStack_clear.
  destruct (QUndoStack.command_list _); [reflexivity|].
  destruct (QUndoStack.isClean _);
    by rewrite ?untouched_undoStackCleanChanged, untouched_undoStackIndexChanged.
Qed.

Lemma untouched_UndoStack_setClean (w : MainWindow) :
  untouched (UndoStack_setClean w) = untouched w.
Proof.
  unfold UndoStack_setClean.
  destruct (QUndoStack.isClean _); by rewrite ?untouched_undoStackCleanChanged.
Qed.

Lemma untouched_saveFile_files (files : list (SourceSet * DBCFile))
    (w : MainWindow) :
  untouched (saveFile_files files w).2 = untouched w.
Proof.
  revert w. induction files as [|[s f] files IH]; intros w; [reflexivity|].
  cbn [saveFile_files snd]. rewrite IH.
  destruct (negb (isEmpty (filename f))); [reflexivity|].
  by destruct (negb (isEmpty _)).
Qed.

Lemma untouched_saveFile (w : MainWindow) : untouched (saveFile w) = untouched w.
Proof.
  unfold saveFile, showMessage, emit.
  change (untouched (UndoStack_setClean
            (set_dbc_files (saveFile_files (dbc_files w) w).1
                           (saveFile_files (dbc_files w) w).2)) = untouched w).
  rewrite untouched_UndoStack_setClean.
  apply (untouched_saveFile_files (dbc_files w) w).
Qed.

Lemma untouched_remindSaveChanges (w : MainWindow) :
  untouched (remindSaveChanges w) = untouched w.
Proof.
  unfold remindSaveChanges.
  rewrite untouched_UndoStack_clear, remindSaveChanges_loop_once.
  destruct (QUndoStack.isClean _); [reflexivity|].
  destruct (QMessageBox.eqb _ _); [|reflexivity].
  unfold save. by rewrite untouched_saveFile.
Qed.

Lemma fingerprint_to_dbc_remindSaveChanges (w : MainWindow) :
  fingerprint_to_dbc (remindSaveChanges w) = fingerprint_to_dbc w.
Proof.
  pose proof (untouched_remindSaveChanges w) as Heq.
  unfold untouched in Heq. congruence.
Qed.

(** ** Loading by fingerprint *)

(** Restates the left side of an equation by a convertible term. *)
Ltac change_lhs t := match goal with |- _ = ?r => change (t = r) end.

Lemma arg2_opendbc (dir dbc_name : string) :
  QString.arg2 "%1/%2.dbc" dir dbc_name = dir +:+ "/" +:+ dbc_name +:+ ".dbc".
Proof.
  change (dir +:+ "/" +:+ dbc_name +:+ ".dbc" +:+ ""
          = dir +:+ "/" +:+ dbc_name +:+ ".dbc").
  by rewrite append_empty_r.
Qed.

Lemma manager_calls_loadDBCFromOpendbc (dbc_name : string) (w : MainWindow) :
  manager_calls (log (loadDBCFromOpendbc dbc_name w))
  = manager_calls (log w)
      ++ [DbcCloseAll;
          DbcOpenFile SOURCE_ALL
            (OPENDBC_FILE_PATH +:+ "/" +:+ dbc_name +:+ ".dbc")].
Proof.
  unfold loadDBCFromOpendbc. rewrite arg2_opendbc.
  set (path := OPENDBC_FILE_PATH +:+ _).
  change_lhs (manager_calls
                (log (dbc_open_file SOURCE_ALL path
                        (before_open true (remindSaveChanges w))).2)).
  rewrite manager_calls_dbc_open_file, manager_calls_before_open,
    manager_calls_remindSaveChanges.
  by rewrite <- app_assoc.
Qed.

Lemma manager_calls_newFile (w : MainWindow) :
  manager_calls (log (newFile w))
  = manager_calls (log w) ++ [DbcCloseAll; DbcOpenText SOURCE_ALL "" ""].
Proof.
  unfold newFile.
  change_lhs (manager_calls
                (log (dbc_open_text SOURCE_ALL "" ""
                        (before_open true (remindSaveChanges w))).2)).
  rewrite manager_calls_dbc_open_text, manager_calls_before_open,
    manager_calls_remindSaveChanges.
  by rewrite <- app_assoc.
Qed.

(** C4. [loadDBCFromFingerprint] does what the lookup says: nothing when
    messages are loaded; otherwise, for a non-empty fingerprint that is a
    key of the table, it loads the opendbc file named by the table (the
    manager is asked to close all files and to open that file); in every
    other case it creates a new file (close all, open the empty text). *)
Theorem loadDBCFromFingerprint_lookup (w : MainWindow) :
  let w1 := remindSaveChanges w in
  let w' := loadDBCFromFingerprint w in
  match claimed_fingerprint_action (msgCount (dbc_files w))
          (can_carFingerprint (world w1)) (fingerprint_to_dbc w) with
  | DoNothing => w' = w
  | LoadOpendbc dbc_name =>
    (∃ title, w' = loadDBCFromOpendbc dbc_name (set_video_dock title w1))
    ∧ manager_calls (log w')
      = manager_calls (log w)
          ++ [DbcCloseAll;
              DbcOpenFile SOURCE_ALL
                (OPENDBC_FILE_PATH +:+ "/" +:+ dbc_name +:+ ".dbc")]
  | CreateNewFile =>
    (∃ title, w' = newFile (set_video_dock title w1))
    ∧ manager_calls (log w')
      = manager_calls (log w) ++ [DbcCloseAll; DbcOpenText SOURCE_ALL "" ""]
  end.
Proof.
  intros w1 w'. subst w'. unfold claimed_fingerprint_action, loadDBCFromFingerprint.
  fold w1. case_bool_decide as Hcount.
  { by destruct (Z.eqb_spec (msgCount (dbc_files w)) 0). }
  destruct (Z.eqb_spec (msgCount (dbc_files w)) 0) as [_|]; [|done]. cbn [negb].
  set (fingerprint := can_carFingerprint (world w1)).
  set (w2 := if can_liveStreaming (world w1) then _ else _).
  assert (Hw2 : ∃ title, w2 = set_video_dock title w1)
    by (subst w2; destruct (can_liveStreaming _); eauto).
  destruct Hw2 as [title Hw2].
  assert (Hcalls : manager_calls (log w2) = manager_calls (log w)).
  { rewrite Hw2. apply manager_calls_remindSaveChanges. }
  assert (Htable : fingerprint_to_dbc w2 = fingerprint_to_dbc w).
  { rewrite Hw2. apply fingerprint_to_dbc_remindSaveChanges. }
  assert (Hnew : (∃ title, newFile w2 = newFile (set_video_dock title w1))
                 ∧ manager_calls (log (newFile w2))
                   = manager_calls (log w)
                       ++ [DbcCloseAll; DbcOpenText SOURCE_ALL "" ""]).
  { split; [exists title; by rewrite Hw2|].
    by rewrite manager_calls_newFile, Hcalls. }
  rewrite Htable. unfold isEmpty.
  destruct (fingerprint_to_dbc w) as [| |members]; cbn [json_at].
  1,2: by destruct (negb _).
  case_bool_decide as Hkey.
  - destruct Hkey as [Hfp [v Hv]%elem_of_dom].
    rewrite bool_decide_false by done. cbn [negb]. rewrite Hv. split.
    + exists title. by rewrite Hw2.
    + by rewrite manager_calls_loadDBCFromOpendbc, Hcalls.
  - case_bool_decide as Hfp; cbn [negb]; [exact Hnew|].
    destruct (members !! fingerprint) as [v|] eqn:Hv; [|exact Hnew].
    exfalso. apply Hkey. split; [done|]. apply elem_of_dom. eauto.
Qed.

(** ** Loading from the clipboard *)

(** The slots run after a call to the manager leave the open files alone. *)
Lemma dbc_files_autoSave (w : MainWindow) : dbc_files (autoSave w) = dbc_files w.
Proof.
  unfold autoSave. destruct (negb _); [|reflexivity].
  by rewrite autoSave_files_spec.
Qed.

Lemma dbc_files_UndoStack_clear (w : MainWindow) :
  dbc_files (UndoStack_clear w) = dbc_files w.
Proof.
  unfold UndoStack_clear, undoStackIndexChanged.
  destruct (QUndoStack.command_list _); [reflexivity|].
  destruct (QUndoStack.isClean _); cbn; rewrite dbc_files_autoSave; reflexivity.
Qed.

Lemma dbc_files_after_manager (r : ManagerResult World DBCFile) (w : MainWindow) :
  dbc_files (after_manager r w) = mr_files r.
Proof.
  unfold after_manager. induction (mr_changed r) as [|n IH]; [reflexivity|].
  rewrite Nat.iter_succ. unfold DBCFileChanged at 1. cbn.
  by rewrite dbc_files_UndoStack_clear.
Qed.

Lemma detailed_text (error : string) :
  (if negb (isEmpty error) then error else "") = error.
Proof. unfold isEmpty. by case_bool_decide. Qed.

(** C9. [loadDBCFromClipboard] ends with one box. It is the box of success
    exactly when [open] gave true and the files the manager then holds
    count at least one message; in every other case, also for a text that
    parses to no message, it is the warning box. *)
Theorem loadDBCFromClipboard_report (w : MainWindow) :
  let w1 := remindSaveChanges w in
  let w2 := dbc_closeAll w1 in
  let r := DBCManager_open_text SOURCE_ALL "" (clipboard_text (world w1))
             (dbc_files w2) (world w2) in
  let success := mr_ok r && bool_decide (0 < msgCount (mr_files r)) in
  let report :=
    if success then
      InformationBox (tr "Load From Clipboard") (tr "DBC Successfully Loaded!")
    else
      WarningBox (tr "Failed to load DBC from clipboard")
                 (tr "Make sure that you paste the text with correct format.")
                 (mr_error r) in
  last (log (loadDBCFromClipboard w)) = Some report
  ∧ boxes (log (loadDBCFromClipboard w)) = boxes (log w1) ++ [report].
Proof.
  intros w1 w2 r success report.
  set (opened := dbc_open_text SOURCE_ALL "" (clipboard_text (world w1)) w2).
  assert (Hfiles : dbc_files opened.2 = mr_files r)
    by apply dbc_files_after_manager.
  assert (Hload : loadDBCFromClipboard w = emit report opened.2).
  { unfold loadDBCFromClipboard. fold w1 w2 opened. rewrite Hfiles, detailed_text.
    change opened.1.1 with (mr_ok r). change opened.1.2 with (mr_error r).
    subst report success.
    destruct (mr_ok r); cbn [andb]; [|reflexivity].
    destruct (Z.ltb_spec 0 (msgCount (mr_files r)));
      [by rewrite bool_decide_true | by rewrite bool_decide_false by lia]. }
  rewrite Hload. split; [apply last_snoc|].
  change (boxes (log opened.2 ++ [report]) = boxes (log w1) ++ [report]).
  unfold boxes at 1. rewrite List.filter_app. fold (boxes (log opened.2)).
  subst opened. rewrite boxes_dbc_open_text.
  change w2 with (before_open true w1). rewrite boxes_before_open.
  f_equal. subst report. by destruct success.
Qed.

(** ** After an accepted auto saved file *)

Lemma UndoStack_clear_no_commands (w : MainWindow) :
  QUndoStack.command_list (undo_stack w) = [] → UndoStack_clear w = w.
Proof. intros Hempty. unfold UndoStack_clear. by rewrite Hempty. Qed.

Lemma undo_stack_after_manager (r : ManagerResult World DBCFile) (w : MainWindow) :
  QUndoStack.command_list (undo_stack w) = [] →
  undo_stack (after_manager r w) = undo_stack w.
Proof.
  intros Hempty. unfold after_manager.
  induction (mr_changed r) as [|n IH]; [reflexivity|].
  rewrite Nat.iter_succ. unfold DBCFileChanged at 1.
  rewrite UndoStack_clear_no_commands by (by rewrite IH). exact IH.
Qed.

Lemma undo_stack_loadFile_open (fn dbc_fn : string) (s : SourceSet)
    (close_all : bool) (w : MainWindow) :
  QUndoStack.command_list (undo_stack w) = [] →
  undo_stack (loadFile_open fn dbc_fn s close_all w) = undo_stack w.
Proof.
  intros Hempty.
  assert (Hbefore : undo_stack (before_open close_all w) = undo_stack w).
  { unfold before_open, dbc_closeAll. destruct close_all; [|reflexivity].
    by rewrite undo_stack_after_manager. }
  assert (Hopened : undo_stack (dbc_open_file s dbc_fn (before_open close_all w)).2
                    = undo_stack w).
  { unfold dbc_open_file. cbn [snd].
    rewrite undo_stack_after_manager; [exact Hbefore|].
    change (QUndoStack.command_list (undo_stack (before_open close_all w)) = []).
    by rewrite Hbefore. }
  unfold loadFile_open. fold (before_open close_all w).
  destruct (dbc_open_file s dbc_fn (before_open close_all w)).1.1; exact Hopened.
Qed.

(** When the undo stack holds no command, as it does after
    [remindSaveChanges], an accepted auto saved file leaves the stack not
    clean at the end of [loadFile], whatever the manager emits; [close]
    then asks for the unsaved changes. *)
Lemma loadFile_autosave_stays_unclean (fn : string) (s : SourceSet)
    (close_all : bool) (w : MainWindow) :
  fn ≠ "" →
  QUndoStack.wf (undo_stack w) →
  QUndoStack.command_list (undo_stack w) = [] →
  autosave_accepted fn w = true →
  QUndoStack.isClean (undo_stack (loadFile fn s close_all w)) = false
  ∧ boxes (log (close (loadFile fn s close_all w)))
    = boxes (log (loadFile fn s close_all w))
        ++ [QuestionBox (tr "Unsaved Changes")
              (tr "You have unsaved changes. Press ok to save them, cancel to discard.")].
Proof.
  intros Hfn Hwf Hempty Haccepted.
  assert (Hunclean : QUndoStack.isClean (undo_stack (loadFile fn s close_all w))
                     = false).
  { unfold loadFile, isEmpty. rewrite bool_decide_false by done. cbn [negb].
    rewrite undo_stack_loadFile_open;
      rewrite loadFile_choose_undo_stack, Haccepted; [|exact Hempty].
    unfold QUndoStack.isClean. cbn [QUndoStack.clean_index QUndoStack.index].
    apply Z.eqb_neq. destruct Hwf as [Hidx _]. lia. }
  split; [exact Hunclean|]. by rewrite boxes_close, Hunclean.
Qed.

(** ** The menu of buses *)

Lemma add_bus_actions_spec (sources_sorted : list N) (w : MainWindow)
    (menu : list BusAction) :
  add_bus_actions sources_sorted w menu
  = menu ++ ((λ source, bus_action source w)
               <$> filter (λ source, (source < 64)%N) sources_sorted).
Proof.
  revert menu. induction sources_sorted as [|source rest IH]; intros menu.
  - cbn. by rewrite app_nil_r.
  - cbn [add_bus_actions]. rewrite filter_cons.
    destruct (N.leb_spec 64 source) as [Hge|Hlt].
    + rewrite decide_False by lia. apply IH.
    + rewrite decide_True by lia. rewrite IH. cbn. by rewrite <- app_assoc.
Qed.

Lemma menu_updateLoadSaveMenus (w : MainWindow) (action : BusAction) :
  action ∈ menu_actions (open_dbc_for_source (updateLoadSaveMenus w)) →
  (bus_data action < 64)%N ∧ bus_data action ∈ sources w.
Proof.
  unfold updateLoadSaveMenus. cbn.
  rewrite add_bus_actions_spec. cbn.
  intros (source & -> & Hin)%list_elem_of_fmap.
  apply list_elem_of_filter in Hin as [Hlt Hin].
  rewrite merge_sort_Permutation in Hin.
  apply elem_of_elements in Hin. by cbn.
Qed.

Lemma menu_ok_updateLoadSaveMenus (w : MainWindow) :
  menu_ok (updateLoadSaveMenus w).
Proof.
  apply Forall_forall. intros action Hin.
  by apply menu_updateLoadSaveMenus in Hin as [Hlt _].
Qed.

(** [menu_ok] looks at the menu only: a step that leaves the menu as it is
    keeps it. *)
Ltac menu_kept := match goal with Hok : menu_ok _ |- menu_ok _ => exact Hok end.

Lemma menu_ok_autoSave (w : MainWindow) : menu_ok w → menu_ok (autoSave w).
Proof.
  intros Hok. unfold autoSave. destruct (negb _); [|menu_kept].
  rewrite autoSave_files_spec. menu_kept.
Qed.

Lemma menu_ok_undoStackIndexChanged (index : Z) (w : MainWindow) :
  menu_ok w → menu_ok (undoStackIndexChanged index w).
Proof.
  intros Hok. unfold undoStackIndexChanged. apply menu_ok_autoSave.
  destruct (0 <=? _); menu_kept.
Qed.

Lemma menu_ok_undoStackCleanChanged (clean : bool) (w : MainWindow) :
  menu_ok w → menu_ok (undoStackCleanChanged clean w).
Proof. intros Hok. destruct clean; menu_kept. Qed.

Lemma menu_ok_UndoStack_setClean (w : MainWindow) :
  menu_ok w → menu_ok (UndoStack_setClean w).
Proof.
  intros Hok. unfold UndoStack_setClean.
  destruct (QUndoStack.isClean _); [menu_kept|].
  apply menu_ok_undoStackCleanChanged. menu_kept.
Qed.

Lemma menu_ok_UndoStack_resetClean (w : MainWindow) :
  menu_ok w → menu_ok (UndoStack_resetClean w).
Proof.
  intros Hok. unfold UndoStack_resetClean.
  destruct (QUndoStack.isClean _); [|menu_kept].
  apply menu_ok_undoStackCleanChanged. menu_kept.
Qed.

Lemma menu_ok_after_manager (r : ManagerResult World DBCFile) (w : MainWindow) :
  menu_ok w → menu_ok (after_manager r w).
Proof.
  intros Hok. unfold after_manager.
  destruct (mr_changed r) as [|n]; [menu_kept|].
  rewrite Nat.iter_succ. apply menu_ok_updateLoadSaveMenus.
Qed.

Lemma menu_ok_before_open (close_all : bool) (w : MainWindow) :
  menu_ok w → menu_ok (before_open close_all w).
Proof.
  intros Hok. unfold before_open, dbc_closeAll.
  destruct close_all; [|menu_kept]. apply menu_ok_after_manager. menu_kept.
Qed.

Lemma menu_ok_saveFile_files (files : list (SourceSet * DBCFile))
    (w : MainWindow) :
  menu_ok w → menu_ok (saveFile_files files w).2.
Proof.
  revert w. induction files as [|[s f] files IH]; intros w Hok; [menu_kept|].
  cbn [saveFile_files snd]. apply IH.
  destruct (negb (isEmpty (filename f))); [menu_kept|].
  destruct (negb (isEmpty _)); menu_kept.
Qed.

Lemma menu_ok_saveFile (w : MainWindow) : menu_ok w → menu_ok (saveFile w).
Proof.
  intros Hok. unfold saveFile, showMessage, emit.
  assert (menu_ok (UndoStack_setClean
            (set_dbc_files (saveFile_files (dbc_files w) w).1
                           (saveFile_files (dbc_files w) w).2))) as Hsaved.
  { apply menu_ok_UndoStack_setClean.
    pose proof (menu_ok_saveFile_files (dbc_files w) w Hok). menu_kept. }
  exact Hsaved.
Qed.

Lemma menu_ok_UndoStack_clear (w : MainWindow) :
  menu_ok w → menu_ok (UndoStack_clear w).
Proof.
  intros Hok. unfold UndoStack_clear.
  destruct (QUndoStack.command_list _); [menu_kept|].
  assert (menu_ok (undoStackIndexChanged 0
                     (set_undo_stack (QUndoStack.mk [] 0 0) w))) as Hindex
    by (apply menu_ok_undoStackIndexChanged; menu_kept).
  destruct (QUndoStack.isClean _); [exact Hindex|].
  by apply menu_ok_undoStackCleanChanged.
Qed.

Lemma menu_ok_remindSaveChanges (w : MainWindow) :
  menu_ok w → menu_ok (remindSaveChanges w).
Proof.
  intros Hok. unfold remindSaveChanges. apply menu_ok_UndoStack_clear.
  rewrite remindSaveChanges_loop_once.
  destruct (QUndoStack.isClean _); [menu_kept|].
  destruct (QMessageBox.eqb _ _); [|menu_kept].
  apply menu_ok_saveFile. menu_kept.
Qed.

Lemma menu_ok_loadFile (fn : string) (s : SourceSet) (close_all : bool)
    (w : MainWindow) :
  menu_ok w → menu_ok (loadFile fn s close_all w).
Proof.
  intros Hok. unfold loadFile. destruct (negb _); [|menu_kept].
  apply menu_ok_updateLoadSaveMenus.
Qed.

Lemma menu_ok_loadDBCFromClipboard (w : MainWindow) :
  menu_ok w → menu_ok (loadDBCFromClipboard w).
Proof.
  intros Hok. unfold loadDBCFromClipboard.
  set (w1 := remindSaveChanges w).
  assert (menu_ok (dbc_open_text SOURCE_ALL "" (clipboard_text (world w1))
                     (dbc_closeAll w1)).2) as Hopened.
  { unfold dbc_open_text. cbn [snd]. apply menu_ok_after_manager.
    pose proof (menu_ok_before_open true w1 (menu_ok_remindSaveChanges w Hok)).
    menu_kept. }
  destruct (_ && _); menu_kept.
Qed.

Lemma menu_ok_cleanupAutoSaveFile (w : MainWindow) :
  menu_ok w → menu_ok (cleanupAutoSaveFile w).
Proof.
  intros Hok. unfold cleanupAutoSaveFile.
  rewrite cleanupAutoSaveFile_files_spec. menu_kept.
Qed.

Lemma menu_ok_close (w : MainWindow) : menu_ok w → menu_ok (close w).
Proof.
  intros Hok.
  pose proof (menu_ok_remindSaveChanges _ (menu_ok_cleanupAutoSaveFile w Hok)).
  menu_kept.
Qed.

(** No slot breaks [menu_ok]. *)
Lemma menu_ok_trigger (sl : slot) (w w' : MainWindow) :
  menu_ok w → trigger sl w = Done w' → menu_ok w'.
Proof.
  intros Hok Hdone. destruct sl; cbn in Hdone.
  - (* openRoute *)
    injection Hdone as <-. unfold openRoute.
    destruct (OpenRouteDialog_exec (world w)).1.1; [menu_kept|].
    destruct (OpenRouteDialog_exec (world w)).1.2; [|menu_kept].
    apply menu_ok_close. menu_kept.
  - injection Hdone as <-. apply menu_ok_updateLoadSaveMenus.
  - (* openFile *)
    injection Hdone as <-. unfold openFile.
    pose proof (menu_ok_remindSaveChanges w Hok) as Hreminded.
    destruct (negb _); [|menu_kept]. apply menu_ok_loadFile. menu_kept.
  - (* openFileForSource *)
    unfold openFileForSource in Hdone. destruct sender as [action|].
    + destruct (_ <? _)%N; [|discriminate].
      destruct (negb _); injection Hdone as <-; [|menu_kept].
      apply menu_ok_loadFile. menu_kept.
    + by injection Hdone as <-.
  - injection Hdone as <-. by apply menu_ok_loadFile.
  - (* openOpendbcFile *)
    injection Hdone as <-. destruct sender; [|menu_kept].
    apply menu_ok_updateLoadSaveMenus.
  - (* openRecentFile *)
    injection Hdone as <-. destruct sender; [|menu_kept].
    by apply menu_ok_loadFile, menu_ok_remindSaveChanges.
  - injection Hdone as <-. by apply menu_ok_loadDBCFromClipboard.
  - (* loadDBCFromFingerprint *)
    injection Hdone as <-. unfold loadDBCFromFingerprint.
    destruct (negb (_ =? _)); [menu_kept|].
    destruct (negb (isEmpty _)); [|apply menu_ok_updateLoadSaveMenus].
    destruct (json_at _ _); apply menu_ok_updateLoadSaveMenus.
  - injection Hdone as <-. by apply menu_ok_saveFile.
  - (* saveAs *)
    unfold saveAs in Hdone. destruct (0 <? _); [|discriminate].
    destruct (dbc_files w) as [|[s f] rest]; [discriminate|].
    destruct (negb _); injection Hdone as <-; menu_kept.
  - (* saveDBCToClipboard *)
    unfold saveDBCToClipboard in Hdone. destruct (0 <? _); [|discriminate].
    destruct (dbc_files w) as [|[s f] rest]; [discriminate|].
    injection Hdone as <-. menu_kept.
  - injection Hdone as <-. apply menu_ok_updateLoadSaveMenus.
  - injection Hdone as <-. unfold updateDownloadProgress.
    destruct (_ && _); menu_kept.
  - injection Hdone as <-. apply menu_ok_updateLoadSaveMenus.
  - injection Hdone as <-. by apply menu_ok_undoStackIndexChanged.
  - injection Hdone as <-. by apply menu_ok_undoStackCleanChanged.
  - injection Hdone as <-. by apply menu_ok_close.
Qed.

Lemma menu_ok_reachable (w : MainWindow) : reachable w → menu_ok w.
Proof.
  induction 1 as [w Hempty|w w' sl _ IH _ Hdone|w u files wd _ IH].
  - unfold menu_ok. rewrite Hempty. constructor.
  - by eapply menu_ok_trigger.
  - exact IH.
Qed.

(** C10. [updateLoadSaveMenus] puts into the menu "Open DBC File for Bus"
    only actions whose data is a bus of [sources] below 64. In every state
    the window can reach, [openFileForSource] triggered by an action of
    that menu finds [source < 64]: it passes its assertion. *)
Theorem openFileForSource_assertion (w w0 : MainWindow) (action : BusAction) :
  reachable w →
  action ∈ menu_actions (open_dbc_for_source w) →
  Forall (λ created, (bus_data created < 64)%N ∧ bus_data created ∈ sources w0)
         (menu_actions (open_dbc_for_source (updateLoadSaveMenus w0)))
  ∧ (value_uint8 action < 64)%N
  ∧ ∃ w', openFileForSource (Some action) w = Done w'.
Proof.
  intros Hreach Hin. split.
  { apply Forall_forall. intros created. apply menu_updateLoadSaveMenus. }
  pose proof (menu_ok_reachable w Hreach) as Hok.
  unfold menu_ok in Hok. rewrite Forall_forall in Hok.
  specialize (Hok action Hin).
  assert (Hvalue : (value_uint8 action < 64)%N).
  { unfold value_uint8, uint8. rewrite N.mod_small by lia. exact Hok. }
  split; [exact Hvalue|].
  unfold openFileForSource.
  destruct (N.ltb_spec (value_uint8 action) 64) as [_|Hge]; [|lia].
  destruct (negb _); eauto.
Qed.

End Properties.

(** * The properties at work in the concrete world *)

Example updateRecentFiles_invariant_witness :
  (1 ≤ @MAX_RECENT_FILES Demo.collaborators)%nat
  ∧ let w' := @updateRecentFiles Demo.collaborators "a.dbc" (Demo.edited Demo.quiet) in
    let recent := recent_files (settings w') in
    head recent = Some "a.dbc"
    ∧ ("a.dbc" ∉ tail recent)
    ∧ (length recent ≤ @MAX_RECENT_FILES Demo.collaborators)%nat
    ∧ last_dir (settings w')
      = @QFileInfo_absolutePath Demo.collaborators "a.dbc" Demo.quiet
    ∧ tail recent `prefix_of` filter (λ x, x ≠ "a.dbc") ["b.dbc"; "a.dbc"; "c.dbc"]
    ∧ tail recent `sublist_of` ["b.dbc"; "a.dbc"; "c.dbc"].
Proof.
  split; [cbn; lia|].
  apply (@updateRecentFiles_invariant Demo.collaborators "a.dbc"
           (Demo.edited Demo.quiet)).
  cbn. lia.
Defined.


Example openFileForSource_assertion_witness :
  let w := @updateSources Demo.collaborators {[ 0%N; 1%N; 66%N; 130%N ]}
             (Demo.window Demo.autosaved) in
  let action := {| bus_text := "Bus 1 (current: no DBC)"; bus_data := 1 |} in
  reachable w
  ∧ action ∈ menu_actions (open_dbc_for_source w)
  ∧ Forall (λ created, (bus_data created < 64)%N
                       ∧ bus_data created ∈ sources (Demo.edited Demo.quiet))
           (menu_actions
              (open_dbc_for_source
                 (@updateLoadSaveMenus Demo.collaborators (Demo.edited Demo.quiet))))
  ∧ (value_uint8 action < 64)%N
  ∧ ∃ w', @openFileForSource Demo.collaborators (Some action) w = Done w'.
Proof.
  intros w action.
  assert (Hreach : reachable w).
  { apply (reachable_trigger (Demo.window Demo.autosaved) w
             (UpdateSources {[ 0%N; 1%N; 66%N; 130%N ]}));
      [apply reachable_constructed; reflexivity | exact I | reflexivity]. }
  assert (Hin : action ∈ menu_actions (open_dbc_for_source w)).
  { vm_compute. apply list_elem_of_further, list_elem_of_here. }
  split; [exact Hreach|]. split; [exact Hin|].
  exact (@openFileForSource_assertion Demo.collaborators w
           (Demo.edited Demo.quiet) action Hreach Hin).
Defined.

(** C1, as the specification states it, fails: in the world [Demo.autosaved]
    the route dialog fails to load, and [openRoute] goes on to save the
    settings and to close the window, which are not message boxes. *)
Example openRoute_not_message_and_abort :
  let w := Demo.window Demo.autosaved in
  (@OpenRouteDialog_exec Demo.collaborators (world w)).1 = (false, true)
  ∧ ¬ message_and_abort (log w ++ [RouteDialog])
                        (log (@openRoute Demo.collaborators w)).
Proof.
  split; [reflexivity|].
  intros (shown & Hlog & Hboxes).
  vm_compute in Hlog. injection Hlog as <-.
  apply Forall_cons in Hboxes as [Hbox _]. discriminate Hbox.
Qed.

Example load_failure_handling_witness :
  let w := Demo.window Demo.quiet in
  let wr := Demo.window Demo.autosaved in
  let s : SourceSet := {[ 0%N ]} in
  let chosen := @loadFile_choose Demo.collaborators "a.dbc" w in
  let opened :=
    @dbc_open_file Demo.collaborators s chosen.1
      (@before_open Demo.collaborators true chosen.2) in
  "a.dbc" ≠ ""
  ∧ opened.1.1 = false
  ∧ (@OpenRouteDialog_exec Demo.collaborators (world wr)).1 = (false, true)
  ∧ (@loadFile Demo.collaborators "a.dbc" s true w
     = @updateLoadSaveMenus Demo.collaborators
         (emit (WarningBox (tr "Failed to load DBC file")
                           ("Failed to parse DBC file " +:+ "a.dbc") opened.1.2)
               opened.2)
     ∧ boxes (log (@loadFile Demo.collaborators "a.dbc" s true w))
       = boxes (log chosen.2)
           ++ [WarningBox (tr "Failed to load DBC file")
                          ("Failed to parse DBC file " +:+ "a.dbc") opened.1.2]
     ∧ manager_calls (log (@loadFile Demo.collaborators "a.dbc" s true w))
       = manager_calls (log w) ++ [DbcCloseAll] ++ [DbcOpenFile s chosen.1]
     ∧ settings (@loadFile Demo.collaborators "a.dbc" s true w) = settings w)
  ∧ (@openRoute Demo.collaborators wr
     = @close Demo.collaborators
         (set_world (@OpenRouteDialog_exec Demo.collaborators (world wr)).2
                    (emit RouteDialog wr))
     ∧ boxes (log (@openRoute Demo.collaborators wr))
       = boxes (log wr)
           ++ (if QUndoStack.isClean (undo_stack wr) then []
               else [QuestionBox (tr "Unsaved Changes")
                       (tr "You have unsaved changes. Press ok to save them, cancel to discard.")])
     ∧ last (log (@openRoute Demo.collaborators wr)) = Some WindowClose).
Proof.
  intros w wr s chosen opened.
  assert (Hfn : "a.dbc" ≠ "") by discriminate.
  assert (Hfail : opened.1.1 = false) by reflexivity.
  assert (Hroute : (@OpenRouteDialog_exec Demo.collaborators (world wr)).1
                   = (false, true)) by reflexivity.
  split; [exact Hfn|]. split; [exact Hfail|]. split; [exact Hroute|].
  exact (@load_failure_handling Demo.collaborators "a.dbc" s true w wr
           Hfn Hfail Hroute).
Defined.

(** * Invariants of the undo stack over the slots *)

Section StackInvariant.

Context `{Collaborators}.

(** A property [J] of the undo stack and the modified flag that the three
    operations of the stack keep. Every slot keeps it, as the slots reach
    the stack and the flag through these operations only. *)
Variable J : QUndoStack.t → bool → Prop.

Let holds (w : MainWindow) : Prop := J (undo_stack w) (windowModified w).

Hypothesis J_setClean : ∀ w, holds w → holds (UndoStack_setClean w).
Hypothesis J_resetClean : ∀ w, holds w → holds (UndoStack_resetClean w).
Hypothesis J_clear : ∀ w, holds w → holds (UndoStack_clear w).

(** A step that leaves the stack and the flag as they are keeps [J]. *)
Ltac held := match goal with Hj : holds _ |- holds _ => exact Hj end.

Lemma holds_autoSave (w : MainWindow) : holds w → holds (autoSave w).
Proof.
  intros Hj. unfold autoSave. destruct (negb _); [|held].
  rewrite autoSave_files_spec. held.
Qed.

Lemma holds_undoStackIndexChanged (index : Z) (w : MainWindow) :
  holds w → holds (undoStackIndexChanged index w).
Proof.
  intros Hj. unfold undoStackIndexChanged. apply holds_autoSave.
  destruct (0 <=? _); held.
Qed.

Lemma holds_DBCFileChanged (w : MainWindow) : holds w → holds (DBCFileChanged w).
Proof. intros Hj. apply J_clear in Hj. unfold DBCFileChanged. held. Qed.

Lemma holds_after_manager (r : ManagerResult World DBCFile) (w : MainWindow) :
  holds w → holds (after_manager r w).
Proof.
  intros Hj. unfold after_manager.
  induction (mr_changed r) as [|n IH]; [held|].
  rewrite Nat.iter_succ. by apply holds_DBCFileChanged.
Qed.

Lemma holds_before_open (close_all : bool) (w : MainWindow) :
  holds w → holds (before_open close_all w).
Proof.
  intros Hj. unfold before_open, dbc_closeAll.
  destruct close_all; [|held]. apply holds_after_manager. held.
Qed.

Lemma holds_dbc_open_file (s : SourceSet) (fn : string) (w : MainWindow) :
  holds w → holds (dbc_open_file s fn w).2.
Proof.
  intros Hj. unfold dbc_open_file. cbn [snd]. apply holds_after_manager. held.
Qed.

Lemma holds_dbc_open_text (s : SourceSet) (dbc_name content : string)
    (w : MainWindow) :
  holds w → holds (dbc_open_text s dbc_name content w).2.
Proof.
  intros Hj. unfold dbc_open_text. cbn [snd]. apply holds_after_manager. held.
Qed.

Lemma holds_saveFile_files (files : list (SourceSet * DBCFile)) (w : MainWindow) :
  holds w → holds (saveFile_files files w).2.
Proof.
  revert w. induction files as [|[s f] files IH]; intros w Hj; [held|].
  cbn [saveFile_files snd]. apply IH.
  destruct (negb (isEmpty (filename f))); [held|].
  destruct (negb (isEmpty _)); held.
Qed.

Lemma holds_saveFile (w : MainWindow) : holds w → holds (saveFile w).
Proof.
  intros Hj. unfold saveFile, showMessage, emit.
  assert (holds (UndoStack_setClean
            (set_dbc_files (saveFile_files (dbc_files w) w).1
                           (saveFile_files (dbc_files w) w).2))) as Hsaved.
  { apply J_setClean.
    pose proof (holds_saveFile_files (dbc_files w) w Hj). held. }
  exact Hsaved.
Qed.

Lemma holds_remindSaveChanges (w : MainWindow) :
  holds w → holds (remindSaveChanges w).
Proof.
  intros Hj. unfold remindSaveChanges. apply J_clear.
  rewrite remindSaveChanges_loop_once.
  destruct (QUndoStack.isClean _); [held|].
  destruct (QMessageBox.eqb _ _); [|held].
  apply holds_saveFile. held.
Qed.

Lemma holds_loadFile_choose (fn : string) (w : MainWindow) :
  holds w → holds (loadFile_choose fn w).2.
Proof.
  intros Hj. unfold loadFile_choose. cbn.
  destruct (QFile_exists _ _); [|held]. cbn.
  destruct (QMessageBox.eqb _ _); cbn; [|held].
  apply J_resetClean. held.
Qed.

Lemma holds_loadFile_open (fn dbc_fn : string) (s : SourceSet)
    (close_all : bool) (w : MainWindow) :
  holds w → holds (loadFile_open fn dbc_fn s close_all w).
Proof.
  intros Hj. unfold loadFile_open. fold (before_open close_all w).
  pose proof (holds_dbc_open_file s dbc_fn _ (holds_before_open close_all w Hj))
    as Hopened.
  destruct (dbc_open_file s dbc_fn (before_open close_all w)).1.1; held.
Qed.

Lemma holds_loadFile (fn : string) (s : SourceSet) (close_all : bool)
    (w : MainWindow) :
  holds w → holds (loadFile fn s close_all w).
Proof.
  intros Hj. unfold loadFile. destruct (negb _); [|held].
  by apply holds_loadFile_open, holds_loadFile_choose.
Qed.

Lemma holds_newFile (w : MainWindow) : holds w → holds (newFile w).
Proof.
  intros Hj. unfold newFile.
  pose proof (holds_dbc_open_text SOURCE_ALL "" "" _
                (holds_before_open true _ (holds_remindSaveChanges w Hj))).
  held.
Qed.

Lemma holds_loadDBCFromOpendbc (dbc_name : string) (w : MainWindow) :
  holds w → holds (loadDBCFromOpendbc dbc_name w).
Proof.
  intros Hj. unfold loadDBCFromOpendbc.
  pose proof (holds_dbc_open_file SOURCE_ALL
                (QString.arg2 "%1/%2.dbc" OPENDBC_FILE_PATH dbc_name) _
                (holds_before_open true _ (holds_remindSaveChanges w Hj))).
  held.
Qed.

Lemma holds_loadDBCFromClipboard (w : MainWindow) :
  holds w → holds (loadDBCFromClipboard w).
Proof.
  intros Hj. unfold loadDBCFromClipboard.
  set (w1 := remindSaveChanges w).
  pose proof (holds_dbc_open_text SOURCE_ALL "" (clipboard_text (world w1)) _
                (holds_before_open true _ (holds_remindSaveChanges w Hj)))
    as Hopened.
  fold w1 in Hopened. unfold before_open in Hopened.
  destruct (_ && _); held.
Qed.

Lemma holds_loadDBCFromFingerprint (w : MainWindow) :
  holds w → holds (loadDBCFromFingerprint w).
Proof.
  intros Hj. unfold loadDBCFromFingerprint.
  destruct (negb (_ =? _)); [held|].
  pose proof (holds_remindSaveChanges w Hj) as Hreminded.
  set (w2 := if can_liveStreaming _ then _ else _).
  assert (holds w2) as Hw2 by (subst w2; destruct (can_liveStreaming _); held).
  destruct (negb (isEmpty _)); [|by apply holds_newFile].
  destruct (json_at _ _); [by apply holds_loadDBCFromOpendbc|by apply holds_newFile].
Qed.

Lemma holds_cleanupAutoSaveFile (w : MainWindow) :
  holds w → holds (cleanupAutoSaveFile w).
Proof.
  intros Hj. unfold cleanupAutoSaveFile.
  rewrite cleanupAutoSaveFile_files_spec. held.
Qed.

Lemma holds_close (w : MainWindow) : holds w → holds (close w).
Proof.
  intros Hj.
  pose proof (holds_remindSaveChanges _ (holds_cleanupAutoSaveFile w Hj)).
  held.
Qed.

(** Every slot keeps [J]; the slot [undoStackCleanChanged] is left to the
    stack, which calls it from its three operations. *)
Lemma holds_trigger (sl : slot) (w w' : MainWindow) :
  (∀ clean, sl ≠ UndoStackCleanChanged clean) →
  holds w → trigger sl w = Done w' → holds w'.
Proof.
  intros Hslot Hj Hdone. destruct sl; cbn in Hdone.
  - injection Hdone as <-. unfold openRoute.
    destruct (OpenRouteDialog_exec (world w)).1.1; [held|].
    destruct (OpenRouteDialog_exec (world w)).1.2; [|held].
    apply holds_close. held.
  - injection Hdone as <-. by apply holds_newFile.
  - injection Hdone as <-. unfold openFile.
    pose proof (holds_remindSaveChanges w Hj) as Hreminded.
    destruct (negb _); [|held]. apply holds_loadFile. held.
  - unfold openFileForSource in Hdone. destruct sender as [action|].
    + destruct (_ <? _)%N; [|discriminate].
      destruct (negb _); injection Hdone as <-; [|held].
      apply holds_loadFile. held.
    + by injection Hdone as <-.
  - injection Hdone as <-. by apply holds_loadFile.
  - injection Hdone as <-. destruct sender; [|held].
    by apply holds_loadDBCFromOpendbc, holds_remindSaveChanges.
  - injection Hdone as <-. destruct sender; [|held].
    by apply holds_loadFile, holds_remindSaveChanges.
  - injection Hdone as <-. by apply holds_loadDBCFromClipboard.
  - injection Hdone as <-. by apply holds_loadDBCFromFingerprint.
  - injection Hdone as <-. by apply holds_saveFile.
  - unfold saveAs in Hdone. destruct (0 <? _); [|discriminate].
    destruct (dbc_files w) as [|[s f] rest]; [discriminate|].
    destruct (negb _); injection Hdone as <-; held.
  - unfold saveDBCToClipboard in Hdone. destruct (0 <? _); [|discriminate].
    destruct (dbc_files w) as [|[s f] rest]; [discriminate|].
    injection Hdone as <-. held.
  - injection Hdone as <-. held.
  - injection Hdone as <-. unfold updateDownloadProgress.
    destruct (_ && _); held.
  - injection Hdone as <-. by apply holds_DBCFileChanged.
  - injection Hdone as <-. by apply holds_undoStackIndexChanged.
  - by destruct (Hslot clean).
  - injection Hdone as <-. by apply holds_close.
Qed.

End StackInvariant.

(** * Further properties of the slots *)

Section Further.

Context `{Collaborators}.

(** Restates the left side of an equation by a convertible term. *)
Ltac lhs_is t := match goal with |- _ = ?r => change (t = r) end.

(** ** The undo stack after each operation *)

Lemma undo_stack_UndoStack_setClean (w : MainWindow) :
  undo_stack (UndoStack_setClean w)
  = QUndoStack.mk (QUndoStack.command_list (undo_stack w))
                  (QUndoStack.index (undo_stack w))
                  (QUndoStack.index (undo_stack w)).
Proof. unfold UndoStack_setClean. by destruct (QUndoStack.isClean _). Qed.

Lemma undo_stack_UndoStack_resetClean (w : MainWindow) :
  undo_stack (UndoStack_resetClean w)
  = QUndoStack.mk (QUndoStack.command_list (undo_stack w))
                  (QUndoStack.index (undo_stack w)) (-1).
Proof. unfold UndoStack_resetClean. by destruct (QUndoStack.isClean _). Qed.

Lemma undo_stack_UndoStack_clear (w : MainWindow) :
  undo_stack (UndoStack_clear w)
  = match QUndoStack.command_list (undo_stack w) with
    | [] => undo_stack w
    | _ :: _ => QUndoStack.mk [] 0 0
    end.
Proof.
  unfold UndoStack_clear.
  destruct (QUndoStack.command_list (undo_stack w)); [reflexivity|].
  destruct (QUndoStack.isClean _);
    by rewrite ?undo_stack_undoStackCleanChanged, undo_stack_undoStackIndexChanged.
Qed.

Lemma windowModified_autoSave (w : MainWindow) :
  windowModified (autoSave w) = windowModified w.
Proof.
  unfold autoSave. destruct (negb _); [|reflexivity].
  by rewrite autoSave_files_spec.
Qed.

Lemma windowModified_undoStackIndexChanged (index : Z) (w : MainWindow) :
  windowModified (undoStackIndexChanged index w) = windowModified w.
Proof.
  unfold undoStackIndexChanged. rewrite windowModified_autoSave.
  by destruct (0 <=? _).
Qed.

Lemma undo_stack_saveFile (w : MainWindow) :
  undo_stack (saveFile w)
  = QUndoStack.mk (QUndoStack.command_list (undo_stack w))
                  (QUndoStack.index (undo_stack w))
                  (QUndoStack.index (undo_stack w)).
Proof.
  unfold saveFile, showMessage, emit.
  lhs_is (undo_stack (UndoStack_setClean
                (set_dbc_files (saveFile_files (dbc_files w) w).1
                               (saveFile_files (dbc_files w) w).2))).
  rewrite undo_stack_UndoStack_setClean.
  change (undo_stack (set_dbc_files _ ?x)) with (undo_stack x).
  by rewrite (holds_saveFile_files (λ u _, u = undo_stack w) (dbc_files w) w).
Qed.

Lemma isClean_UndoStack_clear (w : MainWindow) :
  QUndoStack.isClean (undo_stack (UndoStack_clear w))
  = QUndoStack.isClean (undo_stack w)
    || negb (bool_decide (QUndoStack.command_list (undo_stack w) = [])).
Proof.
  rewrite undo_stack_UndoStack_clear.
  destruct (QUndoStack.command_list (undo_stack w)); cbn.
  - by rewrite orb_false_r.
  - by rewrite orb_true_r.
Qed.

(** X1. [remindSaveChanges] leaves the undo stack clean unless the stack
    was not clean, held no command and the user did not choose Ok; in that
    one case a second [remindSaveChanges] asks the same question again. *)
Theorem remindSaveChanges_leaves_clean (w : MainWindow) :
  let settled :=
    QUndoStack.isClean (undo_stack w)
    || QMessageBox.eqb (unsaved_changes_prompt w).1 QMessageBox.Ok
    || negb (bool_decide (QUndoStack.command_list (undo_stack w) = [])) in
  QUndoStack.isClean (undo_stack (remindSaveChanges w)) = settled
  ∧ boxes (log (remindSaveChanges (remindSaveChanges w)))
    = boxes (log (remindSaveChanges w))
        ++ (if settled then []
            else [QuestionBox (tr "Unsaved Changes")
                    (tr "You have unsaved changes. Press ok to save them, cancel to discard.")]).
Proof.
  intros settled.
  assert (Hclean : QUndoStack.isClean (undo_stack (remindSaveChanges w)) = settled).
  { subst settled. unfold remindSaveChanges.
    rewrite isClean_UndoStack_clear, remindSaveChanges_loop_once.
    destruct (QUndoStack.isClean (undo_stack w)) eqn:Hw; [by rewrite Hw|].
    destruct (QMessageBox.eqb _ _); cbn [orb].
    - unfold save. by rewrite saveFile_isClean.
    - change (undo_stack (unsaved_changes_prompt w).2) with (undo_stack w).
      by rewrite Hw. }
  split; [exact Hclean|]. by rewrite boxes_remindSaveChanges, Hclean.
Qed.

(** ** What every slot keeps of the undo stack *)

(** X2. No slot adds a command to the undo stack: after a slot the stack
    holds the commands it held, or none. *)
Theorem slots_never_push (sl : slot) (w w' : MainWindow) :
  trigger sl w = Done w' →
  QUndoStack.command_list (undo_stack w') = QUndoStack.command_list (undo_stack w)
  ∨ QUndoStack.command_list (undo_stack w') = [].
Proof.
  intros Hdone.
  assert (Hcase : (∃ clean, sl = UndoStackCleanChanged clean)
                  ∨ (∀ clean, sl ≠ UndoStackCleanChanged clean))
    by (destruct sl; eauto; right; discriminate).
  destruct Hcase as [[c ->]|Hsl].
  { cbn in Hdone. injection Hdone as <-. left.
    by rewrite undo_stack_undoStackCleanChanged. }
  apply (holds_trigger
           (λ u _, QUndoStack.command_list u = QUndoStack.command_list (undo_stack w)
                   ∨ QUndoStack.command_list u = []) ) with (sl := sl) (w := w);
    try done.
  - intros w0 Hj. by rewrite undo_stack_UndoStack_setClean.
  - intros w0 Hj. by rewrite undo_stack_UndoStack_resetClean.
  - intros w0 Hj. rewrite undo_stack_UndoStack_clear.
    destruct (QUndoStack.command_list (undo_stack w0)) eqn:Hlist;
      [by rewrite Hlist | by right].
  - by left.
Qed.

Lemma wf_tracks_setClean (w : MainWindow) :
  QUndoStack.wf (undo_stack w) ∧ modified_tracks w →
  QUndoStack.wf (undo_stack (UndoStack_setClean w))
  ∧ modified_tracks (UndoStack_setClean w).
Proof.
  intros [Hwf Htracks]. split.
  { by rewrite undo_stack_UndoStack_setClean. }
  unfold modified_tracks in *. rewrite undo_stack_UndoStack_setClean.
  unfold UndoStack_setClean, QUndoStack.isClean at 2.
  cbn [QUndoStack.clean_index QUndoStack.index]. rewrite Z.eqb_refl.
  destruct (QUndoStack.isClean (undo_stack w)); [exact Htracks|reflexivity].
Qed.

Lemma wf_tracks_resetClean (w : MainWindow) :
  QUndoStack.wf (undo_stack w) ∧ modified_tracks w →
  QUndoStack.wf (undo_stack (UndoStack_resetClean w))
  ∧ modified_tracks (UndoStack_resetClean w).
Proof.
  intros [Hwf Htracks]. split.
  { by rewrite undo_stack_UndoStack_resetClean. }
  unfold modified_tracks in *. rewrite undo_stack_UndoStack_resetClean.
  unfold UndoStack_resetClean, QUndoStack.isClean at 2.
  cbn [QUndoStack.clean_index QUndoStack.index].
  replace (-1 =? QUndoStack.index (undo_stack w)) with false
    by (symmetry; apply Z.eqb_neq; destruct Hwf; lia).
  destruct (QUndoStack.isClean (undo_stack w)); [reflexivity|exact Htracks].
Qed.

Lemma wf_tracks_clear (w : MainWindow) :
  QUndoStack.wf (undo_stack w) ∧ modified_tracks w →
  QUndoStack.wf (undo_stack (UndoStack_clear w))
  ∧ modified_tracks (UndoStack_clear w).
Proof.
  intros [Hwf Htracks]. split.
  { rewrite undo_stack_UndoStack_clear.
    destruct (QUndoStack.command_list (undo_stack w)); [exact Hwf|].
    unfold QUndoStack.wf, QUndoStack.count. cbn. lia. }
  unfold modified_tracks in *. rewrite undo_stack_UndoStack_clear.
  unfold UndoStack_clear.
  destruct (QUndoStack.command_list (undo_stack w)); [exact Htracks|].
  destruct (QUndoStack.isClean (undo_stack w)).
  - by rewrite windowModified_undoStackIndexChanged.
  - reflexivity.
Qed.

(** X3. Every slot keeps the undo stack well formed (its index between 0
    and the number of commands) and the window shown as modified exactly
    when the stack is not clean. [undoStackCleanChanged] is the slot of the
    stack's own signal and is run by its operations. *)
Theorem slots_keep_modified_flag (sl : slot) (w w' : MainWindow) :
  (∀ clean, sl ≠ UndoStackCleanChanged clean) →
  QUndoStack.wf (undo_stack w) →
  modified_tracks w →
  trigger sl w = Done w' →
  QUndoStack.wf (undo_stack w') ∧ modified_tracks w'.
Proof.
  intros Hsl Hwf Htracks Hdone.
  apply (holds_trigger
           (λ u m, QUndoStack.wf u ∧ m = negb (QUndoStack.isClean u))
           wf_tracks_setClean wf_tracks_resetClean wf_tracks_clear sl w w');
    done.
Qed.

(** ** Slots that forget the commands *)

Lemma no_commands_setClean (w : MainWindow) :
  no_commands (undo_stack w) (windowModified w) →
  no_commands (undo_stack (UndoStack_setClean w))
              (windowModified (UndoStack_setClean w)).
Proof. unfold no_commands. by rewrite undo_stack_UndoStack_setClean. Qed.

Lemma no_commands_resetClean (w : MainWindow) :
  no_commands (undo_stack w) (windowModified w) →
  no_commands (undo_stack (UndoStack_resetClean w))
              (windowModified (UndoStack_resetClean w)).
Proof. unfold no_commands. by rewrite undo_stack_UndoStack_resetClean. Qed.

Lemma no_commands_clear (w : MainWindow) :
  no_commands (undo_stack w) (windowModified w) →
  no_commands (undo_stack (UndoStack_clear w))
              (windowModified (UndoStack_clear w)).
Proof. intros _. apply UndoStack_clear_empty. Qed.

Lemma no_commands_remindSaveChanges (w : MainWindow) :
  no_commands (undo_stack (remindSaveChanges w))
              (windowModified (remindSaveChanges w)).
Proof. apply UndoStack_clear_empty. Qed.

Lemma no_commands_newFile (w : MainWindow) :
  QUndoStack.command_list (undo_stack (newFile w)) = [].
Proof.
  unfold newFile.
  exact (holds_dbc_open_text no_commands no_commands_clear SOURCE_ALL "" "" _
           (holds_before_open no_commands no_commands_clear true _
              (no_commands_remindSaveChanges w))).
Qed.

Lemma no_commands_loadDBCFromOpendbc (dbc_name : string) (w : MainWindow) :
  QUndoStack.command_list (undo_stack (loadDBCFromOpendbc dbc_name w)) = [].
Proof.
  unfold loadDBCFromOpendbc.
  exact (holds_dbc_open_file no_commands no_commands_clear SOURCE_ALL _ _
           (holds_before_open no_commands no_commands_clear true _
              (no_commands_remindSaveChanges w))).
Qed.

Lemma no_commands_loadFile (fn : string) (s : SourceSet) (close_all : bool)
    (w : MainWindow) :
  QUndoStack.command_list (undo_stack w) = [] →
  QUndoStack.command_list (undo_stack (loadFile fn s close_all w)) = [].
Proof.
  apply (holds_loadFile no_commands no_commands_resetClean no_commands_clear).
Qed.

(** X4. The slots that start with [remindSaveChanges] (new file, open file,
    open recent, load from opendbc, load from clipboard, close, and load by
    fingerprint when no message is loaded) leave no command on the undo
    stack, whatever the user answers and also when the file dialog is
    cancelled or the load fails. *)
Theorem reminding_slots_forget_commands (sl : slot) (w w' : MainWindow) :
  reminds_first sl w = true →
  trigger sl w = Done w' →
  QUndoStack.command_list (undo_stack w') = [].
Proof.
  intros Hfirst Hdone. destruct sl; try discriminate Hfirst;
    cbn in Hdone; injection Hdone as <-.
  - apply no_commands_newFile.
  - unfold openFile.
    destruct (negb _); [|apply (no_commands_remindSaveChanges w)].
    apply no_commands_loadFile, (no_commands_remindSaveChanges w).
  - destruct sender; [|discriminate Hfirst]. apply no_commands_loadDBCFromOpendbc.
  - destruct sender; [|discriminate Hfirst].
    apply no_commands_loadFile, (no_commands_remindSaveChanges w).
  - unfold loadDBCFromClipboard.
    pose proof (holds_dbc_open_text no_commands no_commands_clear SOURCE_ALL ""
                  (clipboard_text (world (remindSaveChanges w))) _
                  (holds_before_open no_commands no_commands_clear true _
                     (no_commands_remindSaveChanges w))) as Hopened.
    unfold before_open in Hopened. destruct (_ && _); exact Hopened.
  - cbn in Hfirst. unfold loadDBCFromFingerprint. rewrite Hfirst. cbn [negb].
    destruct (negb (isEmpty _)); [|apply no_commands_newFile].
    destruct (json_at _ _);
      [apply no_commands_loadDBCFromOpendbc | apply no_commands_newFile].
  - apply (no_commands_remindSaveChanges (cleanupAutoSaveFile w)).
Qed.

(** ** The menu of buses, in full *)

Lemma StronglySorted_filter_le (P : N → Prop) `{!∀ x, Decision (P x)}
    (l : list N) :
  StronglySorted N.le l → StronglySorted N.le (filter P l).
Proof.
  induction 1 as [|x l _ IH Hall]; [constructor|].
  rewrite filter_cons. destruct (decide (P x)); [|exact IH].
  constructor; [exact IH|].
  rewrite Forall_forall in Hall. apply Forall_forall.
  intros y [_ Hy]%list_elem_of_filter. by apply Hall.
Qed.

Lemma strictly_sorted (l : list N) :
  StronglySorted N.le l → NoDup l → StronglySorted N.lt l.
Proof.
  induction 1 as [|x l _ IH Hall]; intros Hnodup; [constructor|].
  apply NoDup_cons in Hnodup as [Hx Hnodup].
  constructor; [by apply IH|].
  rewrite Forall_forall in Hall. apply Forall_forall. intros y Hy.
  specialize (Hall y Hy). assert (x ≠ y) by (by intros ->). lia.
Qed.

Lemma bus_data_add_bus_actions (sources_sorted : list N) (w : MainWindow) :
  bus_data <$> add_bus_actions sources_sorted w []
  = filter (λ source, (source < 64)%N) sources_sorted.
Proof.
  rewrite add_bus_actions_spec. cbn. rewrite <- list_fmap_compose.
  induction (filter _ sources_sorted) as [|x l IH]; [reflexivity|].
  cbn. by rewrite IH.
Qed.

(** X5. After [updateSources s] the menu "Open DBC File for Bus" holds one
    action for every bus of [s] below 64 and no other, in strictly
    ascending order of the bus; it is enabled exactly when [s] is not
    empty (also when it then holds no action, all buses being 64 or
    above). *)
Theorem bus_menu_lists_buses (s : SourceSet) (w : MainWindow) :
  let menu := open_dbc_for_source (updateSources s w) in
  let buses := bus_data <$> menu_actions menu in
  StronglySorted N.lt buses
  ∧ (∀ source, source ∈ buses ↔ source ∈ s ∧ (source < 64)%N)
  ∧ menu_enabled menu = bool_decide (s ≠ ∅).
Proof.
  intros menu buses.
  assert (Hbuses : buses = filter (λ source, (source < 64)%N)
                             (merge_sort N.le (elements s)))
    by apply bus_data_add_bus_actions.
  rewrite Hbuses. split; [|split; [intros source; split|]].
  - apply strictly_sorted.
    + apply StronglySorted_filter_le, StronglySorted_merge_sort; apply _.
    + apply NoDup_filter. rewrite merge_sort_Permutation. apply NoDup_elements.
  - intros [Hlt Hin]%list_elem_of_filter.
    rewrite merge_sort_Permutation in Hin. by apply elem_of_elements in Hin.
  - intros [Hin Hlt]. apply list_elem_of_filter. split; [exact Hlt|].
    rewrite merge_sort_Permutation. by apply elem_of_elements.
  - subst menu. cbn. apply bool_decide_ext. split.
    + intros Hpos ->. rewrite size_empty in Hpos. lia.
    + intros Hne. assert (size s ≠ 0%nat) as Hsize; [|lia].
      intros Hzero. by apply Hne, leibniz_equiv, size_empty_iff.
Qed.

(** ** Save As and Copy *)

(** X6. [updateLoadSaveMenus] enables "Save DBC As" and "Copy DBC To
    Clipboard" exactly when one DBC file is open, and in the state it
    leaves, an enabled action passes the assertion [dbcCount() > 0] of its
    slot. *)
Theorem enabled_save_as_passes (w : MainWindow) :
  let w' := updateLoadSaveMenus w in
  save_dbc_as w' = bool_decide (dbcCount (dbc_files w) = 1)
  ∧ copy_dbc_to_clipboard w' = bool_decide (dbcCount (dbc_files w) = 1)
  ∧ (if save_dbc_as w' then
       saveAs w' ≠ AssertionFailed "dbc()->dbcCount() > 0"
       ∧ saveDBCToClipboard w' ≠ AssertionFailed "dbc()->dbcCount() > 0"
     else True).
Proof.
  intros w'.
  assert (Hflag : ∀ n, (n =? 1) = bool_decide (n = 1)).
  { intros n. destruct (Z.eqb_spec n 1);
      [by rewrite bool_decide_true | by rewrite bool_decide_false]. }
  repeat split; try apply Hflag.
  change (save_dbc_as w') with (dbcCount (dbc_files w) =? 1).
  destruct (Z.eqb_spec (dbcCount (dbc_files w)) 1) as [Hone|]; [|done].
  unfold saveAs, saveDBCToClipboard.
  change (dbc_files w') with (dbc_files w). rewrite Hone. cbn [Z.ltb Z.compare].
  split.
  - destruct (dbc_files w) as [|[s f] rest]; [discriminate|].
    by destruct (negb _).
  - by destruct (dbc_files w) as [|[s f] rest].
Qed.

(** ** Repeated signals of the manager *)

Lemma bus_action_dbc_files (source : N) (w w' : MainWindow) :
  dbc_files w' = dbc_files w → bus_action source w' = bus_action source w.
Proof. intros Hfiles. unfold bus_action. by rewrite Hfiles. Qed.

Lemma add_bus_actions_dbc_files (sources_sorted : list N) (w w' : MainWindow)
    (menu : list BusAction) :
  dbc_files w' = dbc_files w →
  add_bus_actions sources_sorted w' menu = add_bus_actions sources_sorted w menu.
Proof.
  intros Hfiles. revert menu.
  induction sources_sorted as [|source rest IH]; intros menu; [reflexivity|].
  cbn. rewrite IH, (bus_action_dbc_files source w w' Hfiles). by rewrite IH.
Qed.

Lemma updateLoadSaveMenus_twice (w : MainWindow) :
  updateLoadSaveMenus (updateLoadSaveMenus w) = updateLoadSaveMenus w.
Proof.
  unfold updateLoadSaveMenus at 1.
  set (w1 := updateLoadSaveMenus w).
  change (dbc_files w1) with (dbc_files w).
  change (sources (set_copy_dbc_to_clipboard _ (set_save_dbc_as _ (set_save_dbc _ w1))))
    with (sources w).
  rewrite (add_bus_actions_dbc_files _ w) by reflexivity.
  subst w1. unfold updateLoadSaveMenus.
  rewrite (add_bus_actions_dbc_files _ w
             (set_copy_dbc_to_clipboard _ (set_save_dbc_as _ (set_save_dbc _ w))))
    by reflexivity.
  reflexivity.
Qed.

(** X7. [DBCFileChanged] absorbs its repetitions: however often the DBC
    manager emits the signal during one call, the window ends as after a
    single emission. *)
Theorem DBCFileChanged_absorbs (n : nat) (w : MainWindow) :
  Nat.iter (S n) DBCFileChanged w = DBCFileChanged w.
Proof.
  induction n as [|n IH]; [reflexivity|].
  rewrite Nat.iter_succ, IH. unfold DBCFileChanged at 1.
  rewrite UndoStack_clear_no_commands.
  - unfold DBCFileChanged. apply updateLoadSaveMenus_twice.
  - change (QUndoStack.command_list (undo_stack (UndoStack_clear w)) = []).
    apply UndoStack_clear_empty.
Qed.

(** ** The actions of the recent files *)

Lemma foldl_ext {A B} (f g : A → B → A) (a : A) (l : list B) :
  (∀ x y, f x y = g x y) → foldl f a l = foldl g a l.
Proof.
  intros Hfg. revert a. induction l as [|y l IH]; intros a; [reflexivity|].
  cbn. by rewrite Hfg, IH.
Qed.

(** A loop that updates the places [a], ..., [a + n - 1] of a list, each
    once, updates exactly the places of that range. *)
Lemma lookup_foldl_alter {A} (h : nat → A → A) (l : list A) (a n j : nat) :
  foldl (λ acts i, alter (h i) i acts) l (seq a n) !! j
  = (if bool_decide (a ≤ j < a + n)%nat then h j else id) <$> l !! j.
Proof.
  revert l a. induction n as [|n IH]; intros l a.
  - cbn. rewrite bool_decide_false by lia. by destruct (l !! j).
  - cbn [seq foldl]. rewrite IH, list_lookup_alter.
    destruct (decide (a = j)) as [->|Hne].
    + rewrite bool_decide_false by lia. rewrite bool_decide_true by lia.
      by destruct (l !! j).
    + apply option_fmap_ext. intros x.
      destruct (decide (S a ≤ j < S a + n)%nat).
      * by rewrite !bool_decide_true by lia.
      * by rewrite !bool_decide_false by lia.
Qed.

Lemma recent_files_acts_lookup (w : MainWindow) (i : nat) :
  recent_files_acts (updateRecentFileActions w) !! i
  = (λ a, if (i <? MAX_RECENT_FILES)%nat then
            match recent_files (settings w) !! i with
            | Some file => recent_action i file
            | None => hide a
            end
          else a) <$> recent_files_acts w !! i.
Proof.
  unfold updateRecentFileActions. cbn [recent_files_acts set_open_recent_menu
    set_recent_files_acts].
  set (files := recent_files (settings w)).
  set (num := Nat.min (length files) MAX_RECENT_FILES).
  rewrite lookup_foldl_alter.
  rewrite (foldl_ext _ (λ acts j, alter (λ _, recent_action j (nth j files "")) j acts))
    by (intros; apply list_insert_alter).
  rewrite lookup_foldl_alter, <- option_fmap_compose.
  apply option_fmap_ext. intros a. unfold compose.
  destruct (Nat.ltb_spec i MAX_RECENT_FILES) as [Hlt|Hge].
  - destruct (files !! i) as [file|] eqn:Hfile.
    + apply lookup_lt_Some in Hfile as Hlen.
      rewrite bool_decide_false by lia. rewrite bool_decide_true by lia.
      cbn. by rewrite (nth_lookup_Some _ _ _ _ Hfile).
    + apply lookup_ge_None in Hfile.
      rewrite bool_decide_true by lia. by rewrite bool_decide_false by lia.
  - rewrite bool_decide_false by lia. by rewrite bool_decide_false by lia.
Qed.

(** X8. After [updateRecentFileActions] the actions of "Open Recent" mirror
    the list of recent files: of the first [MAX_RECENT_FILES] actions, the
    one at place [i] is visible and carries the file at place [i] where the
    list has one, and is hidden, with its text and data kept, where the
    list has none; further actions are left alone. The menu is enabled
    exactly when there is a file to show. *)
Theorem recent_actions_mirror (w : MainWindow) :
  let w' := updateRecentFileActions w in
  recent_files_acts w'
  = imap (λ i a, if (i <? MAX_RECENT_FILES)%nat then
                   match recent_files (settings w) !! i with
                   | Some file => recent_action i file
                   | None => hide a
                   end
                 else a) (recent_files_acts w)
  ∧ open_recent_menu w'
    = bool_decide (recent_files (settings w) ≠ [] ∧ MAX_RECENT_FILES ≠ 0%nat).
Proof.
  intros w'. split.
  - subst w'. apply list_eq. intros i.
    by rewrite list_lookup_imap, recent_files_acts_lookup.
  - subst w'. unfold updateRecentFileActions.
    cbn [open_recent_menu set_open_recent_menu]. apply bool_decide_ext.
    destruct (recent_files (settings w)) as [|file files]; cbn [length].
    + split; [lia|]. by intros [].
    + split; [intros Hpos; split; [done|lia] | lia].
Qed.

Lemma arg_first_recent (file_name : string) :
  QString.arg (QString.arg (tr "&%1 %2") (pretty (0 + 1)%nat)) file_name
  = "&1 " +:+ file_name.
Proof.
  change ("&1 " +:+ (file_name +:+ "") = "&1 " +:+ file_name).
  by rewrite append_empty_r.
Qed.

(** X9. After [updateRecentFiles fn], with at least one action in the menu
    and a positive [MAX_RECENT_FILES], the first action of "Open Recent" is
    visible, reads "&1" and the file name of [fn], and carries [fn]; and
    [openRecentFile], triggered by it, asks for unsaved changes and loads
    [fn] with the default arguments. *)
Theorem first_recent_reopens (fn : string) (w w2 : MainWindow) :
  (1 ≤ MAX_RECENT_FILES)%nat →
  recent_files_acts w ≠ [] →
  let first :=
    {| recent_text := "&1 " +:+ QFileInfo_fileName fn;
       recent_data := fn;
       recent_visible := true |} in
  recent_files_acts (updateRecentFiles fn w) !! 0%nat = Some first
  ∧ openRecentFile (Some first) w2
    = loadFile fn loadFile_default_s loadFile_default_close_all
               (remindSaveChanges w2).
Proof.
  intros Hmax Hacts first. split; [|reflexivity].
  unfold updateRecentFiles. rewrite recent_files_acts_lookup.
  cbn [settings set_settings recent_files recent_files_acts].
  rewrite trim_recent_take.
  destruct MAX_RECENT_FILES as [|n]; [lia|].
  destruct (recent_files_acts w) as [|a acts]; [done|].
  cbn. unfold recent_action. by rewrite arg_first_recent.
Qed.

Lemma hide_twice (a : RecentAction) : hide (hide a) = hide a.
Proof. reflexivity. Qed.

Lemma updateRecentFileActions_twice (w : MainWindow) :
  updateRecentFileActions (updateRecentFileActions w) = updateRecentFileActions w.
Proof.
  assert (Hacts : recent_files_acts (updateRecentFileActions (updateRecentFileActions w))
                  = recent_files_acts (updateRecentFileActions w)).
  { apply list_eq. intros i. rewrite !recent_files_acts_lookup.
    change (settings (updateRecentFileActions w)) with (settings w).
    rewrite <- option_fmap_compose. apply option_fmap_ext. intros a.
    unfold compose. destruct (i <? MAX_RECENT_FILES)%nat; [|reflexivity].
    by destruct (recent_files (settings w) !! i). }
  unfold updateRecentFileActions at 1.
  unfold updateRecentFileActions at 1 in Hacts.
  cbn [recent_files_acts set_open_recent_menu set_recent_files_acts] in Hacts.
  rewrite Hacts.
  change (settings (updateRecentFileActions w)) with (settings w).
  unfold updateRecentFileActions. by destruct w.
Qed.

Lemma set_settings_same (w : MainWindow) : set_settings (settings w) w = w.
Proof. by destruct w. Qed.

Lemma filter_all {A} (P : A → Prop) `{!∀ x, Decision (P x)} (l : list A) :
  Forall P l → filter P l = l.
Proof.
  induction 1 as [|x l Hx _ IH]; [reflexivity|].
  by rewrite filter_cons, decide_True, IH.
Qed.

(** X10. [updateRecentFiles] is idempotent: recording the same file a
    second time changes nothing, neither in the list of recent files nor in
    [last_dir] nor in the actions of the menu. *)
Theorem updateRecentFiles_twice (fn : string) (w : MainWindow) :
  updateRecentFiles fn (updateRecentFiles fn w) = updateRecentFiles fn w.
Proof.
  set (w' := updateRecentFiles fn w).
  assert (Hlist : trim_recent (fn :: filter (λ x, x ≠ fn) (recent_files (settings w')))
                  = recent_files (settings w')).
  { subst w'. rewrite recent_files_updateRecentFiles, trim_recent_take.
    destruct MAX_RECENT_FILES as [|n]; [reflexivity|]. cbn [take].
    rewrite filter_cons, decide_False by (by intros Hne; apply Hne).
    f_equal. rewrite filter_all, take_take; [f_equal; lia|].
    apply Forall_forall. intros x Hx.
    pose proof (elem_of_prefix _ _ _ Hx (prefix_take _ _)) as Hin.
    by apply list_elem_of_filter in Hin as [Hne _]. }
  unfold updateRecentFiles at 1. rewrite Hlist.
  assert (Hsettings :
    {| recent_files := recent_files (settings w');
       last_dir := QFileInfo_absolutePath fn (world w') |} = settings w').
  { subst w'. unfold updateRecentFiles. reflexivity. }
  rewrite Hsettings, set_settings_same.
  subst w'. unfold updateRecentFiles. apply updateRecentFileActions_twice.
Qed.

(** ** Saving, file by file *)

(** One round of the loop of [saveFile]: a file with a name is saved, for a
    file without one the dialog is shown. *)
Lemma saveFile_files_cons (s : SourceSet) (f : DBCFile)
    (files : list (SourceSet * DBCFile)) (w : MainWindow) :
  ∃ w1, (saveFile_files ((s, f) :: files) w).2 = (saveFile_files files w1).2
        ∧ saved_files (log w1)
          = saved_files (log w) ++ (if decide (filename f ≠ "") then [f] else [])
        ∧ length (save_dialogs (log w1))
          = (length (save_dialogs (log w))
             + (if decide (filename f = "") then 1 else 0))%nat.
Proof.
  cbn [saveFile_files snd].
  set (step := if negb (isEmpty (filename f)) then _ else _).
  exists step.2. split; [reflexivity|]. subst step.
  unfold saved_files, save_dialogs.
  destruct (decide (filename f = "")) as [Hname|Hname].
  - rewrite decide_False by congruence.
    replace (negb (isEmpty (filename f))) with false
      by (unfold isEmpty; by rewrite bool_decide_true).
    destruct (negb (isEmpty _)); cbn [snd];
      change (log (updateRecentFiles ?fn ?x)) with (log x);
      unfold getSaveFileName; cbn [snd log emit set_log set_world];
      rewrite ?omap_app, ?List.filter_app, ?length_app; cbn;
      rewrite ?app_nil_r; split; try reflexivity; lia.
  - rewrite decide_True by done.
    replace (negb (isEmpty (filename f))) with true
      by (unfold isEmpty; by rewrite bool_decide_false).
    cbn [snd].
    change (log (updateRecentFiles ?fn ?x)) with (log x).
    cbn [log emit set_log set_world].
    rewrite omap_app, List.filter_app, length_app. cbn.
    rewrite ?app_nil_r. split; [reflexivity|lia].
Qed.

Lemma saveFile_files_log (files : list (SourceSet * DBCFile)) (w : MainWindow) :
  saved_files (log (saveFile_files files w).2)
  = saved_files (log w) ++ filter (λ f, filename f ≠ "") files.*2
  ∧ length (save_dialogs (log (saveFile_files files w).2))
    = (length (save_dialogs (log w))
       + length (filter (λ f, filename f = "") files.*2))%nat.
Proof.
  revert w. induction files as [|[s f] files IH]; intros w.
  - cbn. by rewrite app_nil_r, Nat.add_0_r.
  - destruct (saveFile_files_cons s f files w) as (w1 & -> & Hsaved & Hdialogs).
    destruct (IH w1) as [-> ->]. rewrite Hsaved, Hdialogs.
    cbn [fmap list_fmap snd]. rewrite !filter_cons.
    destruct (decide (filename f ≠ "")), (decide (filename f = ""));
      try congruence; cbn [length]; rewrite <- ?app_assoc; split;
      try reflexivity; lia.
Qed.

(** X11. [saveFile] calls [save()] on the open files that have a file name,
    on each once and in their order, shows the dialog for a file name once
    for each file without one, and ends with the status message "File
    saved", also when no file was written. *)
Theorem saveFile_saves_each_once (w : MainWindow) :
  saved_files (log (saveFile w)) = saved_files (log w) ++ named_files w
  ∧ length (save_dialogs (log (saveFile w)))
    = (length (save_dialogs (log w)) + length (untitled_files w))%nat
  ∧ last (log (saveFile w)) = Some (StatusMessage "File saved" 2000).
Proof.
  destruct (saveFile_files_log (dbc_files w) w) as [Hsaved Hdialogs].
  assert (Hlog : log (saveFile w)
                 = log (saveFile_files (dbc_files w) w).2
                   ++ [StatusMessage "File saved" 2000]).
  { unfold saveFile, showMessage, emit. cbn [log set_log]. f_equal.
    destruct (background_UndoStack_setClean
                (set_dbc_files (saveFile_files (dbc_files w) w).1
                               (saveFile_files (dbc_files w) w).2))
      as (evs & Hevs & _).
    unfold UndoStack_setClean in *.
    destruct (QUndoStack.isClean _); reflexivity. }
  rewrite Hlog. unfold saved_files, save_dialogs in *.
  rewrite omap_app, List.filter_app, length_app, Hsaved, Hdialogs. cbn.
  repeat split; [apply app_nil_r | unfold untitled_files; lia | apply last_snoc].
Qed.

(** X12. With one open file that has no name, a user who cancels the file
    dialog and a stack that is not clean, [saveFile] writes nothing: it
    shows the dialog and "File saved", keeps the open file as it is, and
    leaves the undo stack clean and the window unmodified, so that
    [remindSaveChanges] afterwards asks nothing. *)
Theorem saveFile_cancelled_still_clean (s : SourceSet) (f : DBCFile)
    (w : MainWindow) :
  dbc_files w = [(s, f)] →
  filename f = "" →
  QUndoStack.isClean (undo_stack w) = false →
  let path := QDir_cleanPath (last_dir (settings w) +:+ "/untitled.dbc") in
  (QFileDialog_getSaveFileName "Save File" path "DBC (*.dbc)" (world w)).1 = "" →
  log (saveFile w)
  = log w ++ [SaveFileDialog "Save File" path "DBC (*.dbc)";
              StatusMessage "File saved" 2000]
  ∧ dbc_files (saveFile w) = [(s, f)]
  ∧ QUndoStack.isClean (undo_stack (saveFile w)) = true
  ∧ windowModified (saveFile w) = false
  ∧ boxes (log (remindSaveChanges (saveFile w))) = boxes (log (saveFile w)).
Proof.
  intros Hfiles Hname Hunclean path Hcancel.
  assert (Hclean : QUndoStack.isClean (undo_stack (saveFile w)) = true)
    by apply saveFile_isClean.
  set (asked := getSaveFileName (tr "Save File") path (tr "DBC (*.dbc)") w).
  assert (Hloop : saveFile_files (dbc_files w) w = ([(s, f)], asked.2)).
  { rewrite Hfiles. cbn [saveFile_files]. fold path. fold asked.
    replace (negb (isEmpty (filename f))) with false
      by (unfold isEmpty; by rewrite bool_decide_true).
    replace (negb (isEmpty asked.1)) with false
      by (unfold isEmpty; by rewrite bool_decide_true).
    reflexivity. }
  assert (Hsave : saveFile w
                  = showMessage (tr "File saved") 2000
                      (undoStackCleanChanged true
                         (set_undo_stack
                            (QUndoStack.mk (QUndoStack.command_list (undo_stack w))
                               (QUndoStack.index (undo_stack w))
                               (QUndoStack.index (undo_stack w)))
                            (set_dbc_files [(s, f)] asked.2)))).
  { unfold saveFile. rewrite Hloop. cbn [fst snd]. unfold UndoStack_setClean.
    change (undo_stack (set_dbc_files _ asked.2)) with (undo_stack w).
    by rewrite Hunclean. }
  split; [|split; [|split; [exact Hclean|split]]].
  - rewrite Hsave. cbn. by rewrite <- app_assoc.
  - by rewrite Hsave.
  - by rewrite Hsave.
  - rewrite boxes_remindSaveChanges, Hclean. apply app_nil_r.
Qed.

(** ** Closing, in order *)

Lemma log_cleanupAutoSaveFile (w : MainWindow) :
  log (cleanupAutoSaveFile w) = log w ++ (DbcFileCleanup <$> (dbc_files w).*2).
Proof. unfold cleanupAutoSaveFile. by rewrite cleanupAutoSaveFile_files_spec. Qed.

(** X13. [close] first calls [cleanupAutoSaveFile] on every open DBC file,
    with or without a file name and in their order, before it asks
    anything; its last two steps are saving the settings and closing the
    window. *)
Theorem close_cleans_up_first (w : MainWindow) :
  ∃ rest,
    log (close w)
    = log w ++ (DbcFileCleanup <$> (dbc_files w).*2) ++ rest
        ++ [SettingsSave; WindowClose].
Proof.
  destruct (remindSaveChanges_log (cleanupAutoSaveFile w))
    as (w1 & (evs & Hlog & _) & Hw1).
  exists ((if QUndoStack.isClean (undo_stack (cleanupAutoSaveFile w)) then []
           else [QuestionBox (tr "Unsaved Changes")
                   (tr "You have unsaved changes. Press ok to save them, cancel to discard.")])
          ++ evs).
  unfold close, closeEvent. cbn [log emit set_log].
  rewrite Hlog, Hw1, log_cleanupAutoSaveFile.
  by rewrite <- !app_assoc.
Qed.

(** ** A file that loads *)

Lemma arg_loaded (fn : string) :
  QString.arg (tr "DBC File %1 loaded") fn = "DBC File " +:+ fn +:+ " loaded".
Proof. reflexivity. Qed.

(** X14. When [open] succeeds in [loadFile], the list of recent files
    starts with [fn] itself, also when the auto saved copy was the file
    opened; [last_dir] is the directory of [fn]; no warning is shown; and
    the status bar reads "DBC File fn loaded". *)
Theorem loadFile_success_records (fn : string) (s : SourceSet) (close_all : bool)
    (w : MainWindow) :
  fn ≠ "" →
  (1 ≤ MAX_RECENT_FILES)%nat →
  let chosen := loadFile_choose fn w in
  let opened := dbc_open_file s chosen.1 (before_open close_all chosen.2) in
  opened.1.1 = true →
  head (recent_files (settings (loadFile fn s close_all w))) = Some fn
  ∧ last_dir (settings (loadFile fn s close_all w))
    = QFileInfo_absolutePath fn (world opened.2)
  ∧ boxes (log (loadFile fn s close_all w)) = boxes (log chosen.2)
  ∧ last (log (loadFile fn s close_all w))
    = Some (StatusMessage ("DBC File " +:+ fn +:+ " loaded") 2000).
Proof.
  intros Hfn Hmax chosen opened Hok.
  assert (Hload : loadFile fn s close_all w
                  = updateLoadSaveMenus
                      (showMessage ("DBC File " +:+ fn +:+ " loaded") 2000
                         (updateRecentFiles fn opened.2))).
  { unfold loadFile, isEmpty. rewrite bool_decide_false by done. cbn [negb].
    unfold loadFile_open. fold chosen. fold (before_open close_all chosen.2).
    fold opened. by rewrite Hok, arg_loaded. }
  rewrite Hload. split; [|split; [|split]].
  - change (settings (updateLoadSaveMenus (showMessage _ _ ?x))) with (settings x).
    rewrite recent_files_updateRecentFiles.
    destruct MAX_RECENT_FILES; [lia|reflexivity].
  - reflexivity.
  - lhs_is (boxes (log opened.2 ++ [StatusMessage ("DBC File " +:+ fn +:+ " loaded") 2000])).
    unfold boxes at 1. rewrite List.filter_app, app_nil_r.
    fold (boxes (log opened.2)). subst opened.
    by rewrite boxes_dbc_open_file, boxes_before_open.
  - apply last_snoc.
Qed.

(** ** Opening a file for one bus *)

Lemma manager_calls_loadFile (fn : string) (s : SourceSet) (close_all : bool)
    (w : MainWindow) :
  fn ≠ "" →
  manager_calls (log (loadFile fn s close_all w))
  = manager_calls (log w) ++ (if close_all then [DbcCloseAll] else [])
      ++ [DbcOpenFile s (if autosave_accepted fn w
                         then fn +:+ AUTO_SAVE_EXTENSION else fn)].
Proof.
  intros Hfn. unfold loadFile, isEmpty. rewrite bool_decide_false by done.
  cbn [negb]. rewrite loadFile_open_manager_calls, loadFile_choose_name.
  f_equal. rewrite loadFile_choose_log.
  unfold manager_calls. rewrite List.filter_app. cbn.
  destruct (QFile_exists _ _); apply app_nil_r.
Qed.

(** X15. [openFileForSource], for an action with a bus [b] below 64, passes
    its assertion. When the user picks a file, the manager is asked once,
    to open it (or its auto saved copy) for the three sources [b],
    [b + 128] and [b + 192], none of which wraps around, and it is not
    asked to close the files of the other buses. When the user cancels,
    the manager is not called. *)
Theorem openFileForSource_opens_for_bus (action : BusAction) (w : MainWindow) :
  (bus_data action < 64)%N →
  let b := bus_data action in
  let asked :=
    getOpenFileName "Open File" (last_dir (settings w)) "DBC (*.dbc)" w in
  let fn := asked.1 in
  ∃ w', openFileForSource (Some action) w = Done w'
        ∧ manager_calls (log w')
          = manager_calls (log w)
              ++ (if bool_decide (fn = "") then []
                  else [DbcOpenFile {[ b; (b + 128)%N; (b + 192)%N ]}
                          (if autosave_accepted fn asked.2
                           then fn +:+ AUTO_SAVE_EXTENSION else fn)]).
Proof.
  intros Hlt b asked fn. unfold openFileForSource, value_uint8, uint8.
  rewrite !(N.mod_small _ 256) by (fold b; lia). fold b.
  destruct (N.ltb_spec b 64) as [_|]; [|lia].
  assert (Hasked : manager_calls (log asked.2) = manager_calls (log w)).
  { subst asked. unfold getOpenFileName. cbn [snd log set_world emit set_log].
    unfold manager_calls. rewrite List.filter_app. apply app_nil_r. }
  change (getOpenFileName (tr "Open File") (last_dir (settings w)) "DBC (*.dbc)" w)
    with asked.
  change asked.1 with fn. unfold isEmpty.
  destruct (decide (fn = "")) as [Hfn|Hfn].
  - rewrite !bool_decide_true by done. cbn [negb].
    eexists; split; [reflexivity|]. by rewrite Hasked, app_nil_r.
  - rewrite !bool_decide_false by done. cbn [negb].
    eexists; split; [reflexivity|].
    rewrite manager_calls_loadFile by done. by rewrite Hasked.
Qed.

(** ** Without the table of fingerprints *)

Lemma read_fingerprint_to_dbc_unreadable (paths : list string) (w : MainWindow) :
  Forall (λ path, QFile_readJson path (world w) = None) paths →
  read_fingerprint_to_dbc paths w = w.
Proof.
  induction 1 as [|path paths Hpath _ IH]; [reflexivity|].
  cbn. by rewrite Hpath.
Qed.

(** X16. When neither of the two JSON files can be opened, the constructor
    leaves the table as it is, and with the null document it starts with,
    no fingerprint finds a DBC: on a window without messages
    [loadDBCFromFingerprint] closes all files and creates a new one,
    whatever the fingerprint. *)
Theorem no_table_new_file (w : MainWindow) :
  Forall (λ path, QFile_readJson path (world w) = None) fingerprint_paths →
  fingerprint_to_dbc w = JsonDocNull →
  msgCount (dbc_files w) = 0 →
  let w0 := read_fingerprint_to_dbc fingerprint_paths w in
  w0 = w
  ∧ manager_calls (log (loadDBCFromFingerprint w0))
    = manager_calls (log w) ++ [DbcCloseAll; DbcOpenText SOURCE_ALL "" ""].
Proof.
  intros Hpaths Htable Hcount w0.
  assert (Hw0 : w0 = w) by (by apply read_fingerprint_to_dbc_unreadable).
  split; [exact Hw0|]. rewrite Hw0.
  unfold loadDBCFromFingerprint. rewrite Hcount. cbn [Z.eqb negb].
  set (w2 := if can_liveStreaming _ then _ else _).
  assert (Hw2 : ∃ title, w2 = set_video_dock title (remindSaveChanges w))
    by (subst w2; destruct (can_liveStreaming _); eauto).
  destruct Hw2 as [title Hw2].
  assert (Hnew : manager_calls (log (newFile w2))
                 = manager_calls (log w)
                     ++ [DbcCloseAll; DbcOpenText SOURCE_ALL "" ""]).
  { rewrite manager_calls_newFile, Hw2.
    change (log (set_video_dock title ?x)) with (log x).
    by rewrite manager_calls_remindSaveChanges. }
  replace (json_at (fingerprint_to_dbc w2) _) with (@None QJsonData).
  - by destruct (negb _).
  - rewrite Hw2.
    change (fingerprint_to_dbc (set_video_dock title ?x)) with (fingerprint_to_dbc x).
    by rewrite fingerprint_to_dbc_remindSaveChanges, Htable.
Qed.

(** ** Clearing the undo stack *)

(** X17. Clearing an undo stack that holds commands shows one status
    message, "Redo " when the recorded count was 0 and the empty message
    otherwise (there is no command before the first), records index and
    count 0, leaves the stack clean and the window unmodified, and writes
    no auto saved copy. *)
Theorem UndoStack_clear_message (w : MainWindow) :
  QUndoStack.command_list (undo_stack w) ≠ [] →
  log (UndoStack_clear w)
  = log w ++ [StatusMessage (if prev_undostack_count w =? 0 then "Redo " else "")
                            2000]
  ∧ prev_undostack_index (UndoStack_clear w) = 0
  ∧ prev_undostack_count (UndoStack_clear w) = 0
  ∧ undo_stack (UndoStack_clear w) = QUndoStack.mk [] 0 0
  ∧ world (UndoStack_clear w) = world w.
Proof.
  intros Hcommands.
  assert (Hindex : undoStackIndexChanged 0 (set_undo_stack (QUndoStack.mk [] 0 0) w)
                   = set_prev_undostack_count 0
                       (set_prev_undostack_index 0
                          (showMessage
                             (if prev_undostack_count w =? 0 then "Redo " else "")
                             2000 (set_undo_stack (QUndoStack.mk [] 0 0) w)))).
  { unfold undoStackIndexChanged, autoSave. cbn.
    by destruct (prev_undostack_count w) as [|p|p]. }
  unfold UndoStack_clear.
  destruct (QUndoStack.command_list (undo_stack w)); [done|].
  rewrite Hindex. by destruct (QUndoStack.isClean (undo_stack w)).
Qed.

End Further.

(** * The further properties on the concrete world *)

Example slots_never_push_witness :
  let w := Demo.edited Demo.quiet in
  let w' := @newFile Demo.collaborators w in
  @trigger Demo.collaborators NewFile w = Done w'
  ∧ (QUndoStack.command_list (undo_stack w') = QUndoStack.command_list (undo_stack w)
     ∨ QUndoStack.command_list (undo_stack w') = []).
Proof.
  intros w w'.
  assert (Hdone : @trigger Demo.collaborators NewFile w = Done w') by reflexivity.
  split; [exact Hdone|].
  exact (@slots_never_push Demo.collaborators NewFile w w' Hdone).
Defined.

Example slots_keep_modified_flag_witness :
  let w := Demo.edited Demo.quiet in
  (∀ clean, Save ≠ UndoStackCleanChanged clean)
  ∧ QUndoStack.wf (undo_stack w)
  ∧ modified_tracks w
  ∧ @trigger Demo.collaborators Save w = Done (@save Demo.collaborators w)
  ∧ QUndoStack.wf (undo_stack (@save Demo.collaborators w))
  ∧ modified_tracks (@save Demo.collaborators w).
Proof.
  intros w.
  assert (Hsl : ∀ clean, Save ≠ UndoStackCleanChanged clean) by discriminate.
  assert (Hwf : QUndoStack.wf (undo_stack w))
    by (unfold QUndoStack.wf, QUndoStack.count; simpl; lia).
  assert (Htracks : modified_tracks w) by reflexivity.
  assert (Hdone : @trigger Demo.collaborators Save w
                  = Done (@save Demo.collaborators w)) by reflexivity.
  split; [exact Hsl|]. split; [exact Hwf|]. split; [exact Htracks|].
  split; [exact Hdone|].
  exact (@slots_keep_modified_flag Demo.collaborators Save w _ Hsl Hwf Htracks Hdone).
Defined.

Example reminding_slots_forget_commands_witness :
  let w := Demo.edited Demo.quiet in
  @reminds_first Demo.collaborators LoadDBCFromClipboard w = true
  ∧ @trigger Demo.collaborators LoadDBCFromClipboard w
    = Done (@loadDBCFromClipboard Demo.collaborators w)
  ∧ QUndoStack.command_list
      (undo_stack (@loadDBCFromClipboard Demo.collaborators w)) = [].
Proof.
  intros w.
  assert (Hfirst : @reminds_first Demo.collaborators LoadDBCFromClipboard w = true)
    by reflexivity.
  assert (Hdone : @trigger Demo.collaborators LoadDBCFromClipboard w
                  = Done (@loadDBCFromClipboard Demo.collaborators w))
    by reflexivity.
  split; [exact Hfirst|]. split; [exact Hdone|].
  exact (@reminding_slots_forget_commands Demo.collaborators
           LoadDBCFromClipboard w _ Hfirst Hdone).
Defined.

Example first_recent_reopens_witness :
  let w := Demo.window Demo.quiet in
  let w2 := Demo.edited Demo.autosaved in
  let first :=
    {| recent_text := "&1 " +:+ @QFileInfo_fileName Demo.collaborators "a.dbc";
       recent_data := "a.dbc";
       recent_visible := true |} in
  (1 ≤ @MAX_RECENT_FILES Demo.collaborators)%nat
  ∧ recent_files_acts w ≠ []
  ∧ recent_files_acts (@updateRecentFiles Demo.collaborators "a.dbc" w) !! 0%nat
    = Some first
  ∧ @openRecentFile Demo.collaborators (Some first) w2
    = @loadFile Demo.collaborators "a.dbc"
        (@loadFile_default_s Demo.collaborators)
        (@loadFile_default_close_all Demo.collaborators)
        (@remindSaveChanges Demo.collaborators w2).
Proof.
  intros w w2 first.
  assert (Hmax : (1 ≤ @MAX_RECENT_FILES Demo.collaborators)%nat) by (simpl; lia).
  assert (Hacts : recent_files_acts w ≠ []) by discriminate.
  split; [exact Hmax|]. split; [exact Hacts|].
  exact (@first_recent_reopens Demo.collaborators "a.dbc" w w2 Hmax Hacts).
Defined.

Example saveFile_cancelled_still_clean_witness :
  let w := Demo.untitled in
  let s : SourceSet := {[ 255%N ]} in
  let f : @DBCFile Demo.collaborators := "" in
  let path :=
    @QDir_cleanPath Demo.collaborators (last_dir (settings w) +:+ "/untitled.dbc") in
  dbc_files w = [(s, f)]
  ∧ @filename Demo.collaborators f = ""
  ∧ QUndoStack.isClean (undo_stack w) = false
  ∧ (@QFileDialog_getSaveFileName Demo.collaborators
       "Save File" path "DBC (*.dbc)" (world w)).1 = ""
  ∧ log (@saveFile Demo.collaborators w)
    = log w ++ [SaveFileDialog "Save File" path "DBC (*.dbc)";
                StatusMessage "File saved" 2000]
  ∧ dbc_files (@saveFile Demo.collaborators w) = [(s, f)]
  ∧ QUndoStack.isClean (undo_stack (@saveFile Demo.collaborators w)) = true
  ∧ windowModified (@saveFile Demo.collaborators w) = false
  ∧ boxes (log (@remindSaveChanges Demo.collaborators
                  (@saveFile Demo.collaborators w)))
    = boxes (log (@saveFile Demo.collaborators w)).
Proof.
  intros w s f path.
  assert (Hfiles : dbc_files w = [(s, f)]) by reflexivity.
  assert (Hname : @filename Demo.collaborators f = "") by reflexivity.
  assert (Hunclean : QUndoStack.isClean (undo_stack w) = false) by reflexivity.
  assert (Hcancel : (@QFileDialog_getSaveFileName Demo.collaborators
                       "Save File" path "DBC (*.dbc)" (world w)).1 = "")
    by reflexivity.
  split; [exact Hfiles|]. split; [exact Hname|]. split; [exact Hunclean|].
  split; [exact Hcancel|].
  exact (@saveFile_cancelled_still_clean Demo.collaborators s f w
           Hfiles Hname Hunclean Hcancel).
Defined.

Example loadFile_success_records_witness :
  let w := Demo.window Demo.autosaved in
  let s : SourceSet := {[ 0%N ]} in
  let chosen := @loadFile_choose Demo.collaborators "a.dbc" w in
  let opened :=
    @dbc_open_file Demo.collaborators s chosen.1
      (@before_open Demo.collaborators true chosen.2) in
  let loaded := @loadFile Demo.collaborators "a.dbc" s true w in
  "a.dbc" ≠ ""
  ∧ (1 ≤ @MAX_RECENT_FILES Demo.collaborators)%nat
  ∧ opened.1.1 = true
  ∧ head (recent_files (settings loaded)) = Some "a.dbc"
  ∧ last_dir (settings loaded)
    = @QFileInfo_absolutePath Demo.collaborators "a.dbc" (world opened.2)
  ∧ boxes (log loaded) = boxes (log chosen.2)
  ∧ last (log loaded)
    = Some (StatusMessage ("DBC File " +:+ "a.dbc" +:+ " loaded") 2000).
Proof.
  intros w s chosen opened loaded.
  assert (Hfn : "a.dbc" ≠ "") by discriminate.
  assert (Hmax : (1 ≤ @MAX_RECENT_FILES Demo.collaborators)%nat) by (simpl; lia).
  assert (Hopened : opened.1.1 = true) by (vm_compute; reflexivity).
  split; [exact Hfn|]. split; [exact Hmax|]. split; [exact Hopened|].
  exact (@loadFile_success_records Demo.collaborators "a.dbc" s true w
           Hfn Hmax Hopened).
Defined.

Example openFileForSource_opens_for_bus_witness :
  let w := Demo.window Demo.autosaved in
  let action := {| bus_text := "Bus 1 (current: no DBC)"; bus_data := 1 |} in
  let b := bus_data action in
  let asked :=
    @getOpenFileName Demo.collaborators
      "Open File" (last_dir (settings w)) "DBC (*.dbc)" w in
  let fn := asked.1 in
  (bus_data action < 64)%N
  ∧ ∃ w', @openFileForSource Demo.collaborators (Some action) w = Done w'
          ∧ manager_calls (log w')
            = manager_calls (log w)
                ++ (if bool_decide (fn = "") then []
                    else [DbcOpenFile {[ b; (b + 128)%N; (b + 192)%N ]}
                            (if @autosave_accepted Demo.collaborators fn asked.2
                             then fn +:+ @AUTO_SAVE_EXTENSION Demo.collaborators
                             else fn)]).
Proof.
  intros w action b asked fn.
  assert (Hlt : (bus_data action < 64)%N) by (simpl; lia).
  split; [exact Hlt|].
  exact (@openFileForSource_opens_for_bus Demo.collaborators action w Hlt).
Defined.

Example no_table_new_file_witness :
  let w := Demo.window Demo.quiet in
  let w0 :=
    @read_fingerprint_to_dbc Demo.collaborators fingerprint_paths w in
  Forall (λ path, @QFile_readJson Demo.collaborators path (world w) = None)
         fingerprint_paths
  ∧ fingerprint_to_dbc w = JsonDocNull
  ∧ @msgCount Demo.collaborators (dbc_files w) = 0
  ∧ w0 = w
  ∧ manager_calls (log (@loadDBCFromFingerprint Demo.collaborators w0))
    = manager_calls (log w)
        ++ [DbcCloseAll; DbcOpenText (@SOURCE_ALL Demo.collaborators) "" ""].
Proof.
  intros w w0.
  assert (Hpaths : Forall (λ path, @QFile_readJson Demo.collaborators path (world w)
                                   = None)
                          fingerprint_paths)
    by (repeat constructor).
  assert (Htable : fingerprint_to_dbc w = JsonDocNull) by reflexivity.
  assert (Hcount : @msgCount Demo.collaborators (dbc_files w) = 0) by reflexivity.
  split; [exact Hpaths|]. split; [exact Htable|]. split; [exact Hcount|].
  exact (@no_table_new_file Demo.collaborators w Hpaths Htable Hcount).
Defined.

Example UndoStack_clear_message_witness :
  let w := Demo.edited Demo.quiet in
  QUndoStack.command_list (undo_stack w) ≠ []
  ∧ log (@UndoStack_clear Demo.collaborators w)
    = log w ++ [StatusMessage (if prev_undostack_count w =? 0 then "Redo " else "")
                              2000]
  ∧ prev_undostack_index (@UndoStack_clear Demo.collaborators w) = 0
  ∧ prev_undostack_count (@UndoStack_clear Demo.collaborators w) = 0
  ∧ undo_stack (@UndoStack_clear Demo.collaborators w) = QUndoStack.mk [] 0 0
  ∧ world (@UndoStack_clear Demo.collaborators w) = world w.
Proof.
  intros w.
  assert (Hcommands : QUndoStack.command_list (undo_stack w) ≠ []) by discriminate.
  split; [exact Hcommands|].
  exact (@UndoStack_clear_message Demo.collaborators w Hcommands).
Defined.

(** * The frame of the window *)

Section Frame.

Lemma flag_testbit (a : Z) (k : Z) :
  0 ≤ k → negb (Z.land a (2 ^ k) =? 0) = Z.testbit a k.
Proof.
  intros Hk. destruct (Z.testbit a k) eqn:Hbit.
  - destruct (Z.eqb_spec (Z.land a (2 ^ k)) 0) as [Hzero|]; [|reflexivity].
    assert (Hk' : Z.testbit (Z.land a (2 ^ k)) k = true).
    { by rewrite Z.land_spec, Hbit, Z.pow2_bits_true. }
    rewrite Hzero, Z.bits_0 in Hk'. discriminate.
  - replace (Z.land a (2 ^ k)) with 0; [reflexivity|].
    apply Z.bits_inj'. intros n Hn.
    rewrite Z.bits_0, Z.land_spec, Z.pow2_bits_eqb by done.
    destruct (Z.eqb_spec k n) as [->|]; [by rewrite Hbit | by rewrite andb_false_r].
Qed.

Lemma isMinimized_testbit (q : QWidget.t) :
  QWidget.isMinimized q = Z.testbit (QWidget.windowState q) 0.
Proof. apply (flag_testbit _ 0). lia. Qed.

Lemma isMaximized_testbit (q : QWidget.t) :
  QWidget.isMaximized q = Z.testbit (QWidget.windowState q) 1.
Proof. apply (flag_testbit _ 1). lia. Qed.

Lemma isFullScreen_testbit (q : QWidget.t) :
  QWidget.isFullScreen q = Z.testbit (QWidget.windowState q) 2.
Proof. apply (flag_testbit _ 2). lia. Qed.

(** The bits of a small constant, by cases on the position. *)
Lemma testbit_below (c n : Z) :
  0 ≤ c < 8 → 3 ≤ n → Z.testbit c n = false.
Proof.
  intros Hc Hn. destruct (Z.eq_dec c 0) as [->|]; [apply Z.bits_0|].
  apply Z.bits_above_log2; [lia|].
  assert (Z.log2 c < 3); [|lia]. apply Z.log2_lt_pow2; lia.
Qed.

Lemma testbit_showNormal (q : QWidget.t) (n : Z) :
  0 ≤ n →
  Z.testbit (QWidget.windowState (QWidget.showNormal q)) n
  = Z.testbit (QWidget.windowState q) n && bool_decide (3 ≤ n).
Proof.
  intros Hn. cbn [QWidget.showNormal QWidget.windowState].
  rewrite Z.land_spec, Z.lnot_spec by done. f_equal.
  change (Z.lor _ _) with 7. case_bool_decide as Hc.
  - by rewrite testbit_below by lia.
  - assert (n = 0 ∨ n = 1 ∨ n = 2) as [->|[->| ->]] by lia; reflexivity.
Qed.

Lemma testbit_showMaximized (q : QWidget.t) (n : Z) :
  0 ≤ n →
  Z.testbit (QWidget.windowState (QWidget.showMaximized q)) n
  = if bool_decide (n = 1) then true
    else Z.testbit (QWidget.windowState q) n
         && negb (bool_decide (n = 0 ∨ n = 2)).
Proof.
  intros Hn. cbn [QWidget.showMaximized QWidget.windowState].
  rewrite Z.lor_spec, Z.land_spec, Z.lnot_spec by done.
  change (Z.lor _ _) with 5. change Qt.WindowMaximized with 2.
  destruct (decide (3 ≤ n)) as [Hc|Hc].
  - rewrite (testbit_below 5), (testbit_below 2) by lia.
    rewrite bool_decide_false, (bool_decide_false (_ ∨ _)) by lia.
    by rewrite orb_false_r.
  - assert (n = 0 ∨ n = 1 ∨ n = 2) as [->|[->| ->]] by lia; cbn;
      by rewrite ?andb_false_r, ?andb_true_r, ?orb_true_r, ?orb_false_r.
Qed.

Lemma testbit_showFullScreen (q : QWidget.t) (n : Z) :
  0 ≤ n →
  Z.testbit (QWidget.windowState (QWidget.showFullScreen q)) n
  = if bool_decide (n = 2) then true
    else Z.testbit (QWidget.windowState q) n
         && negb (bool_decide (n = 0 ∨ n = 1)).
Proof.
  intros Hn. cbn [QWidget.showFullScreen QWidget.windowState].
  rewrite Z.lor_spec, Z.land_spec, Z.lnot_spec by done.
  change (Z.lor _ _) with 3. change Qt.WindowFullScreen with 4.
  destruct (decide (3 ≤ n)) as [Hc|Hc].
  - rewrite (testbit_below 3), (testbit_below 4) by lia.
    rewrite bool_decide_false, (bool_decide_false (_ ∨ _)) by lia.
    by rewrite orb_false_r.
  - assert (n = 0 ∨ n = 1 ∨ n = 2) as [->|[->| ->]] by lia; cbn;
      by rewrite ?andb_false_r, ?andb_true_r, ?orb_true_r, ?orb_false_r.
Qed.

(** The state flags after [toggleFullScreen], bit by bit. *)
Lemma testbit_toggleFullScreen (f : Frame) (n : Z) :
  0 ≤ n →
  Z.testbit (QWidget.windowState (window (toggleFullScreen f))) n
  = if bool_decide (n = 0) then false
    else if bool_decide (n = 1) then QWidget.isFullScreen (window f)
    else if bool_decide (n = 2) then negb (QWidget.isFullScreen (window f))
    else Z.testbit (QWidget.windowState (window f)) n.
Proof.
  intros Hn. unfold toggleFullScreen.
  destruct (QWidget.isFullScreen (window f)) eqn:Hfull; cbn [window negb].
  - rewrite testbit_showMaximized, testbit_showNormal by done.
    repeat case_bool_decide; try lia;
      by destruct (Z.testbit (QWidget.windowState (window f)) n).
  - rewrite testbit_showFullScreen by done.
    repeat case_bool_decide; try lia;
      by destruct (Z.testbit (QWidget.windowState (window f)) n).
Qed.

Lemma toggleFullScreen_bars (f : Frame) :
  menuBar (toggleFullScreen f) = QWidget.isFullScreen (window f)
  ∧ statusBar (toggleFullScreen f) = QWidget.isFullScreen (window f)
  ∧ QWidget.isVisible (window (toggleFullScreen f)) = true.
Proof. unfold toggleFullScreen. by destruct (QWidget.isFullScreen _). Qed.

(** X18. [toggleFullScreen] flips the full screen flag of the window,
    whatever its state. Afterwards the menu bar and the status bar are
    shown exactly when the window is not full screen, the window is visible
    and not minimized, and it is maximized exactly when it has left full
    screen: a window that was neither maximized nor full screen comes back
    maximized after two calls. The other flags (such as [WindowActive]) are
    kept. *)
Theorem toggleFullScreen_flips (f : Frame) :
  let f' := toggleFullScreen f in
  QWidget.isFullScreen (window f') = negb (QWidget.isFullScreen (window f))
  ∧ menuBar f' = negb (QWidget.isFullScreen (window f'))
  ∧ statusBar f' = negb (QWidget.isFullScreen (window f'))
  ∧ QWidget.isVisible (window f') = true
  ∧ QWidget.isMinimized (window f') = false
  ∧ QWidget.isMaximized (window f') = negb (QWidget.isFullScreen (window f'))
  ∧ ∀ n, 3 ≤ n →
      Z.testbit (QWidget.windowState (window f')) n
      = Z.testbit (QWidget.windowState (window f)) n.
Proof.
  intros f'.
  assert (Hfull : QWidget.isFullScreen (window f')
                  = negb (QWidget.isFullScreen (window f))).
  { rewrite (isFullScreen_testbit (window f')). subst f'.
    by rewrite testbit_toggleFullScreen. }
  rewrite Hfull, negb_involutive.
  pose proof (toggleFullScreen_bars f) as (Hmenu & Hstatus & Hvisible).
  split; [reflexivity|]. split; [|split; [|split; [|split; [|split]]]].
  - exact Hmenu.
  - exact Hstatus.
  - exact Hvisible.
  - rewrite isMinimized_testbit. subst f'. by rewrite testbit_toggleFullScreen.
  - rewrite isMaximized_testbit. subst f'. by rewrite testbit_toggleFullScreen.
  - intros n Hn. subst f'. rewrite testbit_toggleFullScreen by lia.
    by rewrite !bool_decide_false by lia.
Qed.

(** X19. From the first call on, [toggleFullScreen] switches between two
    states: the third call gives the state of the first. (The second need
    not give the state before the first, which may have been minimized or
    not maximized.) *)
Theorem toggleFullScreen_alternates (f : Frame) :
  toggleFullScreen (toggleFullScreen (toggleFullScreen f)) = toggleFullScreen f.
Proof.
  assert (Hframe : ∀ a b : Frame,
             QWidget.windowState (window a) = QWidget.windowState (window b) →
             QWidget.isVisible (window a) = QWidget.isVisible (window b) →
             menuBar a = menuBar b → statusBar a = statusBar b → a = b).
  { intros [[] ] [[] ]; cbn; congruence. }
  pose proof (toggleFullScreen_bars f) as (Hm1 & Hs1 & Hv1).
  pose proof (toggleFullScreen_bars (toggleFullScreen (toggleFullScreen f)))
    as (Hm3 & Hs3 & Hv3).
  assert (Hfull : ∀ g, QWidget.isFullScreen (window (toggleFullScreen g))
                       = negb (QWidget.isFullScreen (window g))).
  { intros g. rewrite (isFullScreen_testbit (window (toggleFullScreen g))).
    by rewrite testbit_toggleFullScreen. }
  apply Hframe.
  - apply Z.bits_inj'. intros n Hn.
    rewrite !testbit_toggleFullScreen by done.
    rewrite !Hfull, !negb_involutive.
    by repeat case_bool_decide.
  - by rewrite Hv1, Hv3.
  - by rewrite Hm1, Hm3, !Hfull, !negb_involutive.
  - by rewrite Hs1, Hs3, !Hfull, !negb_involutive.
Qed.

End Frame.

(** * The place of the charts *)

Section Charts.

Lemma filter_filter_not {A} (P : A → Prop) `{∀ x, Decision (P x)} (l : list A) :
  filter P (filter (λ x, ¬ P x) l) = [].
Proof.
  induction l as [|x l IH]; [reflexivity|].
  rewrite (filter_cons (λ x, ¬ P x)). destruct (decide (¬ P x)) as [Hx|Hx].
  - rewrite filter_cons. by destruct (decide (P x)).
  - exact IH.
Qed.

Lemma layout_take_charts (l : list (Widget * Z)) :
  filter (λ item, item.1 = charts_widget) (layout_take charts_widget l) = [].
Proof. apply (filter_filter_not (λ item, item.1 = charts_widget)). Qed.

(** X20. After [dockCharts dock] the charts float exactly when [dock] is
    false, whatever the state before: the two combinations that the slot
    does not handle are those where nothing is to be done. A second call
    with the same [dock] changes nothing, so no second floating window is
    made and no window is scheduled for deletion twice. *)
Theorem dockCharts_settles (dock : bool) (c : Charts) :
  let c' := dockCharts dock c in
  (floating_window c' = None ↔ dock = true)
  ∧ dockCharts dock c' = c'.
Proof.
  intros c'. subst c'. unfold dockCharts.
  destruct dock, (floating_window c) as [fw|] eqn:Hfw; cbn; rewrite ?Hfw;
    split; try reflexivity; split; try done.
Qed.

(** X21. [dockCharts] keeps the charts in one place: when they are laid
    out once, in [charts_layout] or in the floating window, they are so
    afterwards, in the floating window with their event filter installed
    on it; and the floating window that is scheduled for deletion no longer
    lays them out. *)
Theorem dockCharts_keeps_charts (dock : bool) (c : Charts) :
  charts_kept c → charts_kept (dockCharts dock c).
Proof.
  intros [Hplaced Hdeleted]. unfold dockCharts.
  destruct dock, (floating_window c) as [fw|] eqn:Hfw; try (by split).
  - split.
    + unfold charts_placed. cbn [floating_window charts_layout].
      rewrite filter_cons_True by done. by rewrite layout_take_charts.
    + cbn [deleteLater]. apply Forall_app. split; [exact Hdeleted|].
      apply Forall_singleton. cbn [fw_take fw_layout removeEventFilter].
      rewrite list_elem_of_filter. by intros [Hne _].
  - split; [|exact Hdeleted].
    unfold charts_placed. cbn [floating_window charts_layout].
    split; [apply layout_take_charts|]. split; [reflexivity|].
    cbn. apply list_elem_of_here.
Qed.

End Charts.

Example dockCharts_keeps_charts_witness :
  charts_kept docked
  ∧ charts_kept (dockCharts false docked).
Proof.
  assert (Hdocked : charts_kept docked).
  { split; [reflexivity | apply Forall_nil_2]. }
  split; [exact Hdocked | exact (dockCharts_keeps_charts false docked Hdocked)].
Defined.

(** * The reset of the clean state in [loadFile] *)

Section AutosaveReset.

Context `{Collaborators}.

(** [DBCFileChanged] clears the undo stack: a stack that holds commands, or
    is clean, is clean and empty afterwards. *)
Lemma DBCFileChanged_cleans (w : MainWindow) :
  QUndoStack.command_list (undo_stack w) ≠ []
  ∨ QUndoStack.isClean (undo_stack w) = true →
  QUndoStack.isClean (undo_stack (DBCFileChanged w)) = true
  ∧ QUndoStack.command_list (undo_stack (DBCFileChanged w)) = [].
Proof.
  intros Hw.
  change (undo_stack (DBCFileChanged w)) with (undo_stack (UndoStack_clear w)).
  rewrite undo_stack_UndoStack_clear.
  destruct (QUndoStack.command_list (undo_stack w)) eqn:Hlist.
  - destruct Hw as [Hw|Hw]; [done|]. by rewrite Hlist.
  - done.
Qed.

Lemma iter_DBCFileChanged_cleans (n : nat) (w : MainWindow) :
  QUndoStack.command_list (undo_stack w) ≠ []
  ∨ QUndoStack.isClean (undo_stack w) = true →
  (QUndoStack.command_list (undo_stack (Nat.iter n DBCFileChanged w)) ≠ []
   ∨ QUndoStack.isClean (undo_stack (Nat.iter n DBCFileChanged w)) = true)
  ∧ ((1 ≤ n)%nat →
     QUndoStack.isClean (undo_stack (Nat.iter n DBCFileChanged w)) = true
     ∧ QUndoStack.command_list (undo_stack (Nat.iter n DBCFileChanged w)) = []).
Proof.
  intros Hw. induction n as [|n [IH _]]; [split; [exact Hw | lia]|].
  rewrite Nat.iter_succ.
  destruct (DBCFileChanged_cleans _ IH) as [Hclean Hempty].
  split; [by right | by intros _].
Qed.

(** [loadFile] returns with the undo stack that [open] leaves. *)
Lemma undo_stack_loadFile (fn : string) (s : SourceSet) (close_all : bool)
    (w : MainWindow) :
  fn ≠ "" →
  let chosen := loadFile_choose fn w in
  undo_stack (loadFile fn s close_all w)
  = undo_stack (dbc_open_file s chosen.1 (before_open close_all chosen.2)).2.
Proof.
  intros Hfn chosen. unfold loadFile, isEmpty.
  rewrite bool_decide_false by done. cbn [negb].
  unfold loadFile_open. fold chosen. fold (before_open close_all chosen.2).
  by destruct (dbc_open_file s chosen.1 (before_open close_all chosen.2)).1.1.
Qed.

(** With a clean and empty undo stack, [close] asks nothing and saves
    nothing: it cleans up the auto saved files, saves the settings and
    closes. *)
Lemma log_close_clean (w : MainWindow) :
  QUndoStack.isClean (undo_stack w) = true →
  QUndoStack.command_list (undo_stack w) = [] →
  log (close w)
  = log w ++ (DbcFileCleanup <$> (dbc_files w).*2) ++ [SettingsSave; WindowClose].
Proof.
  intros Hclean Hempty. unfold close, closeEvent, remindSaveChanges.
  rewrite remindSaveChanges_loop_clean
    by (by rewrite undo_stack_cleanupAutoSaveFile).
  rewrite UndoStack_clear_no_commands
    by (by rewrite undo_stack_cleanupAutoSaveFile).
  cbn [log emit set_log]. rewrite log_cleanupAutoSaveFile.
  by rewrite <- !app_assoc.
Qed.

(** C3. [loadFile] checks for [fn + AUTO_SAVE_EXTENSION] and for no other
    path, and when the user takes the auto saved copy, that copy is what
    is opened and the undo stack is not clean when [open] is called. But
    the reset does not last where the undo stack holds commands and the
    manager emits [DBCFileChanged] during [open]: the slot of that signal
    clears the stack, [loadFile] returns with a clean stack, and [close]
    then deletes the auto saved files without a question and without a
    save. *)
Theorem loadFile_autosave_reset_undone (fn : string) (s : SourceSet)
    (close_all : bool) (w : MainWindow) :
  fn ≠ "" →
  QUndoStack.wf (undo_stack w) →
  QUndoStack.command_list (undo_stack w) ≠ [] →
  autosave_accepted fn w = true →
  let chosen := loadFile_choose fn w in
  let w1 := before_open close_all chosen.2 in
  let loaded := loadFile fn s close_all w in
  (1 ≤ mr_changed (DBCManager_open_file s chosen.1 (dbc_files w1) (world w1)))%nat →
  queries (log loaded)
  = queries (log w) ++ [FileExistsQuery (fn +:+ AUTO_SAVE_EXTENSION)]
  ∧ manager_calls (log loaded)
    = manager_calls (log w) ++ (if close_all then [DbcCloseAll] else [])
        ++ [DbcOpenFile s (fn +:+ AUTO_SAVE_EXTENSION)]
  ∧ QUndoStack.isClean (undo_stack chosen.2) = false
  ∧ QUndoStack.isClean (undo_stack loaded) = true
  ∧ log (close loaded)
    = log loaded ++ (DbcFileCleanup <$> (dbc_files loaded).*2)
        ++ [SettingsSave; WindowClose].
Proof.
  intros Hfn Hwf Hcommands Haccepted chosen w1 loaded Hemitted.
  destruct (loadFile_autosave fn s close_all w Hfn Hwf)
    as (Hqueries & _ & Hcalls & Hreset).
  rewrite Haccepted in Hcalls, Hreset.
  assert (Hchosen : QUndoStack.command_list (undo_stack chosen.2) ≠ []).
  { subst chosen. by rewrite loadFile_choose_undo_stack, Haccepted. }
  assert (Hw1 : QUndoStack.command_list (undo_stack w1) ≠ []
                ∨ QUndoStack.isClean (undo_stack w1) = true).
  { subst w1. unfold before_open, dbc_closeAll, after_manager.
    destruct close_all; [|by left].
    apply iter_DBCFileChanged_cleans. by left. }
  assert (Hloaded : QUndoStack.isClean (undo_stack loaded) = true
                    ∧ QUndoStack.command_list (undo_stack loaded) = []).
  { subst loaded. rewrite undo_stack_loadFile by done. fold chosen. fold w1.
    unfold dbc_open_file, after_manager. cbn [snd].
    by apply iter_DBCFileChanged_cleans. }
  destruct Hloaded as [Hclean Hempty].
  split; [exact Hqueries|]. split; [exact Hcalls|]. split; [exact Hreset|].
  split; [exact Hclean|]. by apply log_close_clean.
Qed.

End AutosaveReset.

Example loadFile_autosave_reset_undone_witness :
  let w0 := @updateSources Demo.collaborators {[ 0%N; 1%N; 66%N; 130%N ]}
              (Demo.edited Demo.autosaved) in
  let action := {| bus_text := "Bus 1 (current: no DBC)"; bus_data := 1 |} in
  let s : SourceSet := {[ 1%N; 129%N; 193%N ]} in
  let w := (@getOpenFileName Demo.collaborators
              "Open File" (last_dir (settings w0)) "DBC (*.dbc)" w0).2 in
  let chosen := @loadFile_choose Demo.collaborators "a.dbc" w in
  let w1 := @before_open Demo.collaborators false chosen.2 in
  let loaded := @loadFile Demo.collaborators "a.dbc" s false w in
  @openFileForSource Demo.collaborators (Some action) w0 = Done loaded
  ∧ "a.dbc" ≠ ""
  ∧ QUndoStack.wf (undo_stack w)
  ∧ QUndoStack.command_list (undo_stack w) = ["x"; "y"]
  ∧ @autosave_accepted Demo.collaborators "a.dbc" w = true
  ∧ (1 ≤ mr_changed (@DBCManager_open_file Demo.collaborators s chosen.1
                        (dbc_files w1) (world w1)))%nat
  ∧ queries (log loaded) = queries (log w) ++ [FileExistsQuery "a.dbc.tmp"]
  ∧ manager_calls (log loaded)
    = manager_calls (log w) ++ [] ++ [DbcOpenFile s "a.dbc.tmp"]
  ∧ QUndoStack.isClean (undo_stack chosen.2) = false
  ∧ QUndoStack.isClean (undo_stack loaded) = true
  ∧ log (@close Demo.collaborators loaded)
    = log loaded ++ (DbcFileCleanup <$> (dbc_files loaded).*2)
        ++ [SettingsSave; WindowClose].
Proof.
  intros w0 action s w chosen w1 loaded.
  assert (Hslot : @openFileForSource Demo.collaborators (Some action) w0
                  = Done loaded) by reflexivity.
  assert (Hfn : "a.dbc" ≠ "") by discriminate.
  assert (Hwf : QUndoStack.wf (undo_stack w))
    by (unfold QUndoStack.wf, QUndoStack.count; simpl; lia).
  assert (Hlist : QUndoStack.command_list (undo_stack w) = ["x"; "y"])
    by reflexivity.
  assert (Hcommands : QUndoStack.command_list (undo_stack w) ≠ [])
    by (rewrite Hlist; discriminate).
  assert (Haccepted : @autosave_accepted Demo.collaborators "a.dbc" w = true)
    by reflexivity.
  assert (Hemitted : (1 ≤ mr_changed (@DBCManager_open_file Demo.collaborators s
                                        chosen.1 (dbc_files w1) (world w1)))%nat)
    by (vm_compute; lia).
  split; [exact Hslot|]. split; [exact Hfn|]. split; [exact Hwf|].
  split; [exact Hlist|]. split; [exact Haccepted|]. split; [exact Hemitted|].
  exact (@loadFile_autosave_reset_undone Demo.collaborators "a.dbc" s false w
           Hfn Hwf Hcommands Haccepted Hemitted).
Defined.
